(** * Order workflow of the order-management server

    A shallow embedding of the order routes of the Express/Mongoose server:
    the [orderSchema.pre('save')] hook that assigns the order number,
    [POST /api/orders], [PUT /api/orders/:id/status] and
    [PUT /api/products/:id]; then of the other routes and of the pages that
    call them.

    Modelling conventions.
    - A JavaScript [Number] is an IEEE-754 binary64 value: the kernel's
      primitive [float], with its own addition and multiplication.
    - [Date.now()] and [countDocuments()] return non-negative integers; they
      are kept in [N] and [nat], and rendered in decimal by [toString].
    - A collection is the list of its documents, in insertion order.
    - A request-body field is [None] when it is absent (or [null]); a field
      that is present has its documented wire type.
    - An identifier in a request (a route parameter, a field of the body) is
      any string.  Mongoose casts it to the schema type of its path
      ([castObjectId]); a string that does not cast makes the operation
      throw, and the handler's [catch] answers with a 500.  A stored
      [ObjectId] is kept in the form in which it is printed and sent in JSON.
    - Which strings cast depends on the release of the bson library that is
      installed with Mongoose.  The routes are modelled in a section over it
      ([Bson]), and every theorem holds for either.
    - [document.save()] validates the document against its schema before
      the [pre('save')] hooks run and before anything is written.
    - A handler is a function from the database to a reply and the new
      database.  [populate], which only decorates the reply with display
      fields, and the [createdAt]/[updatedAt] stamps that Mongoose manages,
      are not part of the model. *)

From Stdlib Require Import String Ascii List Bool Arith NArith ZArith Lia.
From Stdlib Require Import Floats.
Import ListNotations.
Local Open Scope string_scope.

(** ** JavaScript values *)

(** An ObjectId, in its hexadecimal form: the 24 lower-case digits that
    [toString()] and [JSON.stringify] give. *)
Definition ObjectId := string.

(** [!s] is false: the string field is present and not empty. *)
Definition truthyString (s : option string) : bool :=
  match s with
  | None => false
  | Some EmptyString => false
  | Some (String _ _) => true
  end.

(** [!x] is false: the number field is present and is neither a zero (of
    either sign) nor NaN. *)
Definition truthyNumber (x : option float) : bool :=
  match x with
  | None => false
  | Some v => negb (PrimFloat.eqb v 0%float || PrimFloat.is_nan v)
  end.

(** *** [Number.prototype.toString] on non-negative integers *)

Definition digitChar (d : N) : ascii :=
  ascii_of_N (48 + d).

(** The decimal digits of [n], least significant first, pushed in front of
    [acc]. *)
Fixpoint digits (fuel : nat) (n : N) (acc : string) : string :=
  match fuel with
  | O => acc
  | S fuel' =>
      let acc' := String (digitChar (n mod 10)) acc in
      if (n / 10 =? 0)%N then acc' else digits fuel' (n / 10) acc'
  end.

(** A number of [N.size n] bits has at most [N.size n] decimal digits, so
    the fuel is enough ([parseDecimal_toString] below). *)
Definition toString (n : N) : string :=
  digits (S (N.to_nat (N.size n))) n "".

(** Reading a decimal numeral back. *)
Definition digitValue (c : ascii) : N :=
  N_of_ascii c - 48.

Fixpoint valueFrom (acc : N) (s : string) : N :=
  match s with
  | EmptyString => acc
  | String c rest => valueFrom (acc * 10 + digitValue c) rest
  end.

Definition parseDecimal (s : string) : N :=
  valueFrom 0 s.

(** *** [String.prototype.padStart] *)

(** The first [n] characters of [padString] repeated for ever; [cur] is what
    is left of the current copy. *)
Fixpoint filler (n : nat) (padString cur : string) : string :=
  match n with
  | O => ""
  | S n' =>
      match cur with
      | String c rest => String c (filler n' padString rest)
      | EmptyString =>
          match padString with
          | String c rest => String c (filler n' padString rest)
          | EmptyString => ""
          end
      end
  end.

Definition padStart (targetLength : nat) (padString : string) (s : string)
  : string :=
  if (targetLength <=? String.length s)%nat then s
  else filler (targetLength - String.length s) padString padString ++ s.

(** [k] characters ['0']. *)
Fixpoint zeros (k : nat) : string :=
  match k with
  | O => ""
  | S k' => String "0" (zeros k')
  end.

(** [Array.prototype.includes] on strings. *)
Definition includes (l : list string) (s : string) : bool :=
  existsb (String.eqb s) l.

(** *** Casting a string to an ObjectId *)

(** [0-9], [A-F] or [a-f]. *)
Definition isHexDigit (c : ascii) : bool :=
  let n := N_of_ascii c in
  ((48 <=? n) && (n <=? 57) || (65 <=? n) && (n <=? 70)
   || (97 <=? n) && (n <=? 102))%N.

(** The digit as [toString()] prints it. *)
Definition toLowerHex (c : ascii) : ascii :=
  let n := N_of_ascii c in
  if ((65 <=? n) && (n <=? 70))%N then ascii_of_N (n + 32) else c.

(** The lower-case form of a string of hexadecimal digits, [None] if some
    character is not one. *)
Fixpoint hexString (s : string) : option string :=
  match s with
  | EmptyString => Some EmptyString
  | String c rest =>
      if isHexDigit c then
        match hexString rest with
        | Some rest' => Some (String (toLowerHex c) rest')
        | None => None
        end
      else None
  end.

(** Every character is an ASCII character: the string is as many bytes in
    UTF-8 as it has characters. *)
Fixpoint isAscii (s : string) : bool :=
  match s with
  | EmptyString => true
  | String c rest => (N_of_ascii c <? 128)%N && isAscii rest
  end.

Definition hexDigit (d : N) : ascii :=
  if (d <? 10)%N then ascii_of_N (48 + d) else ascii_of_N (87 + d).

(** The bytes of an ASCII string, two hexadecimal digits each. *)
Fixpoint hexOfBytes (s : string) : string :=
  match s with
  | EmptyString => EmptyString
  | String c rest =>
      String (hexDigit (N_of_ascii c / 16))
        (String (hexDigit (N_of_ascii c mod 16)) (hexOfBytes rest))
  end.

(** What the installed bson library, whose [new ObjectId(value)] is
    Mongoose's cast to the schema type [ObjectId], takes for an ObjectId in
    a string: 24 hexadecimal digits, in either case, in every release; and
    in the older releases also a string of 12 characters that are 12 bytes,
    which is read as the twelve bytes themselves. *)
Inductive Bson :=
  | HexOnly
  | HexOrBytes.

(** ** Documents *)

Module Product.
Record t := mk
  { _id : ObjectId;
    name : string;
    category : string;
    description : string;
    price : float;
    stock : float;
    isActive : bool }.
End Product.

(** An entry of [orderSchema.products]. *)
Module LineItem.
Record t := mk
  { product : ObjectId;
    quantity : float;
    price : float }.
End LineItem.

Module Order.
Record t := mk
  { _id : ObjectId;
    orderNumber : option string;
    customer : ObjectId;
    products : list LineItem.t;
    totalAmount : float;
    status : string;
    orderDate : N;
    notes : option string }.

Definition setOrderNumber (v : option string) (o : t) : t :=
  mk (_id o) v (customer o) (products o) (totalAmount o) (status o)
     (orderDate o) (notes o).

Definition setCustomer (v : ObjectId) (o : t) : t :=
  mk (_id o) (orderNumber o) v (products o) (totalAmount o) (status o)
     (orderDate o) (notes o).

Definition setStatus (v : string) (o : t) : t :=
  mk (_id o) (orderNumber o) (customer o) (products o) (totalAmount o) v
     (orderDate o) (notes o).
End Order.

(** The two collections the order routes touch. *)
Record Db := mkDb
  { Products : list Product.t;
    Orders : list Order.t }.

(** ** Requests and replies *)

(** An entry of [req.body.products]. *)
Module Item.
Record t := mk
  { productId : option string;
    quantity : option float }.
End Item.

(** The body of [POST /api/orders]. *)
Module Body.
Record t := mk
  { customer : option string;
    products : option (list Item.t);
    notes : option string }.
End Body.

(** The body of [PUT /api/products/:id]: the fields it sets. *)
Module Patch.
Record t := mk
  { name : option string;
    category : option string;
    description : option string;
    price : option float;
    stock : option float;
    isActive : option bool }.
End Patch.

(** What a model operation throws: a violation of a unique index (E11000),
    the schema validators rejecting the listed paths, or a value that does
    not cast to the type [kind] of the path it is given for. *)
Inductive Exception :=
  | DuplicateKey (index : string) (key : option string)
  | ValidationError (paths : list string)
  | CastError (kind value path : string).

Inductive Json :=
  | Error (message : string)        (* { error: '...' } *)
  | ErrorOf (e : Exception)         (* { error: error.message } *)
  | OrderDoc (o : Order.t)
  | ProductDoc (p : Product.t).

(** [res.status(code).json(body)]. *)
Record Response := reply
  { code : nat;
    json : Json }.

(** What the driver and the clock give one [POST /api/orders]: the fresh
    [_id], the [Date.now()] read by the [orderDate] default when the
    document is built, and the [Date.now()] read by the save hook. *)
Record Env := mkEnv
  { newId : ObjectId;
    builtAt : N;
    savedAt : N }.

(** ** Documents, requests and replies of the other routes *)

(** The body of a reply that carries documents of type [A]. *)
Inductive Payload (A : Type) :=
  | Failure (error : string)        (* { error: '...' } *)
  | Thrown (e : Exception)          (* { error: error.message } *)
  | Notice (message : string)       (* { message: '...' } *)
  | Document (a : A)
  | Documents (l : list A).

Arguments Failure {A} error.
Arguments Thrown {A} e.
Arguments Notice {A} message.
Arguments Document {A} a.
Arguments Documents {A} l.

Record Reply (A : Type) := respond
  { httpStatus : nat;
    payload : Payload A }.

Arguments respond {A} httpStatus payload.
Arguments httpStatus {A} r.
Arguments payload {A} r.

(** [req.query]: the three filters are strings, [page] and [limit], when
    given, are positive integers. *)
Module Query.
Record t := mk
  { status : option string;
    customer : option string;
    category : option string;
    page : option positive;
    limit : option positive }.
End Query.

(** The requests that change the two collections. *)
Inductive Request :=
  | PostOrder (env : Env) (body : Body.t)
  | PutOrderStatus (id : string) (status : option string)
  | PutProduct (id : string) (body : Patch.t)
  | DeleteProduct (id : string).

(** A customer. *)
Module Address.
Record t := mk
  { street : option string;
    city : option string;
    state : option string;
    zipCode : option string;
    country : option string }.

Definition none : t := mk None None None None None.
End Address.

Module Customer.
Record t := mk
  { _id : ObjectId;
    name : string;
    email : string;
    phone : string;
    address : Address.t }.
End Customer.

(** The body of [POST /api/customers] and of [PUT /api/customers/:id]. *)
Module CustomerBody.
Record t := mk
  { name : option string;
    email : option string;
    phone : option string;
    address : option Address.t }.
End CustomerBody.

(** The requests that change the customers. *)
Inductive CustomerRequest :=
  | PostCustomer (newId : ObjectId) (body : CustomerBody.t)
  | PutCustomer (id : string) (body : CustomerBody.t)
  | DeleteCustomer (id : string).

(** An entry of [selectedProducts]. *)
Module CartItem.
Record t := mk
  { productId : ObjectId;
    product : Product.t;
    quantity : float }.

Definition setQuantity (v : float) (p : t) : t :=
  mk (productId p) (product p) v.
End CartItem.

(** The actions on the cart: picking a product, the minus and plus buttons
    of an entry, and its remove button. *)
Inductive CartAction :=
  | Pick (product : Product.t)
  | Minus (item : CartItem.t)
  | Plus (item : CartItem.t)
  | Remove (item : CartItem.t).

(** What the middleware does with a request: it answers it, or hands it on
    with [req.user] set. *)
Inductive Checked (User : Type) :=
  | Answered (code : nat) (error : string)
  | HandedOn (user : User).

Arguments Answered {User} code error.
Arguments HandedOn {User} user.

(** * The server *)

(** The routes are modelled over whichever bson library is installed. *)
Section Server.
Variable bson : Bson.

(** ** Mongoose models *)

(** Mongoose's cast of a string to the schema type [ObjectId], which is
    [new ObjectId(value)].  [None] stands for the CastError that the cast
    throws. *)
Definition castObjectId (value : string) : option ObjectId :=
  if (String.length value =? 24)%nat then hexString value
  else
    match bson with
    | HexOnly => None
    | HexOrBytes =>
        if (String.length value =? 12)%nat && isAscii value
        then Some (hexOfBytes value)
        else None
    end.

Section Model.
Context {Doc : Type} (idOf : Doc -> ObjectId).

(** [Model.findOne({ _id })] for an [_id] that is an ObjectId already: the
    query that reaches the collection once its conditions are cast.  It is
    also how [populate] resolves a stored reference. *)
Definition findOne (_id : ObjectId) (docs : list Doc) : option Doc :=
  find (fun d => String.eqb (idOf d) _id) docs.

(** [Model.findById(id)], which is [findOne({ _id: id })]: [id] is cast to
    an ObjectId; the query throws when it does not cast, and gives [null]
    when it casts and no document has that [_id]. *)
Definition findById (id : string) (docs : list Doc)
  : Exception + option Doc :=
  match castObjectId id with
  | None => inl (CastError "ObjectId" id "_id")
  | Some _id => inr (findOne _id docs)
  end.

(** The update of the first document under [_id]: the updated document, if
    there is one, and the collection afterwards. *)
Fixpoint findOneAndUpdate (_id : ObjectId) (update : Doc -> Doc)
    (docs : list Doc) : option Doc * list Doc :=
  match docs with
  | [] => (None, [])
  | d :: rest =>
      if String.eqb (idOf d) _id then (Some (update d), update d :: rest)
      else
        let (found, rest') := findOneAndUpdate _id update rest in
        (found, d :: rest')
  end.

(** [Model.findByIdAndUpdate(id, update, { new: true, runValidators: true })]:
    the conditions are cast, then the update is validated ([invalid] lists
    the paths of the update that the schema's validators reject), then the
    document is updated. *)
Definition findByIdAndUpdate (id : string) (invalid : list string)
    (update : Doc -> Doc) (docs : list Doc)
  : Exception + option Doc * list Doc :=
  match castObjectId id with
  | None => inl (CastError "ObjectId" id "_id")
  | Some _id =>
      match invalid with
      | [] => inr (findOneAndUpdate _id update docs)
      | _ :: _ => inl (ValidationError invalid)
      end
  end.

(** The removal of the first document under [_id]: the removed document,
    if there is one, and the collection afterwards. *)
Fixpoint findOneAndDelete (_id : ObjectId) (docs : list Doc)
  : option Doc * list Doc :=
  match docs with
  | [] => (None, [])
  | d :: rest =>
      if String.eqb (idOf d) _id then (Some d, rest)
      else
        let (found, rest') := findOneAndDelete _id rest in
        (found, d :: rest')
  end.

(** [Model.findByIdAndDelete(id)]. *)
Definition findByIdAndDelete (id : string) (docs : list Doc)
  : Exception + option Doc * list Doc :=
  match castObjectId id with
  | None => inl (CastError "ObjectId" id "_id")
  | Some _id => inr (findOneAndDelete _id docs)
  end.
End Model.

(** ** The save hook and [order.save()] *)

(** The value the hook assigns:
    [`ORD-${Date.now()}-${(count + 1).toString().padStart(4, '0')}`]. *)
Definition orderNumberOf (now : N) (count : nat) : string :=
  "ORD-" ++ toString now ++ "-"
    ++ padStart 4 "0" (toString (N.of_nat count + 1)).

(** [orderSchema.pre('save')]. *)
Definition preSave (now : N) (db : Db) (this : Order.t) : Order.t :=
  if negb (truthyString (Order.orderNumber this)) then
    let count := length (Orders db) in
    Order.setOrderNumber (Some (orderNumberOf now count)) this
  else this.

Definition sameKey (a b : option string) : bool :=
  match a, b with
  | Some x, Some y => String.eqb x y
  | None, None => true
  | _, _ => false
  end.

(** [orderNumber: { unique: true }]: some stored order holds [key]. *)
Definition keyTaken (key : option string) (db : Db) : bool :=
  existsb (fun o => sameKey (Order.orderNumber o) key) (Orders db).

(** The [enum] of [orderSchema.status]. *)
Definition statusEnum : list string :=
  ["placed"; "shipped"; "delivered"; "cancelled"].

(** The [Number] paths of the line items that do not validate: the cast to
    [Number] rejects NaN (and nothing else that is a number).  [i] is the
    index of the first line. *)
Fixpoint lineErrors (i : nat) (lines : list LineItem.t) : list string :=
  match lines with
  | [] => []
  | line :: rest =>
      let path := "products." ++ toString (N.of_nat i) in
      ((if PrimFloat.is_nan (LineItem.quantity line)
        then [(path ++ ".quantity")%string] else [])
       ++ (if PrimFloat.is_nan (LineItem.price line)
           then [(path ++ ".price")%string] else [])
       ++ lineErrors (S i) rest)%list
  end.

(** The paths of [orderSchema] that do not validate in [this], a document
    in which every required path has been given a value: [customer] must
    cast to an ObjectId, the numbers must cast to [Number], [status] must be
    in the enum. *)
Definition invalidPaths (this : Order.t) : list string :=
  ((match castObjectId (Order.customer this) with
    | Some _ => []
    | None => ["customer"]
    end)
   ++ lineErrors 0 (Order.products this)
   ++ (if PrimFloat.is_nan (Order.totalAmount this)
       then ["totalAmount"] else [])
   ++ (if includes statusEnum (Order.status this)
       then [] else ["status"]))%list.

(** [order.validate()]: the document with its values cast, or the
    ValidationError that lists the failing paths.  (Mongoose casts each
    value when the document is built and keeps a failed cast until the
    document is validated; nothing reads the document in between.) *)
Definition validate (this : Order.t) : Exception + Order.t :=
  match invalidPaths this, castObjectId (Order.customer this) with
  | [], Some customer => inr (Order.setCustomer customer this)
  | paths, _ => inl (ValidationError paths)
  end.

(** [order.save()]: the document is validated, then the hook runs, then
    the document is inserted unless the unique index on [orderNumber]
    already holds its key. *)
Definition save (now : N) (this : Order.t) (db : Db)
  : Exception + Order.t * Db :=
  match validate this with
  | inl error => inl error
  | inr valid =>
      let doc := preSave now db valid in
      if keyTaken (Order.orderNumber doc) db
      then inl (DuplicateKey "orderNumber_1" (Order.orderNumber doc))
      else inr (doc, mkDb (Products db) (Orders db ++ [doc]))
  end.

(** ** [POST /api/orders] *)

(** [product.price * item.quantity]. *)
Definition itemTotal (price quantity : float) : float :=
  (price * quantity)%float.

(** The [for (const item of products)] loop, with its two accumulators; a
    [return res.status(...)] inside the loop is an [inl], and so is the
    reply of the handler's [catch] when [Product.findById] throws. *)
Fixpoint resolveItems (db : Db) (products : list Item.t)
    (totalAmount : float) (orderProducts : list LineItem.t)
  : Response + float * list LineItem.t :=
  match products with
  | [] => inr (totalAmount, orderProducts)
  | item :: rest =>
      if negb (truthyString (Item.productId item))
         || negb (truthyNumber (Item.quantity item))
      then inl (reply 400
                  (Error "Each product must have productId and quantity"))
      else
        match Item.productId item, Item.quantity item with
        | Some productId, Some quantity =>
            match findById Product._id productId (Products db) with
            | inl error => inl (reply 500 (ErrorOf error))
            | inr None =>
                inl (reply 400 (Error ("Product not found: " ++ productId)))
            | inr (Some product) =>
                resolveItems db rest
                  (totalAmount + itemTotal (Product.price product) quantity)
                  (orderProducts
                     ++ [LineItem.mk (Product._id product) quantity
                           (Product.price product)])
            end
        | _, _ =>
            (* not reached: a truthy field is present *)
            inl (reply 400
                   (Error "Each product must have productId and quantity"))
        end
  end.

(** [!products || !Array.isArray(products) || products.length === 0]; a
    [products] field that is present is an array. *)
Definition emptyArray (products : option (list Item.t)) : bool :=
  match products with
  | None => true
  | Some l => (length l =? 0)%nat
  end.

(** [new Order({ customer, products: orderProducts, totalAmount, notes,
    status: 'placed' })]; [orderDate] takes its default, [orderNumber] is
    not set.  The document holds [customer] as it was given; [validate]
    casts it. *)
Definition draft (env : Env) (customer : string)
    (orderProducts : list LineItem.t) (totalAmount : float)
    (notes : option string) : Order.t :=
  Order.mk (newId env) None customer orderProducts totalAmount "placed"
    (builtAt env) notes.

Definition createOrder (env : Env) (body : Body.t) (db : Db)
  : Response * Db :=
  if negb (truthyString (Body.customer body))
     || emptyArray (Body.products body)
  then (reply 400 (Error "Customer and products are required"), db)
  else
    match Body.customer body, Body.products body with
    | Some customer, Some products =>
        match resolveItems db products 0 [] with
        | inl response => (response, db)
        | inr (totalAmount, orderProducts) =>
            let order :=
              draft env customer orderProducts totalAmount
                (Body.notes body) in
            match save (savedAt env) order db with
            | inr (saved, db') => (reply 201 (OrderDoc saved), db')
            | inl error => (reply 500 (ErrorOf error), db)
            end
        end
    | _, _ =>
        (* not reached: both fields are present *)
        (reply 400 (Error "Customer and products are required"), db)
    end.

(** ** [PUT /api/orders/:id/status] *)

(** The handler's own list. *)
Definition validStatuses : list string :=
  ["placed"; "shipped"; "delivered"; "cancelled"].

Definition invalidStatusMessage : string :=
  "Invalid status. Must be one of: " ++ String.concat ", " validStatuses.

Definition updateOrderStatus (id : string) (status : option string)
    (db : Db) : Response * Db :=
  if negb (truthyString status) then
    (reply 400 (Error "Status is required"), db)
  else
    match status with
    | Some status =>
        if negb (includes validStatuses status) then
          (reply 400 (Error invalidStatusMessage), db)
        else
          match
            findByIdAndUpdate Order._id id
              (* runValidators: the schema's enum *)
              (if includes statusEnum status then [] else ["status"])
              (Order.setStatus status) (Orders db)
          with
          | inl error => (reply 500 (ErrorOf error), db)
          | inr (order, orders') =>
              let db' := mkDb (Products db) orders' in
              match order with
              | None => (reply 404 (Error "Order not found"), db')
              | Some order => (reply 200 (OrderDoc order), db')
              end
          end
    | None =>
        (* not reached: a truthy field is present *)
        (reply 400 (Error "Status is required"), db)
    end.

(** ** [PUT /api/products/:id] *)

Definition orElse {A} (new : option A) (old : A) : A :=
  match new with
  | Some v => v
  | None => old
  end.

Definition applyPatch (u : Patch.t) (p : Product.t) : Product.t :=
  Product.mk (Product._id p)
    (orElse (Patch.name u) (Product.name p))
    (orElse (Patch.category u) (Product.category p))
    (orElse (Patch.description u) (Product.description p))
    (orElse (Patch.price u) (Product.price p))
    (orElse (Patch.stock u) (Product.stock p))
    (orElse (Patch.isActive u) (Product.isActive p)).

(** runValidators: a [required] string may not be set to the empty
    string.  The paths that fail. *)
Definition failedPaths (u : Patch.t) : list string :=
  let check (path : string) (v : option string) :=
    match v with
    | Some EmptyString => [path]
    | _ => []
    end in
  check "name" (Patch.name u) ++ check "category" (Patch.category u)
    ++ check "description" (Patch.description u).

Definition updateProduct (id : string) (body : Patch.t) (db : Db)
  : Response * Db :=
  match
    findByIdAndUpdate Product._id id (failedPaths body) (applyPatch body)
      (Products db)
  with
  | inl error => (reply 500 (ErrorOf error), db)
  | inr (product, products') =>
      let db' := mkDb products' (Orders db) in
      match product with
      | None => (reply 404 (Error "Product not found"), db')
      | Some product => (reply 200 (ProductDoc product), db')
      end
  end.

(** ** Vocabulary of the statements *)

(** Quantity times unit price, for a stored line. *)
Definition lineAmount (line : LineItem.t) : float :=
  (LineItem.quantity line * LineItem.price line)%float.

(** The sum of the line amounts, taken in list order from zero. *)
Definition sumOfLines (lines : list LineItem.t) : float :=
  fold_left (fun total line => (total + lineAmount line)%float) lines
    0%float.

(** What one trip through the loop does to [totalAmount]. *)
Definition addLine (totalAmount : float) (line : LineItem.t) : float :=
  (totalAmount
   + itemTotal (LineItem.price line) (LineItem.quantity line))%float.

(** The item passes the loop's first test. *)
Definition present (item : Item.t) : bool :=
  truthyString (Item.productId item) && truthyNumber (Item.quantity item).

(** The line the loop pushes for [item]: the product found under its
    identifier, the requested quantity and the product's current price. *)
Definition snapshot (db : Db) (item : Item.t) : option LineItem.t :=
  match Item.productId item, Item.quantity item with
  | Some productId, Some quantity =>
      match findById Product._id productId (Products db) with
      | inr (Some product) =>
          Some (LineItem.mk (Product._id product) quantity
                  (Product.price product))
      | _ => None
      end
  | _, _ => None
  end.

(** The item's identifier does not resolve to a product of the catalogue:
    no product is stored under it, or it does not cast to an ObjectId at
    all. *)
Definition unresolved (db : Db) (item : Item.t) : Prop :=
  exists productId,
    Item.productId item = Some productId
    /\ forall product,
         findById Product._id productId (Products db) <> inr (Some product).

(** The item's identifier does not cast to an ObjectId. *)
Definition illFormed (item : Item.t) : Prop :=
  exists productId,
    Item.productId item = Some productId /\ castObjectId productId = None.

(** The item passes the loop's first test and resolves. *)
Definition passes (db : Db) (item : Item.t) : Prop :=
  present item = true /\ exists line, snapshot db item = Some line.

(** The same product but for its [isActive] flag. *)
Definition sameButActive (p p' : Product.t) : Prop :=
  Product._id p' = Product._id p
  /\ Product.name p' = Product.name p
  /\ Product.category p' = Product.category p
  /\ Product.description p' = Product.description p
  /\ Product.price p' = Product.price p
  /\ Product.stock p' = Product.stock p.

(** The same database but for the [isActive] flags of its products. *)
Definition sameButActiveDb (db db' : Db) : Prop :=
  Forall2 sameButActive (Products db) (Products db')
  /\ Orders db' = Orders db.

(** ** Data of the worked examples *)

(** Identifiers: products, one that names no product, customers, orders. *)
Definition idP1 : ObjectId := "65a000000000000000000001".
Definition idP2 : ObjectId := "65a000000000000000000002".
Definition idNone : ObjectId := "65a0000000000000000000fe".
Definition idC1 : ObjectId := "65c000000000000000000001".
Definition idC2 : ObjectId := "65c000000000000000000002".
Definition idO0 : ObjectId := "65d000000000000000000000".
Definition idO1 : ObjectId := "65d000000000000000000001".
Definition idO2 : ObjectId := "65d000000000000000000002".
Definition idO9 : ObjectId := "65d000000000000000000009".

Definition P1 : Product.t :=
  Product.mk idP1 "Coffee Mug" "Home & Kitchen" "Ceramic coffee mug"
    10 100 true.

Definition P2 : Product.t :=
  Product.mk idP2 "Book Light" "Home & Kitchen" "LED book light"
    5.5 60 true.

(** [P2], deactivated. *)
Definition P2off : Product.t :=
  Product.mk idP2 "Book Light" "Home & Kitchen" "LED book light"
    5.5 60 false.

Definition db0 : Db := mkDb [P1; P2] [].

Definition dbOff : Db := mkDb [P1; P2off] [].

Definition env0 : Env := mkEnv idO1 1700000000000 1700000000001.

(** One millisecond later at the save. *)
Definition envLater : Env := mkEnv idO1 1700000000000 1700000000002.

Definition itemOf (productId : string) (quantity : float) : Item.t :=
  Item.mk (Some productId) (Some quantity).

(** The scenario of the specification: two of [P1], three of [P2]. *)
Definition body0 : Body.t :=
  Body.mk (Some idC1) (Some [itemOf idP1 2; itemOf idP2 3]) None.

Definition order0 : Order.t :=
  Order.mk idO1 (Some "ORD-1700000000001-0001") idC1
    [LineItem.mk idP1 2 10; LineItem.mk idP2 3 5.5] 36.5 "placed"
    1700000000000 None.

Definition bodyOneItem : Body.t :=
  Body.mk (Some idC1) (Some [itemOf idP1 2]) None.

(** A string that does not cast to an ObjectId, and another spelling of
    [idP1]. *)
Definition notAnId : string := "xyz".
Definition idP1Upper : string := "65A000000000000000000001".

Definition bodyNotAnId : Body.t :=
  Body.mk (Some idC1) (Some [itemOf notAnId 1]) None.

Definition bodyNotAnIdSecond : Body.t :=
  Body.mk (Some idC1) (Some [itemOf idP1 2; itemOf notAnId 1]) None.

Definition bodyUnknownSecond : Body.t :=
  Body.mk (Some idC1) (Some [itemOf idP1 2; itemOf idNone 1]) None.

Definition bodyNoCustomer : Body.t :=
  Body.mk None (Some [itemOf idP1 2]) None.

Definition bodyEmptyCustomer : Body.t :=
  Body.mk (Some "") (Some []) None.

Definition bodyNoProducts : Body.t :=
  Body.mk (Some idC1) None None.

Definition bodyNegative : Body.t :=
  Body.mk (Some idC1) (Some [itemOf idP1 (-1)]) None.

Definition orderNegative : Order.t :=
  Order.mk idO1 (Some "ORD-1700000000001-0001") idC1
    [LineItem.mk idP1 (-1) 10] (-10) "placed" 1700000000000 None.

Definition bodyFraction : Body.t :=
  Body.mk (Some idC1) (Some [itemOf idP1 1.5]) None.

Definition orderFraction : Order.t :=
  Order.mk idO1 (Some "ORD-1700000000001-0001") idC1
    [LineItem.mk idP1 1.5 10] 15 "placed" 1700000000000 None.

Definition bodyZeroAfterNotAnId : Body.t :=
  Body.mk (Some idC1) (Some [itemOf notAnId 1; itemOf idP1 0]) None.

Definition bodyZeroSecond : Body.t :=
  Body.mk (Some idC1) (Some [itemOf idP1 2; itemOf idP2 0]) None.

(** A stored order that holds the number the hook generates at millisecond
    1700000000001 over a collection of one. *)
Definition orderTaken : Order.t :=
  Order.mk idO0 (Some "ORD-1700000000001-0002") idC1
    [LineItem.mk idP1 1 10] 10 "placed" 1700000000001 None.

Definition dbTaken : Db := mkDb [P1; P2] [orderTaken].

(** What the handler builds for [bodyOneItem]. *)
Definition draft0 : Order.t :=
  draft env0 idC1 [LineItem.mk idP1 2 10] 20 None.

(** The [i]-th of a run of stored orders. *)
Definition storedOrder (i : nat) : Order.t :=
  Order.mk (padStart 24 "0" (toString (N.of_nat i)))
    (Some (orderNumberOf (1600000000000 + N.of_nat i) i)) idC1
    [LineItem.mk idP1 1 10] 10 "placed" (1600000000000 + N.of_nat i) None.

(** A store that holds 9999 orders. *)
Definition dbFull : Db :=
  mkDb [P1; P2] (map storedOrder (seq 0 (N.to_nat 9999))).

Definition orderDelivered : Order.t :=
  Order.mk idO1 (Some "ORD-1700000000001-0001") idC1
    [LineItem.mk idP1 2 10; LineItem.mk idP2 3 5.5] 36.5 "delivered"
    1700000000000 (Some "leave at the door").

Definition orderCancelled : Order.t :=
  Order.mk idO2 (Some "ORD-1700000000500-0002") idC2
    [LineItem.mk idP2 1 5.5] 5.5 "cancelled" 1700000000499 None.

Definition dbOrders : Db := mkDb [P1; P2] [orderDelivered; orderCancelled].

(** A new catalogue price. *)
Definition priceChange : Patch.t :=
  Patch.mk None None None (Some 99%float) None None.

(** * The other routes, and the pages that call them *)

(** ** [GET /api/products/:id] and [DELETE /api/products/:id] *)

Definition getProduct (id : string) (db : Db) : Reply Product.t :=
  match findById Product._id id (Products db) with
  | inl error => respond 500 (Thrown error)
  | inr None => respond 404 (Failure "Product not found")
  | inr (Some product) => respond 200 (Document product)
  end.

Definition deleteProduct (id : string) (db : Db) : Reply Product.t * Db :=
  match findByIdAndDelete Product._id id (Products db) with
  | inl error => (respond 500 (Thrown error), db)
  | inr (product, products') =>
      let db' := mkDb products' (Orders db) in
      match product with
      | None => (respond 404 (Failure "Product not found"), db')
      | Some _ => (respond 200 (Notice "Product deleted successfully"), db')
      end
  end.

(** ** [GET /api/orders] *)

(** [query.customer], cast to the schema type of the path. *)
Definition customerOf (q : Query.t) : option ObjectId :=
  match Query.customer q with
  | Some customer => castObjectId customer
  | None => None
  end.

(** The filter object [query] that the handler builds, once Mongoose has
    cast it: [status] is a String and stays as it is, [customer] is an
    ObjectId. *)
Definition matchesQuery (q : Query.t) (o : Order.t) : bool :=
  (if truthyString (Query.status q)
   then sameKey (Some (Order.status o)) (Query.status q) else true)
  && (if truthyString (Query.customer q)
      then sameKey (Some (Order.customer o)) (customerOf q) else true).

(** [order.products.some(p => p.product && p.product.category === category)]
    on the populated order: [p.product] is the product stored under the
    line's reference, or [null] when there is none any more. *)
Definition hasCategory (db : Db) (category : string) (o : Order.t) : bool :=
  existsb
    (fun line =>
       match findOne Product._id (LineItem.product line) (Products db) with
       | Some product => String.eqb (Product.category product) category
       | None => false
       end)
    (Order.products o).

(** [page = 1] and [limit = 10] by default. *)
Definition pageOf (q : Query.t) : nat :=
  match Query.page q with
  | Some p => Pos.to_nat p
  | None => 1
  end.

Definition limitOf (q : Query.t) : nat :=
  match Query.limit q with
  | Some l => Pos.to_nat l
  | None => 10
  end.

(** [Order.find(query).sort({ createdAt: -1 })]: the matching orders, newest
    first.  Orders are stamped when they are inserted and the collection is
    kept in insertion order, so newest first is the collection reversed. *)
Definition findSorted (q : Query.t) (db : Db) : list Order.t :=
  rev (filter (matchesQuery q) (Orders db)).

(** What [Order.find(query)] throws: the customer filter, when given, must
    cast to an ObjectId. *)
Definition queryError (q : Query.t) : option Exception :=
  match Query.customer q with
  | Some customer =>
      if truthyString (Some customer) then
        match castObjectId customer with
        | Some _ => None
        | None => Some (CastError "ObjectId" customer "customer")
        end
      else None
  | None => None
  end.

(** The handler: the page [.limit(limit * 1).skip((page - 1) * limit)] of
    the sorted matches, then the category filter on that page.  The reply
    is the list itself, or the 500 of the handler's [catch] when the query
    throws. *)
Definition getOrders (q : Query.t) (db : Db) : Exception + list Order.t :=
  match queryError q with
  | Some error => inl error
  | None =>
      let orders :=
        firstn (limitOf q * 1)
          (skipn ((pageOf q - 1) * limitOf q) (findSorted q db)) in
      match Query.category q with
      | Some category =>
          if truthyString (Some category)
          then inr (filter (hasCategory db category) orders)
          else inr orders
      | None => inr orders
      end
  end.

(** ** The routes as one server *)

(** The database after one request. *)
Definition serve (r : Request) (db : Db) : Db :=
  match r with
  | PostOrder env body => snd (createOrder env body db)
  | PutOrderStatus id status => snd (updateOrderStatus id status db)
  | PutProduct id body => snd (updateProduct id body db)
  | DeleteProduct id => snd (deleteProduct id db)
  end.

(** The database after a sequence of requests, served one after the
    other. *)
Definition serveAll (rs : list Request) (db : Db) : Db :=
  fold_left (fun db r => serve r db) rs db.

(** The order at position [i] of the collection carries the sequence number
    [i + 1]. *)
Definition numberedInOrder (db : Db) : Prop :=
  forall i o,
    nth_error (Orders db) i = Some o ->
    exists now, Order.orderNumber o = Some (orderNumberOf now i).

(** Every character is a decimal digit. *)
Fixpoint digitsOnly (s : string) : bool :=
  match s with
  | EmptyString => true
  | String c rest =>
      (48 <=? N_of_ascii c)%N && (N_of_ascii c <=? 57)%N && digitsOnly rest
  end.

(** Invariants of a stored order that the specification names. *)
Definition totalIsSum (o : Order.t) : Prop :=
  Order.totalAmount o = sumOfLines (Order.products o).

Definition statusRecognised (o : Order.t) : Prop :=
  In (Order.status o) validStatuses.

Definition hasLines (o : Order.t) : Prop :=
  Order.products o <> [].

(** A run of requests over the catalogue of the examples. *)
Definition requests0 : list Request :=
  [PostOrder env0 body0;
   PutProduct idP1 priceChange;
   PutOrderStatus idO1 (Some "shipped");
   DeleteProduct idP2;
   PostOrder (mkEnv idO2 1700000000500 1700000000501) bodyOneItem;
   PutOrderStatus idO2 (Some "cancelled");
   PutOrderStatus idO2 (Some "refunded")].

(** The same query for another page. *)
Definition withPage (q : Query.t) (page : positive) : Query.t :=
  Query.mk (Query.status q) (Query.customer q) (Query.category q)
    (Some page) (Query.limit q).

(** What the query asks for, whatever the page: the orders that match the
    status and customer filters and, when a category is given, have a line
    whose product is still in the catalogue under that category; newest
    first.  (The customer filter is one that casts.) *)
Definition wanted (q : Query.t) (db : Db) : list Order.t :=
  match Query.category q with
  | Some category =>
      if truthyString (Some category)
      then filter (hasCategory db category) (findSorted q db)
      else findSorted q db
  | None => findSorted q db
  end.

(** Three stored orders for the listings. *)
Definition orderShipped : Order.t :=
  Order.mk idO9 (Some "ORD-1700000000900-0003") idC1
    [LineItem.mk idNone 1 7] 7 "shipped" 1700000000899 None.

Definition dbListing : Db :=
  mkDb [P1; P2] [orderDelivered; orderCancelled; orderShipped].

Definition queryC1 : Query.t :=
  Query.mk None (Some idC1) (Some "Home & Kitchen") None (Some 1%positive).

(** ** The status buttons of an order row (Orders page) *)

(** The targets of the status buttons that [OrderRow] renders for an order
    in [status]: "Mark as Shipped" for a placed order, "Mark as Delivered"
    for a shipped one, "Cancel Order" unless it is cancelled or
    delivered. *)
Definition offeredStatuses (status : string) : list string :=
  ((if String.eqb status "placed" then ["shipped"] else [])
   ++ (if String.eqb status "shipped" then ["delivered"] else [])
   ++ (if negb (String.eqb status "cancelled")
          && negb (String.eqb status "delivered")
       then ["cancelled"] else []))%list.

(** A click: [handleStatusChange(newStatus)] calls
    [onStatusUpdate(order._id, newStatus)], which sends
    [PUT /api/orders/:id/status] with [{ status }]. *)
Definition clickStatus (order : Order.t) (newStatus : string) (db : Db)
  : Response * Db :=
  updateOrderStatus (Order._id order) (Some newStatus) db.

(** ** The cart of the new-order page *)

Definition addProduct (product : Product.t)
    (selectedProducts : list CartItem.t) : list CartItem.t :=
  match
    find (fun p => String.eqb (CartItem.productId p) (Product._id product))
      selectedProducts
  with
  | Some _ =>
      map (fun p =>
             if String.eqb (CartItem.productId p) (Product._id product)
             then CartItem.setQuantity (CartItem.quantity p + 1)%float p
             else p)
        selectedProducts
  | None =>
      (selectedProducts
         ++ [CartItem.mk (Product._id product) product 1%float])%list
  end.

Definition updateQuantity (productId : ObjectId) (quantity : float)
    (selectedProducts : list CartItem.t) : list CartItem.t :=
  if PrimFloat.eqb quantity 0%float then
    filter (fun p => negb (String.eqb (CartItem.productId p) productId))
      selectedProducts
  else
    map (fun p =>
           if String.eqb (CartItem.productId p) productId
           then CartItem.setQuantity quantity p
           else p)
      selectedProducts.

Definition removeProduct (productId : ObjectId)
    (selectedProducts : list CartItem.t) : list CartItem.t :=
  filter (fun p => negb (String.eqb (CartItem.productId p) productId))
    selectedProducts.

(** [selectedProducts.reduce((total, item) =>
      total + (item.product.price * item.quantity), 0)]. *)
Definition calculateTotal (selectedProducts : list CartItem.t) : float :=
  fold_left
    (fun total item =>
       (total
        + Product.price (CartItem.product item) * CartItem.quantity item)%float)
    selectedProducts 0%float.

(** A number as the server reads it back from the JSON body:
    [JSON.stringify] writes NaN and the infinities as [null] and both zeros
    as [0]. *)
Definition jsonNumber (x : float) : option float :=
  if PrimFloat.is_finite x then
    if PrimFloat.is_zero x then Some 0%float else Some x
  else None.

(** The request entry made of a cart entry. *)
Definition toItem (item : CartItem.t) : Item.t :=
  Item.mk (Some (CartItem.productId item))
    (jsonNumber (CartItem.quantity item)).

(** [handleCreateOrder]: the body it posts, or [None] when it only shows
    the "Please select a customer and at least one product" toast.
    [notes || undefined] leaves empty notes out of the body. *)
Definition handleCreateOrder (selectedCustomer : string)
    (selectedProducts : list CartItem.t) (notes : string) : option Body.t :=
  if negb (truthyString (Some selectedCustomer))
     || (length selectedProducts =? 0)%nat
  then None
  else
    Some (Body.mk (Some selectedCustomer)
            (Some (map toItem selectedProducts))
            (if truthyString (Some notes) then Some notes else None)).

Definition act (a : CartAction) (selectedProducts : list CartItem.t)
  : list CartItem.t :=
  match a with
  | Pick product => addProduct product selectedProducts
  | Minus item =>
      updateQuantity (CartItem.productId item)
        (CartItem.quantity item - 1)%float selectedProducts
  | Plus item =>
      updateQuantity (CartItem.productId item)
        (CartItem.quantity item + 1)%float selectedProducts
  | Remove item => removeProduct (CartItem.productId item) selectedProducts
  end.

Definition actAll (actions : list CartAction)
    (selectedProducts : list CartItem.t) : list CartItem.t :=
  fold_left (fun cart a => act a cart) actions selectedProducts.

(** Every entry is filed under the identifier of its own product, and no
    two entries have the same identifier. *)
Definition cartWellFormed (selectedProducts : list CartItem.t) : Prop :=
  NoDup (map CartItem.productId selectedProducts)
  /\ Forall
       (fun p => CartItem.productId p = Product._id (CartItem.product p))
       selectedProducts.

(** A cart filled from the catalogue of the examples. *)
Definition cart0 : list CartItem.t :=
  actAll [Pick P1; Pick P2; Pick P1; Plus (CartItem.mk idP2 P2 1);
          Plus (CartItem.mk idP2 P2 2)] [].

(** ** The customer routes *)

(** A [required] string: present and not empty. *)
Definition required (v : option string) : option string :=
  match v with
  | Some (String c rest) => Some (String c rest)
  | _ => None
  end.

Definition missingPath (path : string) (v : option string) : list string :=
  match required v with
  | Some _ => []
  | None => [path]
  end.

(** The paths of [customerSchema] that fail when a new document is
    validated. *)
Definition missingPaths (body : CustomerBody.t) : list string :=
  (missingPath "name" (CustomerBody.name body)
   ++ missingPath "email" (CustomerBody.email body)
   ++ missingPath "phone" (CustomerBody.phone body))%list.

Definition duplicateCustomerMessage : string :=
  "Customer with this email already exists".

(** [POST /api/customers]: [new Customer(req.body)] and [save()].  The
    document is validated, then inserted unless a unique index ([_id],
    [email]) already holds one of its keys; the handler answers every
    duplicate-key error (code 11000) with the same 400. *)
Definition createCustomer (newId : ObjectId) (body : CustomerBody.t)
    (customers : list Customer.t) : Reply Customer.t * list Customer.t :=
  match
    required (CustomerBody.name body), required (CustomerBody.email body),
    required (CustomerBody.phone body)
  with
  | Some name, Some email, Some phone =>
      if existsb (fun c => String.eqb (Customer._id c) newId) customers
         || existsb (fun c => String.eqb (Customer.email c) email) customers
      then (respond 400 (Failure duplicateCustomerMessage), customers)
      else
        let customer :=
          Customer.mk newId name email phone
            (orElse (CustomerBody.address body) Address.none) in
        (respond 201 (Document customer), (customers ++ [customer])%list)
  | _, _, _ =>
      (respond 500 (Thrown (ValidationError (missingPaths body))), customers)
  end.

Definition getCustomer (id : string) (customers : list Customer.t)
  : Reply Customer.t :=
  match findById Customer._id id customers with
  | inl error => respond 500 (Thrown error)
  | inr None => respond 404 (Failure "Customer not found")
  | inr (Some customer) => respond 200 (Document customer)
  end.

(** [GET /api/customers]: newest first. *)
Definition getCustomers (customers : list Customer.t) : Reply Customer.t :=
  respond 200 (Documents (rev customers)).

Definition applyCustomerBody (u : CustomerBody.t) (c : Customer.t)
  : Customer.t :=
  Customer.mk (Customer._id c)
    (orElse (CustomerBody.name u) (Customer.name c))
    (orElse (CustomerBody.email u) (Customer.email c))
    (orElse (CustomerBody.phone u) (Customer.phone c))
    (orElse (CustomerBody.address u) (Customer.address c)).

(** runValidators on an update: a [required] string that the body sets may
    not be empty. *)
Definition emptiedPaths (u : CustomerBody.t) : list string :=
  let check (path : string) (v : option string) :=
    match v with
    | Some EmptyString => [path]
    | _ => []
    end in
  (check "name" (CustomerBody.name u) ++ check "email" (CustomerBody.email u)
   ++ check "phone" (CustomerBody.phone u))%list.

(** [PUT /api/customers/:id], [Customer.findByIdAndUpdate(id, req.body,
    { new: true, runValidators: true })]: [id] is cast and the update is
    validated, then the update is applied to the document under [id] unless
    another document holds the new email (code 11000, answered with the
    400). *)
Definition updateCustomer (id : string) (body : CustomerBody.t)
    (customers : list Customer.t) : Reply Customer.t * list Customer.t :=
  match
    findByIdAndUpdate Customer._id id (emptiedPaths body)
      (applyCustomerBody body) customers
  with
  | inl error => (respond 500 (Thrown error), customers)
  | inr (None, _) => (respond 404 (Failure "Customer not found"), customers)
  | inr (Some new, customers') =>
      if existsb
           (fun c =>
              negb (String.eqb (Customer._id c) (Customer._id new))
              && String.eqb (Customer.email c) (Customer.email new))
           customers
      then (respond 400 (Failure duplicateCustomerMessage), customers)
      else (respond 200 (Document new), customers')
  end.

Definition deleteCustomer (id : string) (customers : list Customer.t)
  : Reply Customer.t * list Customer.t :=
  match findByIdAndDelete Customer._id id customers with
  | inl error => (respond 500 (Thrown error), customers)
  | inr (customer, customers') =>
      match customer with
      | None => (respond 404 (Failure "Customer not found"), customers')
      | Some _ =>
          (respond 200 (Notice "Customer deleted successfully"), customers')
      end
  end.

Definition serveCustomer (r : CustomerRequest) (customers : list Customer.t)
  : Reply Customer.t * list Customer.t :=
  match r with
  | PostCustomer newId body => createCustomer newId body customers
  | PutCustomer id body => updateCustomer id body customers
  | DeleteCustomer id => deleteCustomer id customers
  end.

Definition serveCustomers (rs : list CustomerRequest)
    (customers : list Customer.t) : list Customer.t :=
  fold_left (fun customers r => snd (serveCustomer r customers)) rs customers.

(** What the two unique indexes guarantee. *)
Definition customersDistinct (customers : list Customer.t) : Prop :=
  NoDup (map Customer._id customers) /\ NoDup (map Customer.email customers).

(** The reply is a success. *)
Definition succeeded {A} (r : Reply A) : bool :=
  (httpStatus r =? 200)%nat || (httpStatus r =? 201)%nat.

Definition john : CustomerBody.t :=
  CustomerBody.mk (Some "John Doe") (Some "john.doe@email.com")
    (Some "+1-555-0101") None.

Definition jane : CustomerBody.t :=
  CustomerBody.mk (Some "Jane Smith") (Some "jane.smith@email.com")
    (Some "+1-555-0102") None.

Definition customerRequests0 : list CustomerRequest :=
  [PostCustomer idC1 john;
   PostCustomer idC2 jane;
   PostCustomer idO9 john;
   PutCustomer idC2
     (CustomerBody.mk None (Some "john.doe@email.com") None None);
   PutCustomer idC1
     (CustomerBody.mk None (Some "john@example.com") None None);
   DeleteCustomer idC2;
   PostCustomer idC2 john].

(** ** The token check in front of the routes *)

(** [String.prototype.split] on a one-character separator. *)
Fixpoint split (sep : ascii) (s : string) : list string :=
  match s with
  | EmptyString => [EmptyString]
  | String c rest =>
      if Ascii.eqb c sep then EmptyString :: split sep rest
      else
        match split sep rest with
        | piece :: pieces => String c piece :: pieces
        | [] => [String c EmptyString]   (* not reached *)
        end
  end.

Fixpoint hasSpace (s : string) : bool :=
  match s with
  | EmptyString => false
  | String c rest => Ascii.eqb c " " || hasSpace rest
  end.

Section Token.
(** [jwt.verify(token, secret, callback)]: the payload of a token that
    verifies under the server's secret. *)
Context {User : Type} (verify : string -> option User).

(** [authHeader && authHeader.split(' ')[1]]. *)
Definition tokenOf (authHeader : option string) : option string :=
  match authHeader with
  | None => None
  | Some EmptyString => Some EmptyString
  | Some h => nth_error (split " " h) 1
  end.

Definition authenticateToken (authHeader : option string) : Checked User :=
  let token := tokenOf authHeader in
  if negb (truthyString token) then Answered 401 "Access token required"
  else
    match token with
    | Some token =>
        match verify token with
        | None => Answered 403 "Invalid token"
        | Some user => HandedOn user
        end
    | None =>
        (* not reached: a truthy token is present *)
        Answered 401 "Access token required"
    end.
End Token.

(** A verifier for the examples: one good token, of user ["admin"]. *)
Definition verify0 (token : string) : option string :=
  if String.eqb token "good.jwt.token" then Some "admin" else None.

(** ** The product list and the category list *)

(** [Product.distinct('category', ...)]: each value once. *)
Fixpoint distinct (values : list string) : list string :=
  match values with
  | [] => []
  | v :: rest => v :: filter (fun w => negb (String.eqb w v)) (distinct rest)
  end.

(** [GET /api/products/categories]. *)
Definition getCategories (db : Db) : list string :=
  distinct (map Product.category (filter Product.isActive (Products db))).

Section Search.
(** [{ $regex: search, $options: 'i' }]: whether the text matches the
    pattern, case-insensitively. *)
Context (regex : string -> string -> bool).

(** [GET /api/products]: the active products that match the category and
    the search text, when given; newest first. *)
Definition getProducts (category search : option string) (db : Db)
  : list Product.t :=
  rev
    (filter
       (fun p =>
          Product.isActive p
          && (if truthyString category
              then sameKey (Some (Product.category p)) category else true)
          && (match search with
              | Some pattern =>
                  if truthyString (Some pattern)
                  then regex pattern (Product.name p)
                       || regex pattern (Product.description p)
                  else true
              | None => true
              end))
       (Products db)).
End Search.

(** * Properties *)

(** ** Strings and numerals *)

Lemma length_append (s1 s2 : string) :
  String.length (s1 ++ s2) = String.length s1 + String.length s2.
Proof.
  induction s1 as [|c s1 IH]; simpl; [reflexivity|]. now rewrite IH.
Qed.

Lemma zeros_length k : String.length (zeros k) = k.
Proof.
  induction k as [|k IH]; simpl; [reflexivity|]. now rewrite IH.
Qed.

Lemma filler_zeros n cur :
  cur = "" \/ cur = "0" -> filler n "0" cur = zeros n.
Proof.
  revert cur. induction n as [|n IH]; intros cur Hcur; [reflexivity|].
  destruct Hcur as [-> | ->]; simpl; rewrite IH; auto.
Qed.

Lemma padStart_zeros target s :
  padStart target "0" s = zeros (target - String.length s) ++ s.
Proof.
  unfold padStart. destruct (target <=? String.length s)%nat eqn:Hle.
  - apply Nat.leb_le in Hle.
    replace (target - String.length s) with 0 by lia. reflexivity.
  - rewrite filler_zeros by auto. reflexivity.
Qed.

Lemma digits_length_acc fuel :
  forall n acc, String.length acc <= String.length (digits fuel n acc).
Proof.
  induction fuel as [|fuel IH]; intros n acc; simpl; [lia|].
  destruct (n / 10 =? 0)%N; simpl; [lia|].
  etransitivity; [|apply IH]. simpl. lia.
Qed.

Lemma digits_length_le fuel :
  forall n acc k,
    (n < 10 ^ N.of_nat (S k))%N ->
    String.length (digits fuel n acc) <= S k + String.length acc.
Proof.
  induction fuel as [|fuel IH]; intros n acc k Hn; simpl; [lia|].
  destruct (n / 10 =? 0)%N eqn:Hq; simpl; [lia|].
  apply N.eqb_neq in Hq. destruct k as [|k].
  - exfalso. apply Hq. apply N.div_small. exact Hn.
  - etransitivity; [apply (IH _ _ k)|simpl; lia].
    apply N.Div0.div_lt_upper_bound.
    rewrite Nat2N.inj_succ, N.pow_succ_r' in Hn. exact Hn.
Qed.

Lemma digits_length_ge k :
  forall fuel n acc,
    (10 ^ N.of_nat k <= n)%N ->
    k < fuel ->
    S k + String.length acc <= String.length (digits fuel n acc).
Proof.
  induction k as [|k IH]; intros fuel n acc Hn Hfuel;
    (destruct fuel as [|fuel]; [lia|]); simpl.
  - destruct (n / 10 =? 0)%N; simpl; [lia|].
    etransitivity; [|apply digits_length_acc]. simpl. lia.
  - rewrite Nat2N.inj_succ, N.pow_succ_r' in Hn.
    assert (Hq : (10 ^ N.of_nat k <= n / 10)%N).
    { apply N.div_le_lower_bound; [discriminate|exact Hn]. }
    assert (Hpos : (0 < 10 ^ N.of_nat k)%N).
    { apply N.neq_0_lt_0, N.pow_nonzero. discriminate. }
    destruct (n / 10 =? 0)%N eqn:Hz.
    + apply N.eqb_eq in Hz. lia.
    + etransitivity; [|apply IH; [exact Hq|lia]]. simpl. lia.
Qed.

(** A number below [10^(k+1)] prints in at most [k+1] characters. *)
Lemma toString_length_le n k :
  (n < 10 ^ N.of_nat (S k))%N -> String.length (toString n) <= S k.
Proof.
  intros Hn. unfold toString.
  etransitivity; [apply digits_length_le; exact Hn|]. simpl. lia.
Qed.

(** A number from [10^k] on prints in more than [k] characters. *)
Lemma toString_length_ge n k :
  (10 ^ N.of_nat k <= n)%N -> S k <= String.length (toString n).
Proof.
  intros Hn. unfold toString.
  assert (Hfuel : k < S (N.to_nat (N.size n))).
  { assert (H2 : (2 ^ N.of_nat k <= 10 ^ N.of_nat k)%N).
    { apply N.pow_le_mono_l. lia. }
    pose proof (N.size_gt n) as Hsize.
    assert (Hlt : (2 ^ N.of_nat k < 2 ^ N.size n)%N) by lia.
    apply N.pow_lt_mono_r_iff in Hlt; [|lia].
    clear - Hlt. lia. }
  pose proof (digits_length_ge k _ n "" Hn Hfuel) as H.
  change (String.length "") with 0 in H. lia.
Qed.

Lemma append_assoc (s1 s2 s3 : string) :
  (s1 ++ s2) ++ s3 = s1 ++ (s2 ++ s3).
Proof.
  induction s1 as [|c s1 IH]; simpl; [reflexivity|]. now rewrite IH.
Qed.

Lemma valueFrom_append s1 :
  forall a s2, valueFrom a (s1 ++ s2) = valueFrom (valueFrom a s1) s2.
Proof.
  induction s1 as [|c s1 IH]; intros a s2; simpl; [reflexivity|]. apply IH.
Qed.

Lemma digitValue_digitChar d :
  (d < 10)%N -> digitValue (digitChar d) = d.
Proof.
  intros Hd. unfold digitValue, digitChar.
  rewrite N_ascii_embedding by lia. lia.
Qed.

Lemma valueFrom_zeros k : valueFrom 0 (zeros k) = 0%N.
Proof.
  induction k as [|k IH]; simpl; [reflexivity|]. exact IH.
Qed.

(** With fuel for the bits of [n], [digits] writes a numeral of [n]. *)
Lemma digits_value fuel :
  forall n acc,
    (n < 2 ^ N.of_nat fuel)%N ->
    exists s,
      digits fuel n acc = s ++ acc
      /\ forall a,
           valueFrom a s = (a * 10 ^ N.of_nat (String.length s) + n)%N.
Proof.
  induction fuel as [|fuel IH]; intros n acc Hn.
  - exists "". split; [reflexivity|]. intros a. simpl in *.
    assert (n = 0%N) by lia. subst. lia.
  - simpl digits.
    assert (Hd : (n mod 10 < 10)%N) by (apply N.mod_lt; discriminate).
    destruct (n / 10 =? 0)%N eqn:Hq.
    + apply N.eqb_eq in Hq.
      exists (String (digitChar (n mod 10)) ""). split; [reflexivity|].
      intros a. simpl. rewrite digitValue_digitChar by exact Hd.
      pose proof (N.div_mod n 10) as Hdm. rewrite Hq in Hdm.
      change (10 ^ 1)%N with 10%N. lia.
    + rewrite Nat2N.inj_succ, N.pow_succ_r' in Hn.
      assert (Hn' : (n / 10 < 2 ^ N.of_nat fuel)%N).
      { apply N.Div0.div_lt_upper_bound. lia. }
      destruct (IH (n / 10)%N (String (digitChar (n mod 10)) acc) Hn')
        as (s & Hs & Hvalue).
      exists (s ++ String (digitChar (n mod 10)) ""). split.
      * rewrite Hs, append_assoc. reflexivity.
      * intros a. rewrite valueFrom_append, Hvalue. simpl valueFrom.
        rewrite digitValue_digitChar by exact Hd.
        rewrite length_append. simpl String.length.
        rewrite Nat.add_1_r, Nat2N.inj_succ, N.pow_succ_r'.
        pose proof (N.div_mod n 10) as Hdm. lia.
Qed.

(** [toString] is a decimal numeral of its argument. *)
Lemma parseDecimal_toString n : parseDecimal (toString n) = n.
Proof.
  unfold parseDecimal, toString.
  destruct (digits_value (S (N.to_nat (N.size n))) n "") as (s & Hs & Hvalue).
  - rewrite Nat2N.inj_succ, N2Nat.id, N.pow_succ_r'.
    pose proof (N.size_gt n). lia.
  - rewrite Hs, valueFrom_append, Hvalue. simpl. lia.
Qed.

(** Leading zeros do not change the number read. *)
Lemma parseDecimal_zeros k s : parseDecimal (zeros k ++ s) = parseDecimal s.
Proof.
  unfold parseDecimal. now rewrite valueFrom_append, valueFrom_zeros.
Qed.

(** ** Numbers *)

Lemma SFmul_comm prec emax x y : SFmul prec emax x y = SFmul prec emax y x.
Proof.
  destruct x as [sx|sx| |sx mx ex], y as [sy|sy| |sy my ey]; simpl;
    rewrite ?(xorb_comm sx sy); try reflexivity.
  now rewrite (Pos.mul_comm mx my), (Z.add_comm ex ey).
Qed.

(** IEEE multiplication commutes: price times quantity is quantity times
    price. *)
Lemma itemTotal_lineAmount line :
  itemTotal (LineItem.price line) (LineItem.quantity line) = lineAmount line.
Proof.
  unfold itemTotal, lineAmount. apply Prim2SF_inj.
  rewrite !mul_spec. apply SFmul_comm.
Qed.

Lemma fold_addLine_sum lines :
  forall total,
    fold_left addLine lines total
    = fold_left (fun total line => (total + lineAmount line)%float) lines
        total.
Proof.
  induction lines as [|line lines IH]; intros total; simpl; [reflexivity|].
  rewrite IH. unfold addLine. now rewrite itemTotal_lineAmount.
Qed.

(** ** Casting to an ObjectId *)

Lemma toLowerHex_digit c :
  isHexDigit c = true ->
  isHexDigit (toLowerHex c) = true
  /\ toLowerHex (toLowerHex c) = toLowerHex c.
Proof.
  destruct c as [[] [] [] [] [] [] [] []]; try discriminate;
    intros _; split; reflexivity.
Qed.

Lemma hexString_printed s t :
  hexString s = Some t ->
  hexString t = Some t /\ String.length t = String.length s.
Proof.
  revert t. induction s as [|c rest IH]; simpl; intros t H.
  - inversion H. now split.
  - destruct (isHexDigit c) eqn:Hc; [|discriminate].
    destruct (hexString rest) as [rest'|]; [|discriminate].
    inversion H; subst t; clear H.
    destruct (IH rest' eq_refl) as [Hrest Hlen].
    destruct (toLowerHex_digit c Hc) as [Hd Hl].
    cbn [hexString String.length]. rewrite Hd, Hrest, Hl, Hlen. now split.
Qed.

Lemma hexDigit_printed c :
  (N_of_ascii c <? 128)%N = true ->
  isHexDigit (hexDigit (N_of_ascii c / 16)) = true
  /\ toLowerHex (hexDigit (N_of_ascii c / 16))
     = hexDigit (N_of_ascii c / 16)
  /\ isHexDigit (hexDigit (N_of_ascii c mod 16)) = true
  /\ toLowerHex (hexDigit (N_of_ascii c mod 16))
     = hexDigit (N_of_ascii c mod 16).
Proof.
  destruct c as [[] [] [] [] [] [] [] []]; try discriminate;
    intros _; repeat split.
Qed.

Lemma hexOfBytes_printed s :
  isAscii s = true ->
  hexString (hexOfBytes s) = Some (hexOfBytes s)
  /\ String.length (hexOfBytes s) = 2 * String.length s.
Proof.
  induction s as [|c rest IH]; intros H.
  - now split.
  - cbn [isAscii] in H. apply andb_prop in H as [Hc Hrest].
    destruct (IH Hrest) as [Hhex Hlen].
    destruct (hexDigit_printed c Hc) as (H1 & H2 & H3 & H4).
    cbn [hexOfBytes hexString String.length].
    rewrite H1, H3, Hhex, H2, H4, Hlen. split; [reflexivity | lia].
Qed.

(** Twenty-four hexadecimal digits cast in every release, to their
    lower-case form. *)
Lemma castObjectId_digits value :
  String.length value = 24 -> castObjectId value = hexString value.
Proof. intros H. unfold castObjectId. now rewrite H. Qed.

(** A string of neither 24 nor 12 characters casts in no release. *)
Lemma castObjectId_length value _id :
  castObjectId value = Some _id ->
  String.length value = 24 \/ String.length value = 12.
Proof.
  unfold castObjectId.
  destruct (String.length value =? 24)%nat eqn:H24.
  - left. now apply Nat.eqb_eq.
  - destruct bson; [discriminate|].
    destruct (String.length value =? 12)%nat eqn:H12; [|discriminate].
    right. now apply Nat.eqb_eq.
Qed.

(** What a cast gives is an ObjectId in its printed form: 24 lower-case
    hexadecimal digits, which cast to themselves. *)
Lemma castObjectId_printed value _id :
  castObjectId value = Some _id ->
  String.length _id = 24 /\ castObjectId _id = Some _id.
Proof.
  intros H.
  assert (Hp : hexString _id = Some _id /\ String.length _id = 24).
  { unfold castObjectId in H.
    destruct (String.length value =? 24)%nat eqn:H24.
    - apply Nat.eqb_eq in H24.
      destruct (hexString_printed _ _ H) as [Hhex Hlen].
      split; [exact Hhex | now rewrite Hlen].
    - destruct bson; [discriminate|].
      destruct (String.length value =? 12)%nat eqn:H12; [|discriminate].
      destruct (isAscii value) eqn:Hascii; [|discriminate].
      apply Nat.eqb_eq in H12. inversion H; subst _id.
      destruct (hexOfBytes_printed value Hascii) as [Hhex Hlen].
      split; [exact Hhex | rewrite Hlen, H12; reflexivity]. }
  destruct Hp as [Hhex Hlen]. split; [exact Hlen|].
  now rewrite (castObjectId_digits _ Hlen).
Qed.

(** ** The loop of [POST /api/orders] *)

Lemma present_inv item :
  present item = true ->
  exists productId quantity,
    Item.productId item = Some productId
    /\ Item.quantity item = Some quantity
    /\ truthyString (Some productId) = true
    /\ truthyNumber (Some quantity) = true.
Proof.
  unfold present. destruct item as [[pid|] [q|]]; simpl;
    rewrite ?andb_false_r; try discriminate.
  intros H. apply andb_prop in H as [Hp Hq]. now exists pid, q.
Qed.

(** [findById] throws exactly on an identifier that does not cast. *)
Lemma findById_thrown {Doc} (idOf : Doc -> ObjectId) id docs error :
  findById idOf id docs = inl error ->
  castObjectId id = None /\ error = CastError "ObjectId" id "_id".
Proof.
  unfold findById. destruct (castObjectId id); [discriminate|].
  intros H. inversion H. auto.
Qed.

Lemma findById_found {Doc} (idOf : Doc -> ObjectId) id docs found :
  findById idOf id docs = inr found ->
  exists _id, castObjectId id = Some _id /\ findOne idOf _id docs = found.
Proof.
  unfold findById. destruct (castObjectId id) as [_id|]; [|discriminate].
  intros H. inversion H. now exists _id.
Qed.

Lemma resolveItems_step db item rest totalAmount orderProducts line :
  present item = true ->
  snapshot db item = Some line ->
  resolveItems db (item :: rest) totalAmount orderProducts
  = resolveItems db rest (addLine totalAmount line)
      (orderProducts ++ [line])%list.
Proof.
  intros Hp Hs. destruct (present_inv _ Hp) as (pid & q & Hpid & Hq & Tp & Tq).
  unfold snapshot in Hs. simpl. rewrite Hpid, Hq in *. rewrite Tp, Tq. simpl.
  destruct (findById Product._id pid (Products db)) as [e|[p|]];
    try discriminate.
  now inversion Hs.
Qed.

Lemma resolveItems_absent db item rest totalAmount orderProducts :
  present item = false ->
  resolveItems db (item :: rest) totalAmount orderProducts
  = inl (reply 400 (Error "Each product must have productId and quantity")).
Proof.
  unfold present. intros Hp. simpl.
  apply andb_false_iff in Hp as [-> | ->]; simpl; rewrite ?orb_true_r;
    reflexivity.
Qed.

Lemma resolveItems_not_found db item rest totalAmount orderProducts productId :
  present item = true ->
  Item.productId item = Some productId ->
  findById Product._id productId (Products db) = inr None ->
  resolveItems db (item :: rest) totalAmount orderProducts
  = inl (reply 400 (Error ("Product not found: " ++ productId))).
Proof.
  intros Hp Hid Hnone.
  destruct (present_inv _ Hp) as (pid & q & Hpid & Hq & Tp & Tq).
  rewrite Hid in Hpid. inversion Hpid; subst pid.
  simpl. rewrite Hid, Hq, Tp, Tq, Hnone. reflexivity.
Qed.

Lemma resolveItems_thrown db item rest totalAmount orderProducts productId
    error :
  present item = true ->
  Item.productId item = Some productId ->
  findById Product._id productId (Products db) = inl error ->
  resolveItems db (item :: rest) totalAmount orderProducts
  = inl (reply 500 (ErrorOf error)).
Proof.
  intros Hp Hid Hthrown.
  destruct (present_inv _ Hp) as (pid & q & Hpid & Hq & Tp & Tq).
  rewrite Hid in Hpid. inversion Hpid; subst pid.
  simpl. rewrite Hid, Hq, Tp, Tq, Hthrown. reflexivity.
Qed.

(** The four ways one trip through the loop can go. *)
Lemma item_cases db item :
  present item = false
  \/ (present item = true
      /\ exists productId error,
           Item.productId item = Some productId
           /\ findById Product._id productId (Products db) = inl error)
  \/ (present item = true
      /\ exists productId,
           Item.productId item = Some productId
           /\ findById Product._id productId (Products db) = inr None)
  \/ (present item = true /\ exists line, snapshot db item = Some line).
Proof.
  destruct (present item) eqn:Hp; [right|now left].
  destruct (present_inv _ Hp) as (pid & q & Hpid & Hq & _).
  unfold snapshot. rewrite Hpid, Hq.
  destruct (findById Product._id pid (Products db)) as [e|[p|]] eqn:Hf.
  - left. split; [reflexivity|]. now exists pid, e.
  - right. right. split; [reflexivity|]. eexists. reflexivity.
  - right. left. split; [reflexivity|]. now exists pid.
Qed.

(** An item that resolves is not unresolved. *)
Lemma snapshot_resolved db item line :
  snapshot db item = Some line -> ~ unresolved db item.
Proof.
  unfold snapshot. intros Hs (pid & Hpid & Hnone). rewrite Hpid in Hs.
  destruct (Item.quantity item); [|discriminate].
  destruct (findById Product._id pid (Products db)) as [e|[p|]] eqn:Hf;
    try discriminate.
  now apply (Hnone p).
Qed.

(** A completed loop has pushed one snapshot per item, in order, and has
    added each of them to the total. *)
Lemma resolveItems_inr db products :
  forall totalAmount orderProducts total lines,
    resolveItems db products totalAmount orderProducts = inr (total, lines) ->
    exists new,
      lines = (orderProducts ++ new)%list
      /\ total = fold_left addLine new totalAmount
      /\ Forall2 (fun item line =>
                    present item = true /\ snapshot db item = Some line)
           products new.
Proof.
  induction products as [|item rest IH]; intros t0 l0 total lines H.
  - simpl in H. inversion H; subst. exists []. rewrite app_nil_r.
    repeat split. constructor.
  - destruct (item_cases db item)
      as [Ha | [[Hp (pid & e & Hpid & He)] | [[Hp (pid & Hpid & Hnone)]
         | [Hp [line Hs]]]]].
    + rewrite resolveItems_absent in H by assumption. discriminate.
    + rewrite (resolveItems_thrown _ _ _ _ _ pid e) in H by assumption.
      discriminate.
    + rewrite (resolveItems_not_found _ _ _ _ _ pid) in H by assumption.
      discriminate.
    + rewrite (resolveItems_step _ _ _ _ _ line) in H by assumption.
      apply IH in H as (new & -> & -> & HF).
      exists (line :: new). rewrite <- app_assoc. simpl.
      repeat split. constructor; auto.
Qed.

(** Every early exit of the loop is a 400, but for the 500 that answers an
    identifier that does not cast. *)
Lemma resolveItems_inl db products :
  forall totalAmount orderProducts response,
    resolveItems db products totalAmount orderProducts = inl response ->
    code response = 400
    \/ (code response = 500
        /\ Exists (fun item => present item = true /\ illFormed item)
             products).
Proof.
  induction products as [|item rest IH]; intros t0 l0 r H.
  - discriminate.
  - destruct (item_cases db item)
      as [Ha | [[Hp (pid & e & Hpid & He)] | [[Hp (pid & Hpid & Hnone)]
         | [Hp [line Hs]]]]].
    + rewrite resolveItems_absent in H by assumption. inversion H. now left.
    + rewrite (resolveItems_thrown _ _ _ _ _ pid e) in H by assumption.
      inversion H. right. split; [reflexivity|]. constructor.
      split; [assumption|]. exists pid. split; [assumption|].
      now apply findById_thrown in He.
    + rewrite (resolveItems_not_found _ _ _ _ _ pid) in H by assumption.
      inversion H. now left.
    + rewrite (resolveItems_step _ _ _ _ _ line) in H by assumption.
      apply IH in H as [H | [H HE]]; [now left|].
      right. split; [assumption|]. now constructor 2.
Qed.

(** The loop runs through a prefix of items that all pass. *)
Lemma resolveItems_prefix db pre :
  forall totalAmount orderProducts,
    Forall (passes db) pre ->
    exists total lines,
      forall rest,
        resolveItems db (pre ++ rest) totalAmount orderProducts
        = resolveItems db rest total lines.
Proof.
  induction pre as [|item pre IH]; intros t0 l0 HF.
  - exists t0, l0. reflexivity.
  - inversion HF as [|? ? [Hp [line Hs]] HF']; subst.
    destruct (IH (addLine t0 line) (l0 ++ [line])%list HF') as (t & l & Hrun).
    exists t, l. intros rest. simpl app.
    rewrite (resolveItems_step _ _ _ _ _ line) by assumption. apply Hrun.
Qed.

(** The loop never gets past an item that fails the presence check or does
    not resolve: what follows that item is not looked at. *)
Lemma resolveItems_stops db pre item post :
  present item = false \/ unresolved db item ->
  forall totalAmount orderProducts,
    exists response,
      resolveItems db (pre ++ item :: post) totalAmount orderProducts
      = inl response
      /\ resolveItems db (pre ++ [item]) totalAmount orderProducts
         = inl response.
Proof.
  intros Hstop. induction pre as [|x pre IH]; intros t0 l0; simpl app.
  - destruct (item_cases db item)
      as [Ha | [[Hp (pid & e & Hpid & He)] | [[Hp (pid & Hpid & Hnone)]
         | [Hp [line Hs]]]]].
    + rewrite !resolveItems_absent by assumption. eauto.
    + rewrite !(resolveItems_thrown _ _ _ _ _ pid e) by assumption. eauto.
    + rewrite !(resolveItems_not_found _ _ _ _ _ pid) by assumption. eauto.
    + exfalso. destruct Hstop as [Ha | Hu]; [congruence|].
      now apply (snapshot_resolved db item line).
  - destruct (item_cases db x)
      as [Ha | [[Hp (pid & e & Hpid & He)] | [[Hp (pid & Hpid & Hnone)]
         | [Hp [line Hs]]]]].
    + rewrite !resolveItems_absent by assumption. eauto.
    + rewrite !(resolveItems_thrown _ _ _ _ _ pid e) by assumption. eauto.
    + rewrite !(resolveItems_not_found _ _ _ _ _ pid) by assumption. eauto.
    + rewrite !(resolveItems_step _ _ _ _ _ line) by assumption. apply IH.
Qed.

(** ** [order.save()] and the handler *)

(** A document that validates is stored as it was built, with its customer
    cast. *)
Lemma validate_inr this valid :
  validate this = inr valid ->
  exists customer,
    castObjectId (Order.customer this) = Some customer
    /\ valid = Order.setCustomer customer this
    /\ PrimFloat.is_nan (Order.totalAmount this) = false.
Proof.
  unfold validate.
  destruct (invalidPaths this) as [|path paths] eqn:Hpaths;
    [|discriminate].
  destruct (castObjectId (Order.customer this)) as [customer|] eqn:Hcast;
    [|discriminate].
  intros H. inversion H. exists customer. repeat split.
  unfold invalidPaths in Hpaths.
  apply app_eq_nil in Hpaths as [_ Hpaths].
  apply app_eq_nil in Hpaths as [_ Hpaths].
  apply app_eq_nil in Hpaths as [Hpaths _].
  destruct (PrimFloat.is_nan (Order.totalAmount this));
    [discriminate|reflexivity].
Qed.

(** What [validate] throws is a ValidationError. *)
Lemma validate_inl this error :
  validate this = inl error ->
  exists paths, error = ValidationError paths.
Proof.
  unfold validate.
  destruct (invalidPaths this) as [|path paths];
    [destruct (castObjectId (Order.customer this))|];
    intros H; inversion H; eauto.
Qed.

Lemma save_cases now this db :
  (exists paths,
     validate this = inl (ValidationError paths)
     /\ save now this db = inl (ValidationError paths))
  \/ exists valid,
       validate this = inr valid
       /\ ((keyTaken (Order.orderNumber (preSave now db valid)) db = true
            /\ save now this db
               = inl (DuplicateKey "orderNumber_1"
                        (Order.orderNumber (preSave now db valid))))
           \/ (keyTaken (Order.orderNumber (preSave now db valid)) db = false
               /\ save now this db
                  = inr (preSave now db valid,
                         mkDb (Products db)
                           (Orders db ++ [preSave now db valid])))).
Proof.
  unfold save. destruct (validate this) as [error|valid] eqn:Hv.
  - left. destruct (validate_inl _ _ Hv) as [paths ->]. now exists paths.
  - right. exists valid. split; [reflexivity|].
    destruct (keyTaken _ db); [left|right]; split; reflexivity.
Qed.

Lemma preSave_fields now db this :
  let saved := preSave now db this in
  Order._id saved = Order._id this
  /\ Order.customer saved = Order.customer this
  /\ Order.products saved = Order.products this
  /\ Order.totalAmount saved = Order.totalAmount this
  /\ Order.status saved = Order.status this
  /\ Order.orderDate saved = Order.orderDate this
  /\ Order.notes saved = Order.notes this.
Proof.
  unfold preSave. destruct (negb _); simpl; repeat split.
Qed.

(** Past its first test the handler is the loop followed by the save. *)
Lemma createOrder_checked env body db :
  truthyString (Body.customer body) = true ->
  emptyArray (Body.products body) = false ->
  exists customer products,
    Body.customer body = Some customer
    /\ Body.products body = Some products
    /\ createOrder env body db
       = match resolveItems db products 0 [] with
         | inl response => (response, db)
         | inr (totalAmount, orderProducts) =>
             match
               save (savedAt env)
                 (draft env customer orderProducts totalAmount
                    (Body.notes body)) db
             with
             | inr (saved, db') => (reply 201 (OrderDoc saved), db')
             | inl error => (reply 500 (ErrorOf error), db)
             end
         end.
Proof.
  intros Hc Hp. unfold createOrder. rewrite Hc, Hp. simpl.
  destruct (Body.customer body) as [customer|]; [|discriminate].
  destruct (Body.products body) as [products|]; [|discriminate].
  exists customer, products. repeat split.
Qed.

Lemma createOrder_rejected env body db :
  truthyString (Body.customer body) = false
  \/ emptyArray (Body.products body) = true ->
  createOrder env body db
  = (reply 400 (Error "Customer and products are required"), db).
Proof.
  unfold createOrder. intros [-> | ->]; simpl; rewrite ?orb_true_r;
    reflexivity.
Qed.

(** The handler's first test either rejects the request or lets it in. *)
Lemma createOrder_first_test body :
  (truthyString (Body.customer body) = false
   \/ emptyArray (Body.products body) = true)
  \/ (truthyString (Body.customer body) = true
      /\ emptyArray (Body.products body) = false).
Proof.
  destruct (truthyString (Body.customer body)),
    (emptyArray (Body.products body)); auto.
Qed.

(** [POST /api/orders] either leaves the database alone, with a 400 or a
    500, or appends the document it built from a completed loop, validated
    and numbered. *)
Lemma createOrder_cases env body db :
  (snd (createOrder env body db) = db
   /\ (code (fst (createOrder env body db)) = 400
       \/ code (fst (createOrder env body db)) = 500))
  \/ exists customer products total lines _id,
       Body.customer body = Some customer
       /\ Body.products body = Some products
       /\ products <> []
       /\ resolveItems db products 0 [] = inr (total, lines)
       /\ castObjectId customer = Some _id
       /\ let saved :=
            preSave (savedAt env) db
              (Order.setCustomer _id
                 (draft env customer lines total (Body.notes body))) in
          keyTaken (Order.orderNumber saved) db = false
          /\ createOrder env body db
             = (reply 201 (OrderDoc saved),
                mkDb (Products db) (Orders db ++ [saved])).
Proof.
  destruct (createOrder_first_test body) as [Hrej | [Hc Hp]].
  - left. rewrite createOrder_rejected by assumption. simpl. auto.
  - destruct (createOrder_checked env body db Hc Hp)
      as (customer & products & Hcust & Hprod & Heq).
    rewrite Heq.
    destruct (resolveItems db products 0 []) as [r | [total lines]] eqn:Hres.
    + left. split; [reflexivity|]. simpl.
      apply resolveItems_inl in Hres as [H | [H _]]; auto.
    + destruct (save_cases (savedAt env)
                  (draft env customer lines total (Body.notes body)) db)
        as [(paths & _ & Hs) | (valid & Hv & [[Hk Hs] | [Hk Hs]])];
        rewrite Hs.
      * left. simpl. auto.
      * left. simpl. auto.
      * right. apply validate_inr in Hv as (_id & Hcast & -> & _).
        exists customer, products, total, lines, _id.
        repeat split; try assumption.
        intros ->. rewrite Hprod in Hp. discriminate.
Qed.

(** A 201 comes from a completed loop and a save that went through. *)
Lemma createOrder_201 env body db response db' :
  createOrder env body db = (response, db') ->
  code response = 201 ->
  exists customer products totalAmount orderProducts _id,
    Body.customer body = Some customer
    /\ Body.products body = Some products
    /\ resolveItems db products 0 [] = inr (totalAmount, orderProducts)
    /\ castObjectId customer = Some _id
    /\ let saved :=
         preSave (savedAt env) db
           (Order.setCustomer _id
              (draft env customer orderProducts totalAmount
                 (Body.notes body))) in
       keyTaken (Order.orderNumber saved) db = false
       /\ response = reply 201 (OrderDoc saved)
       /\ db' = mkDb (Products db) (Orders db ++ [saved]).
Proof.
  intros H Hcode.
  destruct (createOrder_cases env body db)
    as [[_ Hfail] | (customer & products & total & lines & _id & Hc & Hp & _
                     & Hres & Hcast & Hk & Heq)].
  - rewrite H in Hfail. simpl in Hfail. destruct Hfail; congruence.
  - exists customer, products, total, lines, _id.
    rewrite Heq in H. inversion H; subst. repeat split; assumption.
Qed.

(** ** Created orders *)

(** C1. For every order that [POST /api/orders] creates (the reply is a
    201): the reply carries the stored order, which is appended to the
    collection; its [totalAmount] is exactly the sum, over its line items in
    order, of quantity times unit price; its status is ['placed']; and each
    line item holds the quantity of the request's item and the price that
    the Product found under the item's identifier has in the catalogue at
    that moment. *)
Theorem created_order_total_status_snapshots env body db response db' :
  createOrder env body db = (response, db') ->
  code response = 201 ->
  exists saved products,
    response = reply 201 (OrderDoc saved)
    /\ Orders db' = (Orders db ++ [saved])%list
    /\ Order.totalAmount saved = sumOfLines (Order.products saved)
    /\ Order.status saved = "placed"
    /\ Body.products body = Some products
    /\ Forall2
         (fun item line =>
            exists productId product,
              Item.productId item = Some productId
              /\ findById Product._id productId (Products db)
                 = inr (Some product)
              /\ LineItem.product line = Product._id product
              /\ LineItem.price line = Product.price product
              /\ Item.quantity item = Some (LineItem.quantity line))
         products (Order.products saved).
Proof.
  intros H Hcode.
  destruct (createOrder_201 _ _ _ _ _ H Hcode)
    as (customer & products & total & lines & _id & Hc & Hp & Hres & _ & Hk
        & -> & ->).
  destruct (preSave_fields (savedAt env) db
              (Order.setCustomer _id
                 (draft env customer lines total (Body.notes body))))
    as (_ & _ & Hlines & Htotal & Hstatus & _).
  eexists. exists products. split; [reflexivity|]. split; [reflexivity|].
  rewrite Hlines, Htotal, Hstatus. simpl.
  apply resolveItems_inr in Hres as (new & -> & -> & HF). simpl.
  split; [apply fold_addLine_sum|]. repeat split; try assumption.
  clear - HF. induction HF as [|item line ? ? [_ Hs] _ IH]; constructor; auto.
  unfold snapshot in Hs.
  destruct (Item.productId item) as [pid|]; [|discriminate].
  destruct (Item.quantity item) as [q|]; [|discriminate].
  destruct (findById Product._id pid (Products db)) as [e|[p|]] eqn:Hf;
    try discriminate.
  inversion Hs; subst. exists pid, p. simpl. repeat split. assumption.
Qed.

(** ** Unresolved products *)

(** C2, amended. When some line item's product identifier does not resolve,
    [POST /api/orders] fails and leaves the database as it was: with a 400,
    or with a 500 when an identifier up to and including that item's is not
    an ObjectId.  When the request has a customer, the item has a non-empty
    identifier and a non-zero quantity, and every line item before it passes
    the presence check and resolves, the reply is the 400 not-found error
    naming the identifier if it casts to an ObjectId under which no product
    is stored, and the 500 that carries the cast error if it does not
    cast. *)
Theorem unresolved_item_aborts env body db pre item post productId :
  Body.products body = Some (pre ++ item :: post)%list ->
  Item.productId item = Some productId ->
  (forall product,
      findById Product._id productId (Products db) <> inr (Some product)) ->
  snd (createOrder env body db) = db
  /\ (code (fst (createOrder env body db)) = 400
      \/ code (fst (createOrder env body db)) = 500)
  /\ (code (fst (createOrder env body db)) = 500 ->
      Exists illFormed (pre ++ [item]))
  /\ (truthyString (Body.customer body) = true ->
      present item = true ->
      Forall (passes db) pre ->
      (findById Product._id productId (Products db) = inr None ->
       fst (createOrder env body db)
       = reply 400 (Error ("Product not found: " ++ productId)))
      /\ (castObjectId productId = None ->
          fst (createOrder env body db)
          = reply 500 (ErrorOf (CastError "ObjectId" productId "_id")))).
Proof.
  intros Hprod Hid Hnone.
  assert (Hun : unresolved db item) by now exists productId.
  destruct (createOrder_first_test body) as [Hrej | [Hc Hp]].
  - rewrite createOrder_rejected by assumption. simpl.
    split; [reflexivity|]. split; [now left|]. split; [discriminate|].
    intros Hc. destruct Hrej as [Hrej | Hrej]; [congruence|].
    rewrite Hprod in Hrej. simpl in Hrej. rewrite length_app in Hrej.
    simpl in Hrej. apply Nat.eqb_eq in Hrej. lia.
  - destruct (createOrder_checked env body db Hc Hp)
      as (customer & products & Hcust & Hprod' & ->).
    rewrite Hprod in Hprod'. inversion Hprod'; subst products.
    destruct (resolveItems_stops db pre item post (or_intror Hun) 0%float [])
      as (r & Hr & Hr').
    rewrite Hr. simpl. split; [reflexivity|].
    pose proof (resolveItems_inl _ _ _ _ _ Hr') as Hcode.
    split; [destruct Hcode as [H | [H _]]; auto|]. split.
    + intros H500. destruct Hcode as [H | [_ HE]]; [congruence|].
      eapply Exists_impl; [|exact HE]. now intros x [_ Hx].
    + intros _ Hpresent Hpre.
      destruct (resolveItems_prefix db pre 0%float [] Hpre) as (t & l & Hrun).
      rewrite Hrun in Hr. split.
      * intros Hnf.
        rewrite (resolveItems_not_found _ _ _ _ _ productId) in Hr
          by assumption.
        now inversion Hr.
      * intros Hcast.
        rewrite (resolveItems_thrown _ _ _ _ _ productId
                   (CastError "ObjectId" productId "_id")) in Hr;
          [now inversion Hr|assumption|assumption|].
        unfold findById. now rewrite Hcast.
Qed.

(** ** Updating by identifier *)

Section ModelFacts.
Context {Doc : Type} (idOf : Doc -> ObjectId).

Lemma findOneAndUpdate_none _id update docs :
  findOne idOf _id docs = None ->
  findOneAndUpdate idOf _id update docs = (None, docs).
Proof.
  unfold findOne. induction docs as [|d rest IH]; simpl; [reflexivity|].
  destruct (String.eqb (idOf d) _id); [discriminate|].
  intros H. now rewrite (IH H).
Qed.

(** The first document under [_id] is replaced by its update, in place;
    the documents around it stay as they are. *)
Lemma findOneAndUpdate_some _id update docs d :
  findOne idOf _id docs = Some d ->
  exists pre post,
    docs = (pre ++ d :: post)%list
    /\ Forall (fun x => String.eqb (idOf x) _id = false) pre
    /\ idOf d = _id
    /\ findOneAndUpdate idOf _id update docs
       = (Some (update d), (pre ++ update d :: post)%list).
Proof.
  unfold findOne. induction docs as [|x rest IH]; simpl; [discriminate|].
  destruct (String.eqb (idOf x) _id) eqn:Hx.
  - intros H. inversion H; subst x. exists [], rest.
    repeat split; [constructor|now apply String.eqb_eq].
  - intros H. destruct (IH H) as (pre & post & -> & Hpre & Hid & ->).
    exists (x :: pre), post. repeat split; [|assumption].
    constructor; assumption.
Qed.

Lemma findOne_app_skip _id pre rest :
  Forall (fun x => String.eqb (idOf x) _id = false) pre ->
  findOne idOf _id (pre ++ rest) = findOne idOf _id rest.
Proof.
  unfold findOne. induction 1 as [|x pre Hx _ IH]; simpl; [reflexivity|].
  now rewrite Hx.
Qed.

(** [findByIdAndUpdate] with an update that validates, by what [findById]
    gives for the same identifier. *)
Lemma findByIdAndUpdate_thrown id update docs error :
  findById idOf id docs = inl error ->
  findByIdAndUpdate idOf id [] update docs = inl error.
Proof.
  unfold findById, findByIdAndUpdate.
  destruct (castObjectId id); [discriminate|]. intros H. now inversion H.
Qed.

Lemma findByIdAndUpdate_none id update docs :
  findById idOf id docs = inr None ->
  findByIdAndUpdate idOf id [] update docs = inr (None, docs).
Proof.
  unfold findById, findByIdAndUpdate.
  destruct (castObjectId id) as [_id|]; [|discriminate].
  intros H. inversion H as [Hfind].
  rewrite Hfind, (findOneAndUpdate_none _ update _ Hfind). reflexivity.
Qed.

Lemma findByIdAndUpdate_some id update docs d :
  findById idOf id docs = inr (Some d) ->
  exists pre post,
    docs = (pre ++ d :: post)%list
    /\ Forall (fun x => String.eqb (idOf x) (idOf d) = false) pre
    /\ castObjectId id = Some (idOf d)
    /\ findByIdAndUpdate idOf id [] update docs
       = inr (Some (update d), (pre ++ update d :: post)%list).
Proof.
  unfold findById, findByIdAndUpdate.
  destruct (castObjectId id) as [_id|]; [|discriminate].
  intros H. inversion H as [Hfind].
  destruct (findOneAndUpdate_some _id update docs d Hfind)
    as (pre & post & Hdocs & Hpre & <- & ->).
  exists pre, post. repeat split; assumption.
Qed.

(** A document that is reached under an identifier is reached under it
    again when the documents before it are not touched and it keeps its
    [_id]. *)
Lemma findById_replaced id pre d d' post :
  Forall (fun x => String.eqb (idOf x) (idOf d) = false) pre ->
  castObjectId id = Some (idOf d) ->
  idOf d' = idOf d ->
  findById idOf id (pre ++ d' :: post) = inr (Some d').
Proof.
  intros Hpre Hcast Hid. unfold findById. rewrite Hcast.
  rewrite findOne_app_skip by assumption.
  unfold findOne. simpl. now rewrite Hid, String.eqb_refl.
Qed.
End ModelFacts.

Lemma includes_In l s : includes l s = true <-> In s l.
Proof.
  unfold includes. rewrite existsb_exists. split.
  - intros (x & Hin & Heq). apply String.eqb_eq in Heq. now subst.
  - intros Hin. exists s. split; [assumption|apply String.eqb_refl].
Qed.

Lemma valid_status_truthy s :
  includes validStatuses s = true -> truthyString (Some s) = true.
Proof.
  intros H. apply includes_In in H. simpl in H.
  destruct H as [<- | [<- | [<- | [<- | []]]]]; reflexivity.
Qed.

(** With a recognised status the handler is the update by identifier. *)
Lemma updateOrderStatus_valid id status db :
  includes validStatuses status = true ->
  updateOrderStatus id (Some status) db
  = match
      findByIdAndUpdate Order._id id [] (Order.setStatus status) (Orders db)
    with
    | inl error => (reply 500 (ErrorOf error), db)
    | inr (None, orders') =>
        (reply 404 (Error "Order not found"), mkDb (Products db) orders')
    | inr (Some order, orders') =>
        (reply 200 (OrderDoc order), mkDb (Products db) orders')
    end.
Proof.
  intros Hvalid. unfold updateOrderStatus.
  rewrite (valid_status_truthy _ Hvalid).
  change statusEnum with validStatuses. rewrite Hvalid. simpl.
  destruct (findByIdAndUpdate _ _ _ _ _) as [e|[[o|] orders']]; reflexivity.
Qed.

Lemma db_eta db : mkDb (Products db) (Orders db) = db.
Proof. destruct db. reflexivity. Qed.

(** Every reply of the handler but the 200 leaves the database alone, and a
    200 comes from a recognised status and a stored order. *)
Lemma updateOrderStatus_cases id status db :
  (truthyString status = false
   /\ updateOrderStatus id status db
      = (reply 400 (Error "Status is required"), db))
  \/ (exists s,
        status = Some s /\ truthyString status = true
        /\ includes validStatuses s = false
        /\ updateOrderStatus id status db
           = (reply 400 (Error invalidStatusMessage), db))
  \/ (exists s error,
        status = Some s /\ includes validStatuses s = true
        /\ findById Order._id id (Orders db) = inl error
        /\ updateOrderStatus id status db
           = (reply 500 (ErrorOf error), db))
  \/ (exists s,
        status = Some s /\ includes validStatuses s = true
        /\ findById Order._id id (Orders db) = inr None
        /\ updateOrderStatus id status db
           = (reply 404 (Error "Order not found"), db))
  \/ (exists s order pre post,
        status = Some s /\ includes validStatuses s = true
        /\ findById Order._id id (Orders db) = inr (Some order)
        /\ Orders db = (pre ++ order :: post)%list
        /\ Forall
             (fun x => String.eqb (Order._id x) (Order._id order) = false)
             pre
        /\ castObjectId id = Some (Order._id order)
        /\ updateOrderStatus id status db
           = (reply 200 (OrderDoc (Order.setStatus s order)),
              mkDb (Products db)
                (pre ++ Order.setStatus s order :: post))).
Proof.
  destruct (truthyString status) eqn:Htruthy.
  2:{ left. split; [reflexivity|]. unfold updateOrderStatus.
      now rewrite Htruthy. }
  right. destruct status as [s|]; [|discriminate].
  destruct (includes validStatuses s) eqn:Hvalid.
  2:{ left. exists s. repeat split; try assumption.
      unfold updateOrderStatus. now rewrite Htruthy, Hvalid. }
  right. rewrite (updateOrderStatus_valid _ _ _ Hvalid).
  destruct (findById Order._id id (Orders db)) as [e|[order|]] eqn:Hfind.
  - left. exists s, e.
    rewrite (findByIdAndUpdate_thrown _ _ _ _ _ Hfind). auto.
  - right. right.
    destruct (findByIdAndUpdate_some Order._id id (Order.setStatus s)
                _ _ Hfind) as (pre & post & Horders & Hpre & Hcast & ->).
    exists s, order, pre, post. repeat split; assumption.
  - right. left. exists s.
    rewrite (findByIdAndUpdate_none _ _ _ _ Hfind), db_eta. auto.
Qed.

(** ** Status updates: what is accepted *)

(** C3. For every stored order and every target status among the four
    recognised values, [PUT /api/orders/:id/status] succeeds with a 200 and
    stores the target status, whatever the order's current status is: no
    transition rule is enforced, so ['delivered'] and ['cancelled'] can be
    left too. *)
Theorem any_recognised_status_is_stored id status db order :
  In status validStatuses ->
  findById Order._id id (Orders db) = inr (Some order) ->
  exists db',
    updateOrderStatus id (Some status) db
    = (reply 200 (OrderDoc (Order.setStatus status order)), db')
    /\ findById Order._id id (Orders db')
       = inr (Some (Order.setStatus status order))
    /\ Order.status (Order.setStatus status order) = status.
Proof.
  intros Hin Hfind. apply includes_In in Hin.
  rewrite (updateOrderStatus_valid _ _ _ Hin).
  destruct (findByIdAndUpdate_some Order._id id (Order.setStatus status)
              _ _ Hfind) as (pre & post & Horders & Hpre & Hcast & ->).
  eexists. split; [reflexivity|]. split; [|reflexivity].
  simpl. now apply (findById_replaced Order._id id pre order).
Qed.

(** ** A taken order number *)

(** C4, amended. When persisting a new order raises a uniqueness violation
    on the order number, [POST /api/orders] does not retry: it fails at
    once with a 500 that carries the store's error, and no order is
    persisted.  (So it does with whatever else [order.save()] throws; the
    only unique index that the save can violate is the one on the order
    number, with the number that the hook has just generated.) *)
Theorem duplicate_number_fails_at_once
    env body db customer products totalAmount orderProducts error :
  truthyString (Body.customer body) = true ->
  Body.customer body = Some customer ->
  Body.products body = Some products ->
  products <> [] ->
  resolveItems db products 0 [] = inr (totalAmount, orderProducts) ->
  save (savedAt env)
    (draft env customer orderProducts totalAmount (Body.notes body)) db
  = inl error ->
  createOrder env body db = (reply 500 (ErrorOf error), db)
  /\ forall index key,
       error = DuplicateKey index key ->
       index = "orderNumber_1"
       /\ key = Some (orderNumberOf (savedAt env) (length (Orders db)))
       /\ keyTaken key db = true.
Proof.
  intros Hc Hcust Hprod Hne Hres Hsave.
  assert (Hp : emptyArray (Body.products body) = false).
  { rewrite Hprod. destruct products; [congruence|reflexivity]. }
  destruct (createOrder_checked env body db Hc Hp)
    as (customer' & products' & Hcust' & Hprod' & ->).
  assert (customer' = customer) by congruence.
  assert (products' = products) by congruence. subst.
  rewrite Hres, Hsave. split; [reflexivity|].
  intros index key ->.
  destruct (save_cases (savedAt env)
              (draft env customer orderProducts totalAmount (Body.notes body))
              db)
    as [(paths & _ & Hs) | (valid & Hv & [[Hk Hs] | [Hk Hs]])];
    rewrite Hs in Hsave; inversion Hsave; subst.
  apply validate_inr in Hv as (_id & _ & -> & _).
  split; [reflexivity|]. split; [reflexivity|]. exact Hk.
Qed.

(** ** The order number *)

(** C5, amended. For every order saved without an order number, the hook
    sets [orderNumber] to ['ORD-'], the epoch milliseconds in decimal, a
    hyphen, and the count of stored orders plus one in decimal, zero-padded
    to at least 4 digits: exactly 4 digits while count + 1 is at most 9999,
    and the number itself, in more than 4 digits, from 10000 on. *)
Theorem order_number_format now db this :
  truthyString (Order.orderNumber this) = false ->
  let next := (N.of_nat (length (Orders db)) + 1)%N in
  let sequence := padStart 4 "0" (toString next) in
  Order.orderNumber (preSave now db this)
  = Some ("ORD-" ++ toString now ++ "-" ++ sequence)
  /\ parseDecimal (toString now) = now
  /\ parseDecimal sequence = next
  /\ (exists k, sequence = zeros k ++ toString next)
  /\ ((next <= 9999)%N -> String.length sequence = 4)
  /\ ((10000 <= next)%N ->
      sequence = toString next /\ 4 < String.length sequence).
Proof.
  intros Hfalsy next sequence.
  assert (Hpad : sequence
                 = zeros (4 - String.length (toString next))
                     ++ toString next)
    by apply padStart_zeros.
  split; [|split; [|split; [|split; [|split]]]].
  - unfold preSave. rewrite Hfalsy. reflexivity.
  - apply parseDecimal_toString.
  - rewrite Hpad, parseDecimal_zeros. apply parseDecimal_toString.
  - eexists. exact Hpad.
  - intros Hsmall.
    assert (Hle : String.length (toString next) <= 4).
    { apply (toString_length_le next 3).
      change (10 ^ N.of_nat 4)%N with 10000%N. lia. }
    rewrite Hpad, length_append, zeros_length. lia.
  - intros Hbig.
    assert (Hge : 5 <= String.length (toString next)).
    { apply (toString_length_ge next 4).
      change (10 ^ N.of_nat 4)%N with 10000%N. exact Hbig. }
    rewrite Hpad.
    replace (4 - String.length (toString next)) with 0 by lia.
    split; [reflexivity|simpl; lia].
Qed.

(** ** The first test of [POST /api/orders] *)

(** C6, amended. [POST /api/orders] fails fast with one message for both
    conditions: if the customer identifier is missing or empty, or the
    line-item sequence is missing or empty, the reply is the 400
    ['Customer and products are required'], whatever else the request and
    the database hold, and the database is left as it was. *)
Theorem customer_and_products_required env body db :
  truthyString (Body.customer body) = false
  \/ emptyArray (Body.products body) = true ->
  createOrder env body db
  = (reply 400 (Error "Customer and products are required"), db).
Proof.
  intros H. destruct (createOrder_first_test body) as [Hrej | [Hc Hp]].
  - apply createOrder_rejected. exact Hrej.
  - destruct H; congruence.
Qed.

(** ** The presence check on line items *)

(** C7, amended. When a line item has no quantity or a zero quantity (or no
    product identifier, or an empty one), [POST /api/orders] fails and no
    order is persisted: with a 400, unless the identifier of an earlier
    line item does not cast to an ObjectId, which is answered with a 500.
    The reply is ['Each product must have productId and quantity'] when the
    request has a customer and every line item before that one passes the
    check and resolves.  (A negative or fractional quantity passes the
    check.) *)
Theorem falsy_quantity_aborts env body db pre item post :
  Body.products body = Some (pre ++ item :: post)%list ->
  present item = false ->
  snd (createOrder env body db) = db
  /\ (code (fst (createOrder env body db)) = 400
      \/ code (fst (createOrder env body db)) = 500)
  /\ (code (fst (createOrder env body db)) = 500 -> Exists illFormed pre)
  /\ (truthyString (Body.customer body) = true ->
      Forall (passes db) pre ->
      fst (createOrder env body db)
      = reply 400 (Error "Each product must have productId and quantity")).
Proof.
  intros Hprod Habsent.
  destruct (createOrder_first_test body) as [Hrej | [Hc Hp]].
  - rewrite createOrder_rejected by assumption. simpl.
    split; [reflexivity|]. split; [now left|]. split; [discriminate|].
    intros Hc. destruct Hrej as [Hrej | Hrej]; [congruence|].
    rewrite Hprod in Hrej. simpl in Hrej. rewrite length_app in Hrej.
    simpl in Hrej. apply Nat.eqb_eq in Hrej. lia.
  - destruct (createOrder_checked env body db Hc Hp)
      as (customer & products & Hcust & Hprod' & ->).
    rewrite Hprod in Hprod'. inversion Hprod'; subst products.
    destruct (resolveItems_stops db pre item post (or_introl Habsent)
                0%float [])
      as (r & Hr & Hr').
    rewrite Hr. simpl. split; [reflexivity|].
    pose proof (resolveItems_inl _ _ _ _ _ Hr') as Hcode.
    split; [destruct Hcode as [H | [H _]]; auto|]. split.
    + intros H500. destruct Hcode as [H | [_ HE]]; [congruence|].
      apply Exists_app in HE as [HE | HE].
      * eapply Exists_impl; [|exact HE]. now intros x [_ Hx].
      * inversion HE as [? ? [Hpresent _]|? ? HE']; subst;
          [congruence|inversion HE'].
    + intros _ Hpre.
      destruct (resolveItems_prefix db pre 0%float [] Hpre)
        as (t & l & Hrun).
      rewrite Hrun, resolveItems_absent in Hr by assumption.
      now inversion Hr.
Qed.

(** ** Status updates: what is refused, and what is left alone *)

(** C8, amended. For every status-update request: if the status is missing
    or empty the reply is the 400 ['Status is required']; otherwise, if it
    is not one of the four recognised values, the reply is the 400 that
    enumerates them; both replies are given whatever the identifier and the
    database are.  Otherwise, if the identifier casts to an ObjectId under
    which no order is stored, the reply is the 404 ['Order not found'], and
    if it does not cast, the 500 that carries the cast error.  In all four
    cases the database stays as it was. *)
Theorem status_update_refusals id status db :
  (truthyString status = false ->
   updateOrderStatus id status db
   = (reply 400 (Error "Status is required"), db))
  /\ (forall s,
        status = Some s ->
        truthyString status = true ->
        includes validStatuses s = false ->
        updateOrderStatus id status db
        = (reply 400
             (Error
                "Invalid status. Must be one of: placed, shipped, delivered, cancelled"),
           db))
  /\ (forall s _id,
        status = Some s ->
        includes validStatuses s = true ->
        castObjectId id = Some _id ->
        findOne Order._id _id (Orders db) = None ->
        updateOrderStatus id status db
        = (reply 404 (Error "Order not found"), db))
  /\ (forall s,
        status = Some s ->
        includes validStatuses s = true ->
        castObjectId id = None ->
        updateOrderStatus id status db
        = (reply 500 (ErrorOf (CastError "ObjectId" id "_id")), db)).
Proof.
  split; [|split; [|split]].
  - intros Hfalsy. unfold updateOrderStatus. now rewrite Hfalsy.
  - intros s -> Htruthy Hinvalid. unfold updateOrderStatus.
    now rewrite Htruthy, Hinvalid.
  - intros s _id -> Hvalid Hcast Hnone.
    rewrite (updateOrderStatus_valid _ _ _ Hvalid).
    rewrite (findByIdAndUpdate_none Order._id id);
      [now rewrite db_eta|].
    unfold findById. now rewrite Hcast, Hnone.
  - intros s -> Hvalid Hcast.
    rewrite (updateOrderStatus_valid _ _ _ Hvalid).
    rewrite (findByIdAndUpdate_thrown Order._id id _ _
               (CastError "ObjectId" id "_id")); [reflexivity|].
    unfold findById. now rewrite Hcast.
Qed.

(** PUT /api/products/:id never touches the orders. *)
Lemma updateProduct_orders id body db :
  Orders (snd (updateProduct id body db)) = Orders db.
Proof.
  unfold updateProduct.
  destruct (findByIdAndUpdate _ _ _ _ _) as [e|[[p|] products']];
    reflexivity.
Qed.

(** C9. A successful status update changes only the order's status: the
    updated order, which is the one stored under the identifier, keeps its
    identifier, order number, customer reference, line items (with each
    quantity and price snapshot), total, order date and notes; the orders
    around it and the products are untouched.  And a later
    [PUT /api/products/:id], which is how a catalogue price changes, leaves
    every stored order as it is. *)
Theorem status_update_changes_only_status id status db response db' :
  updateOrderStatus id status db = (response, db') ->
  code response = 200 ->
  exists s order updated pre post,
    status = Some s
    /\ Orders db = (pre ++ order :: post)%list
    /\ castObjectId id = Some (Order._id order)
    /\ response = reply 200 (OrderDoc updated)
    /\ Orders db' = (pre ++ updated :: post)%list
    /\ Products db' = Products db
    /\ Order.status updated = s
    /\ Order._id updated = Order._id order
    /\ Order.orderNumber updated = Order.orderNumber order
    /\ Order.customer updated = Order.customer order
    /\ Order.products updated = Order.products order
    /\ Order.totalAmount updated = Order.totalAmount order
    /\ Order.orderDate updated = Order.orderDate order
    /\ Order.notes updated = Order.notes order
    /\ forall productId patch,
         Orders (snd (updateProduct productId patch db')) = Orders db'.
Proof.
  intros Hrun Hcode.
  destruct (updateOrderStatus_cases id status db)
    as [[_ H] | [(s & _ & _ & _ & H) | [(s & e & _ & _ & _ & H)
       | [(s & _ & _ & _ & H)
       | (s & order & pre & post & Hs & _ & Hfind & Horders & _ & Hcast
          & H)]]]];
    rewrite H in Hrun; inversion Hrun; subst; try discriminate.
  exists s, order, (Order.setStatus s order), pre, post.
  repeat split; try assumption.
  intros productId patch. apply updateProduct_orders.
Qed.

(** ** The active flag *)

Lemma findOne_sameButActive _id ps ps' :
  Forall2 sameButActive ps ps' ->
  match findOne Product._id _id ps, findOne Product._id _id ps' with
  | Some p, Some p' => sameButActive p p'
  | None, None => True
  | _, _ => False
  end.
Proof.
  induction 1 as [|p p' ps ps' Hp _ IH]; simpl; [exact I|].
  destruct Hp as (Hid & Hrest). unfold findOne in *. simpl. rewrite Hid.
  destruct (String.eqb (Product._id p) _id); [|exact IH].
  split; assumption.
Qed.

Lemma resolveItems_sameButActive db db' products :
  Forall2 sameButActive (Products db) (Products db') ->
  forall totalAmount orderProducts,
    resolveItems db' products totalAmount orderProducts
    = resolveItems db products totalAmount orderProducts.
Proof.
  intros Hsame. induction products as [|item rest IH]; intros t0 l0;
    [reflexivity|].
  simpl. destruct (negb _ || negb _); [reflexivity|].
  destruct (Item.productId item) as [pid|]; [|reflexivity].
  destruct (Item.quantity item) as [q|]; [|reflexivity].
  unfold findById. destruct (castObjectId pid) as [_id|]; [|reflexivity].
  pose proof (findOne_sameButActive _id _ _ Hsame) as Hfind.
  destruct (findOne Product._id _id (Products db)) as [p|],
    (findOne Product._id _id (Products db')) as [p'|];
    try contradiction; [|reflexivity].
  destruct Hfind as (Hid & _ & _ & _ & Hprice & _).
  rewrite Hid, Hprice. apply IH.
Qed.

Lemma snapshot_sameButActive db db' item :
  Forall2 sameButActive (Products db) (Products db') ->
  snapshot db' item = snapshot db item.
Proof.
  intros Hsame. unfold snapshot.
  destruct (Item.productId item) as [pid|]; [|reflexivity].
  destruct (Item.quantity item) as [q|]; [|reflexivity].
  unfold findById. destruct (castObjectId pid) as [_id|]; [|reflexivity].
  pose proof (findOne_sameButActive _id _ _ Hsame) as Hfind.
  destruct (findOne Product._id _id (Products db)) as [p|],
    (findOne Product._id _id (Products db')) as [p'|];
    try contradiction; [|reflexivity].
  destruct Hfind as (Hid & _ & _ & _ & Hprice & _).
  now rewrite Hid, Hprice.
Qed.

Lemma save_sameButActive now this db db' :
  Orders db' = Orders db ->
  match save now this db, save now this db' with
  | inl e, inl e' => e' = e
  | inr (saved, after), inr (saved', after') =>
      saved' = saved /\ Orders after' = Orders after
      /\ Products after = Products db /\ Products after' = Products db'
  | _, _ => False
  end.
Proof.
  intros Horders. unfold save, keyTaken, preSave. rewrite Horders.
  destruct (validate this) as [e|valid]; [reflexivity|].
  destruct (existsb _ (Orders db)); simpl; [reflexivity|].
  repeat split.
Qed.

(** C10. [POST /api/orders] does not look at [isActive].  Its reply and the
    orders it leaves in the store are the same on two databases that differ
    only in the products' [isActive] flags: an order that is created when
    all its products are active is created, the same, when some of them are
    not.  And in every order that is created, each product's price, active
    or not, is snapshotted in its line and counted in the total. *)
Theorem createOrder_ignores_isActive env body db db' :
  sameButActiveDb db db' ->
  fst (createOrder env body db') = fst (createOrder env body db)
  /\ Orders (snd (createOrder env body db'))
     = Orders (snd (createOrder env body db))
  /\ forall saved,
       fst (createOrder env body db') = reply 201 (OrderDoc saved) ->
       exists products,
         Body.products body = Some products
         /\ Forall2 (fun item line => snapshot db' item = Some line)
              products (Order.products saved)
         /\ Forall2 (fun item line => snapshot db item = Some line)
              products (Order.products saved)
         /\ Order.totalAmount saved = sumOfLines (Order.products saved).
Proof.
  intros [Hprods Horders].
  assert (Hboth :
    fst (createOrder env body db') = fst (createOrder env body db)
    /\ Orders (snd (createOrder env body db'))
       = Orders (snd (createOrder env body db))).
  { destruct (createOrder_first_test body) as [Hrej | [Hc Hp]].
    - rewrite !createOrder_rejected by assumption. simpl. auto.
    - destruct (createOrder_checked env body db Hc Hp)
        as (customer & products & Hcust & Hprod & ->).
      destruct (createOrder_checked env body db' Hc Hp)
        as (customer' & products' & Hcust' & Hprod' & ->).
      assert (customer' = customer) by congruence.
      assert (products' = products) by congruence. subst.
      rewrite (resolveItems_sameButActive db db' products Hprods).
      destruct (resolveItems db products 0 []) as [r | [total lines]];
        [simpl; auto|].
      pose proof (save_sameButActive (savedAt env)
                    (draft env customer lines total (Body.notes body))
                    db db' Horders) as Hsave.
      destruct (save (savedAt env) _ db) as [e | [saved after]],
        (save (savedAt env) _ db') as [e' | [saved' after']];
        try contradiction.
      + subst. simpl. auto.
      + destruct Hsave as (-> & Hafter & _). simpl. auto. }
  destruct Hboth as [Hfst Hsnd]. split; [exact Hfst|]. split; [exact Hsnd|].
  intros saved Hreply.
  destruct (createOrder env body db') as [response after] eqn:Hrun.
  simpl in Hreply. subst response.
  destruct (createOrder_201 _ _ _ _ _ Hrun eq_refl)
    as (customer & products & total & lines & _id & _ & Hp & Hres & _ & _
        & Hsaved & _).
  inversion Hsaved; subst saved. exists products.
  split; [assumption|].
  destruct (preSave_fields (savedAt env) db'
              (Order.setCustomer _id
                 (draft env customer lines total (Body.notes body))))
    as (_ & _ & -> & -> & _). simpl.
  apply resolveItems_inr in Hres as (new & -> & -> & HF). simpl.
  assert (HF' : Forall2 (fun item line => snapshot db' item = Some line)
                  products new).
  { clear - HF. induction HF as [|? ? ? ? [_ Hsnap]]; constructor; auto. }
  split; [exact HF'|]. split; [|apply fold_addLine_sum].
  clear - HF' Hprods. induction HF' as [|? ? ? ? Hsnap]; constructor; auto.
  now rewrite <- (snapshot_sameButActive db db' _ Hprods).
Qed.

(** * Properties of the other routes *)

(** ** What a request does to the collections *)

Lemma deleteProduct_orders id db :
  Orders (snd (deleteProduct id db)) = Orders db.
Proof.
  unfold deleteProduct.
  destruct (findByIdAndDelete _ _ _) as [e|[[p|] products']]; reflexivity.
Qed.

(** A status update either leaves the orders alone or replaces one order,
    in place, by itself with a recognised status. *)
Lemma updateOrderStatus_orders id status db :
  Orders (snd (updateOrderStatus id status db)) = Orders db
  \/ exists s order pre post,
       includes validStatuses s = true
       /\ Orders db = (pre ++ order :: post)%list
       /\ Orders (snd (updateOrderStatus id status db))
          = (pre ++ Order.setStatus s order :: post)%list.
Proof.
  destruct (updateOrderStatus_cases id status db)
    as [[_ H] | [(s & _ & _ & _ & H) | [(s & e & _ & _ & _ & H)
       | [(s & _ & _ & _ & H)
       | (s & order & pre & post & _ & Hv & _ & Horders & _ & _ & H)]]]];
    rewrite H; simpl; auto.
  right. exists s, order, pre, post. auto.
Qed.

(** A property of single orders that creation establishes and a status
    update keeps is kept by every request. *)
Lemma serve_Forall (P : Order.t -> Prop) :
  (forall env db customer _id products total lines notes,
      products <> [] ->
      resolveItems db products 0 [] = inr (total, lines) ->
      castObjectId customer = Some _id ->
      P (preSave (savedAt env) db
           (Order.setCustomer _id (draft env customer lines total notes)))) ->
  (forall s o, includes validStatuses s = true -> P o ->
               P (Order.setStatus s o)) ->
  forall r db, Forall P (Orders db) -> Forall P (Orders (serve r db)).
Proof.
  intros Hcreate Hstatus r db Hall.
  destruct r as [env body|id status|id body|id];
    simpl.
  - destruct (createOrder_cases env body db)
      as [[-> _] | (customer & products & total & lines & _id & _ & _ & Hne
                    & Hres & Hcast & _ & ->)]; [assumption|].
    simpl. apply Forall_app. split; [assumption|].
    constructor; [|constructor]. now apply (Hcreate _ _ _ _ products).
  - destruct (updateOrderStatus_orders id status db)
      as [-> | (s & order & pre & post & Hv & Hdb & ->)]; [assumption|].
    rewrite Hdb in Hall. apply Forall_app in Hall as [Hpre Hrest].
    inversion Hrest; subst. apply Forall_app. split; [assumption|].
    constructor; [|assumption]. now apply Hstatus.
  - now rewrite updateProduct_orders.
  - now rewrite deleteProduct_orders.
Qed.

Lemma serveAll_Forall (P : Order.t -> Prop) :
  (forall env db customer _id products total lines notes,
      products <> [] ->
      resolveItems db products 0 [] = inr (total, lines) ->
      castObjectId customer = Some _id ->
      P (preSave (savedAt env) db
           (Order.setCustomer _id (draft env customer lines total notes)))) ->
  (forall s o, includes validStatuses s = true -> P o ->
               P (Order.setStatus s o)) ->
  forall rs db, Forall P (Orders db) -> Forall P (Orders (serveAll rs db)).
Proof.
  intros Hcreate Hstatus rs. unfold serveAll.
  induction rs as [|r rs IH]; intros db Hall; simpl; [assumption|].
  apply IH. now apply serve_Forall.
Qed.

Lemma preSave_draft_fields now db env customer _id lines total notes :
  let saved :=
    preSave now db
      (Order.setCustomer _id (draft env customer lines total notes)) in
  Order.products saved = lines
  /\ Order.totalAmount saved = total
  /\ Order.status saved = "placed"
  /\ Order.orderNumber saved = Some (orderNumberOf now (length (Orders db)))
  /\ Order.customer saved = _id.
Proof. repeat split. Qed.

(** ** Invariants of the stored orders *)

(** X1. Over any sequence of order creations, status updates, product
    updates and product deletions, every stored order's [totalAmount] stays
    the sum of quantity times price snapshot over its own line items:
    changing or deleting a product never makes a stored total wrong. *)
Theorem totals_stay_sums rs db :
  Forall totalIsSum (Orders db) ->
  Forall totalIsSum (Orders (serveAll rs db)).
Proof.
  apply serveAll_Forall.
  - intros env db' customer _id products total lines notes _ Hres _.
    unfold totalIsSum.
    destruct (preSave_draft_fields (savedAt env) db' env customer _id lines
                total notes) as (-> & -> & _).
    apply resolveItems_inr in Hres as (new & -> & -> & _). simpl.
    apply fold_addLine_sum.
  - intros s o _ H. exact H.
Qed.

(** X2. Over any sequence of those requests, every stored order's status
    stays one of ['placed'], ['shipped'], ['delivered'], ['cancelled']. *)
Theorem statuses_stay_recognised rs db :
  Forall statusRecognised (Orders db) ->
  Forall statusRecognised (Orders (serveAll rs db)).
Proof.
  apply serveAll_Forall.
  - intros env db' customer _id products total lines notes _ _ _.
    unfold statusRecognised.
    destruct (preSave_draft_fields (savedAt env) db' env customer _id lines
                total notes) as (_ & _ & -> & _).
    simpl. auto.
  - intros s o Hs _. unfold statusRecognised.
    apply includes_In in Hs. exact Hs.
Qed.

(** X3. Over any sequence of those requests, every stored order keeps at
    least one line item. *)
Theorem orders_keep_lines rs db :
  Forall hasLines (Orders db) ->
  Forall hasLines (Orders (serveAll rs db)).
Proof.
  apply serveAll_Forall.
  - intros env db' customer _id products total lines notes Hne Hres _.
    unfold hasLines.
    destruct (preSave_draft_fields (savedAt env) db' env customer _id lines
                total notes) as (-> & _).
    apply resolveItems_inr in Hres as (new & -> & _ & HF). simpl.
    destruct HF; [congruence|discriminate].
  - intros s o _ H. exact H.
Qed.

Lemma keyTaken_false_iff key db :
  keyTaken (Some key) db = false
  <-> ~ In (Some key) (map Order.orderNumber (Orders db)).
Proof.
  unfold keyTaken. split.
  - intros Hk Hin. apply in_map_iff in Hin as (o & Ho & Hin).
    assert (Ht : existsb
                   (fun o => sameKey (Order.orderNumber o) (Some key))
                   (Orders db) = true).
    { apply existsb_exists. exists o. split; [assumption|].
      rewrite Ho. simpl. apply String.eqb_refl. }
    congruence.
  - intros Hnot.
    destruct (existsb _ (Orders db)) eqn:Hex; [|reflexivity].
    exfalso. apply Hnot. apply existsb_exists in Hex as (o & Hin & Hsame).
    apply in_map_iff. exists o. split; [|assumption].
    destruct (Order.orderNumber o) as [k|]; [|discriminate].
    simpl in Hsame. apply String.eqb_eq in Hsame. now subst.
Qed.

Lemma NoDup_snoc {A} (l : list A) x :
  NoDup l -> ~ In x l -> NoDup (l ++ [x]).
Proof.
  induction 1 as [|y l Hy Hl IH]; intros Hx; simpl.
  - constructor; [intros []|constructor].
  - constructor.
    + intros Hin. apply in_app_or in Hin as [Hin | [-> | []]];
        [contradiction|]. apply Hx. now left.
    + apply IH. intros Hin. apply Hx. now right.
Qed.

(** X4. Over any sequence of those requests the stored order numbers stay
    pairwise distinct: the unique index is never violated by what the routes
    store. *)
Theorem order_numbers_stay_distinct rs db :
  NoDup (map Order.orderNumber (Orders db)) ->
  NoDup (map Order.orderNumber (Orders (serveAll rs db))).
Proof.
  unfold serveAll. revert db.
  induction rs as [|r rs IH]; intros db Hnodup; simpl; [assumption|].
  apply IH. destruct r as [env body|id status|id body|id]; simpl.
  - destruct (createOrder_cases env body db)
      as [[-> _] | (customer & products & total & lines & _id & _ & _ & _
                    & _ & _ & Hfree & ->)]; [assumption|].
    simpl. rewrite map_app. simpl.
    apply NoDup_snoc; [assumption|].
    destruct (preSave_draft_fields (savedAt env) db env customer _id lines
                total (Body.notes body)) as (_ & _ & _ & Hnum & _).
    rewrite Hnum in *. now apply keyTaken_false_iff.
  - destruct (updateOrderStatus_orders id status db)
      as [-> | (s & order & pre & post & _ & Hdb & ->)]; [assumption|].
    rewrite Hdb in Hnodup. rewrite map_app in *. exact Hnodup.
  - now rewrite updateProduct_orders.
  - now rewrite deleteProduct_orders.
Qed.

(** ** Sequential creations never collide *)

Lemma digits_digitsOnly fuel :
  forall n acc, digitsOnly acc = true -> digitsOnly (digits fuel n acc) = true.
Proof.
  induction fuel as [|fuel IH]; intros n acc Hacc; cbn [digits];
    [assumption|].
  assert (Hd : (n mod 10 < 10)%N) by (apply N.mod_lt; discriminate).
  assert (Hacc' : digitsOnly (String (digitChar (n mod 10)) acc) = true).
  { cbn [digitsOnly]. unfold digitChar. clear IH.
    generalize dependent (n mod 10)%N. intros d Hd.
    rewrite N_ascii_embedding by lia.
    rewrite Hacc, andb_true_r. apply andb_true_intro.
    split; apply N.leb_le; lia. }
  destruct (n / 10 =? 0)%N; [exact Hacc'|]. now apply IH.
Qed.

Lemma toString_digitsOnly n : digitsOnly (toString n) = true.
Proof. unfold toString. now apply digits_digitsOnly. Qed.

(** Two numerals followed by a hyphen and more text: the hyphen ends the
    numeral, so equal texts have equal parts. *)
Lemma numeral_hyphen_inj a :
  forall a' b b',
    digitsOnly a = true -> digitsOnly a' = true ->
    a ++ String "-" b = a' ++ String "-" b' ->
    a = a' /\ b = b'.
Proof.
  induction a as [|c a IH]; intros [|c' a'] b b' Ha Ha' Heq; simpl in *.
  - inversion Heq. auto.
  - inversion Heq; subst c'. discriminate Ha'.
  - inversion Heq; subst c. discriminate Ha.
  - inversion Heq; subst c'.
    apply andb_prop in Ha as [_ Ha]. apply andb_prop in Ha' as [_ Ha'].
    destruct (IH a' b b' Ha Ha' H1) as [-> ->]. auto.
Qed.

Lemma parseDecimal_padStart n :
  parseDecimal (padStart 4 "0" (toString n)) = n.
Proof.
  now rewrite padStart_zeros, parseDecimal_zeros, parseDecimal_toString.
Qed.

(** The order number determines the millisecond and the count it was made
    from. *)
Lemma orderNumberOf_inj now count now' count' :
  orderNumberOf now count = orderNumberOf now' count' ->
  now = now' /\ count = count'.
Proof.
  unfold orderNumberOf. intros Heq. simpl in Heq.
  inversion Heq as [Hrest]. clear Heq.
  apply numeral_hyphen_inj in Hrest as [Hnow Hseq];
    try apply toString_digitsOnly.
  split.
  - rewrite <- (parseDecimal_toString now), Hnow.
    apply parseDecimal_toString.
  - apply (f_equal parseDecimal) in Hseq.
    rewrite !parseDecimal_padStart in Hseq. lia.
Qed.

Lemma numberedInOrder_free db now :
  numberedInOrder db ->
  keyTaken (Some (orderNumberOf now (length (Orders db)))) db = false.
Proof.
  intros Hnum. apply keyTaken_false_iff. intros Hin.
  apply in_map_iff in Hin as (o & Ho & Hin).
  apply In_nth_error in Hin as [i Hi].
  assert (Hlt : i < length (Orders db)).
  { apply nth_error_Some. congruence. }
  destruct (Hnum i o Hi) as [now' Hno]. rewrite Hno in Ho.
  assert (Heq : orderNumberOf now' i
                = orderNumberOf now (length (Orders db))) by congruence.
  apply orderNumberOf_inj in Heq as [_ Heq]. lia.
Qed.

Lemma numberedInOrder_serve r db :
  numberedInOrder db -> numberedInOrder (serve r db).
Proof.
  intros Hnum. destruct r as [env body|id status|id body|id]; simpl.
  - destruct (createOrder_cases env body db)
      as [[-> _] | (customer & products & total & lines & _id & _ & _ & _
                    & _ & _ & _ & ->)]; [assumption|].
    simpl. intros i o Hi. simpl in Hi.
    destruct (Nat.lt_ge_cases i (length (Orders db))) as [Hlt | Hge].
    + rewrite nth_error_app1 in Hi by assumption. now apply Hnum.
    + rewrite nth_error_app2 in Hi by assumption.
      destruct (i - length (Orders db)) as [|k] eqn:Hk.
      * simpl in Hi. inversion Hi; subst o.
        exists (savedAt env). replace i with (length (Orders db)) by lia.
        reflexivity.
      * simpl in Hi. destruct k; discriminate.
  - destruct (updateOrderStatus_orders id status db)
      as [Hsame | (s & order & pre & post & _ & Hdb & Hdb')].
    + unfold numberedInOrder. now rewrite Hsame.
    + intros i o Hi. rewrite Hdb' in Hi.
      assert (Hmap : nth_error (map Order.orderNumber (Orders db)) i
                     = Some (Order.orderNumber o)).
      { rewrite Hdb, map_app. simpl map.
        change (Order.orderNumber order)
          with (Order.orderNumber (Order.setStatus s order)).
        change (Order.orderNumber (Order.setStatus s order)
                  :: map Order.orderNumber post)
          with (map Order.orderNumber (Order.setStatus s order :: post)).
        rewrite <- map_app. rewrite nth_error_map, Hi. reflexivity. }
      rewrite nth_error_map in Hmap.
      destruct (nth_error (Orders db) i) as [o'|] eqn:Ho'; [|discriminate].
      destruct (Hnum i o' Ho') as [now Hnow]. exists now. simpl in Hmap.
      congruence.
  - unfold numberedInOrder. now rewrite updateProduct_orders.
  - unfold numberedInOrder. now rewrite deleteProduct_orders.
Qed.

Lemma numberedInOrder_serveAll rs :
  forall db, numberedInOrder db -> numberedInOrder (serveAll rs db).
Proof.
  unfold serveAll. induction rs as [|r rs IH]; intros db H; simpl;
    [assumption|].
  apply IH. now apply numberedInOrder_serve.
Qed.

(** The loop never answers with a duplicate-key error. *)
Lemma resolveItems_not_duplicate db products :
  forall totalAmount orderProducts response index key,
    resolveItems db products totalAmount orderProducts = inl response ->
    json response <> ErrorOf (DuplicateKey index key).
Proof.
  induction products as [|item rest IH]; intros t0 l0 r index key Hres;
    [discriminate|].
  destruct (item_cases db item)
    as [Ha | [[Hp (pid & e & Hpid & He)] | [[Hp (pid & Hpid & Hnone)]
       | [Hp [line Hs]]]]].
  - rewrite resolveItems_absent in Hres by assumption.
    inversion Hres; subst. discriminate.
  - rewrite (resolveItems_thrown _ _ _ _ _ pid e) in Hres by assumption.
    apply findById_thrown in He as [_ ->].
    inversion Hres; subst. discriminate.
  - rewrite (resolveItems_not_found _ _ _ _ _ pid) in Hres by assumption.
    inversion Hres; subst. discriminate.
  - rewrite (resolveItems_step _ _ _ _ _ line) in Hres by assumption.
    eauto.
Qed.

(** X5. Served one after the other from a store without orders, the routes
    never bring [POST /api/orders] to a violation of the unique index on the
    order number: the number the hook generates is never held by a stored
    order, because the k-th stored order carries the sequence number k and
    no route removes an order.  So [order.save()] never throws a
    duplicate-key error; a creation that is not answered with a 201 leaves
    the database as it was, and a 201 stores exactly one more order. *)
Theorem sequential_creation_never_collides products rs env body :
  let db := serveAll rs (mkDb products []) in
  keyTaken (Some (orderNumberOf (savedAt env) (length (Orders db)))) db
  = false
  /\ (forall index key,
        json (fst (createOrder env body db))
        <> ErrorOf (DuplicateKey index key))
  /\ (code (fst (createOrder env body db)) <> 201 ->
      snd (createOrder env body db) = db)
  /\ (code (fst (createOrder env body db)) = 201 ->
      length (Orders (snd (createOrder env body db)))
      = S (length (Orders db))).
Proof.
  intros db.
  assert (Hnum : numberedInOrder db).
  { apply numberedInOrder_serveAll. intros i o Hi. simpl in Hi.
    destruct i; discriminate. }
  pose proof (numberedInOrder_free db (savedAt env) Hnum) as Hfree.
  split; [exact Hfree|].
  destruct (createOrder_first_test body) as [Hrej | [Hc Hp]].
  - rewrite createOrder_rejected by assumption. simpl.
    split; [discriminate|]. split; [reflexivity|discriminate].
  - destruct (createOrder_checked env body db Hc Hp)
      as (customer & products' & Hcust & Hprod & ->).
    destruct (resolveItems db products' 0 []) as [r | [total lines]] eqn:Hres.
    + simpl. split; [|split; [reflexivity|]].
      * intros index key. eapply resolveItems_not_duplicate. exact Hres.
      * intros Hcode. apply resolveItems_inl in Hres as [H | [H _]];
          congruence.
    + destruct (save_cases (savedAt env)
                  (draft env customer lines total (Body.notes body)) db)
        as [(paths & _ & Hs) | (valid & Hv & [[Hk Hs] | [Hk Hs]])];
        rewrite Hs; simpl.
      * split; [discriminate|]. split; [reflexivity|discriminate].
      * apply validate_inr in Hv as (_id & _ & -> & _).
        destruct (preSave_draft_fields (savedAt env) db env customer _id
                    lines total (Body.notes body)) as (_ & _ & _ & Hno & _).
        rewrite Hno in Hk. congruence.
      * split; [discriminate|]. split; [intros H; now elim H|].
        intros _. rewrite length_app. simpl. lia.
Qed.

(** X18. The number the save hook generates determines what it was made
    from: two orders saved without a number get the same order number only
    if the hook read the same millisecond and counted the same number of
    stored orders. *)
Theorem generated_number_determines_time_and_count
    now db this now' db' this' :
  truthyString (Order.orderNumber this) = false ->
  truthyString (Order.orderNumber this') = false ->
  Order.orderNumber (preSave now db this)
  = Order.orderNumber (preSave now' db' this') ->
  now = now' /\ length (Orders db) = length (Orders db').
Proof.
  unfold preSave. intros -> ->. simpl. intros Heq.
  apply orderNumberOf_inj. congruence.
Qed.

(** ** [GET /api/orders] *)

Lemma firstn_add {A} a :
  forall b (l : list A),
    firstn (a + b) l = (firstn a l ++ firstn b (skipn a l))%list.
Proof.
  induction a as [|a IH]; intros b l; [reflexivity|].
  destruct l as [|x l]; simpl.
  - now rewrite firstn_nil.
  - now rewrite IH.
Qed.

Lemma in_firstn {A} n (l : list A) x : In x (firstn n l) -> In x l.
Proof.
  intros Hin. rewrite <- (firstn_skipn n l). apply in_or_app. now left.
Qed.

Lemma in_skipn {A} n (l : list A) x : In x (skipn n l) -> In x l.
Proof.
  intros Hin. rewrite <- (firstn_skipn n l). apply in_or_app. now right.
Qed.

(** The first [n] windows of width [w], put end to end. *)
Lemma windows_concat {A} (w : nat) (l : list A) n :
  concat (map (fun k => firstn w (skipn (k * w) l)) (seq 0 n))
  = firstn (n * w) l.
Proof.
  induction n as [|n IH]; [reflexivity|].
  rewrite seq_S, map_app, concat_app, IH. simpl.
  rewrite app_nil_r. symmetry. rewrite Nat.add_comm. apply firstn_add.
Qed.

Lemma filter_concat {A} (f : A -> bool) (ls : list (list A)) :
  filter f (concat ls) = concat (map (filter f) ls).
Proof.
  induction ls as [|l ls IH]; simpl; [reflexivity|].
  now rewrite filter_app, IH.
Qed.

Lemma pageOf_withPage q k : pageOf (withPage q (Pos.of_succ_nat k)) = S k.
Proof. unfold pageOf. simpl. apply SuccNat2Pos.id_succ. Qed.

(** The query throws exactly when a customer filter is given that does not
    cast. *)
Lemma queryError_cases q :
  (queryError q = None
   /\ forall customer,
        Query.customer q = Some customer ->
        truthyString (Some customer) = true ->
        exists _id, castObjectId customer = Some _id)
  \/ exists customer,
       Query.customer q = Some customer
       /\ truthyString (Some customer) = true
       /\ castObjectId customer = None
       /\ queryError q = Some (CastError "ObjectId" customer "customer").
Proof.
  unfold queryError. destruct (Query.customer q) as [customer|].
  - destruct (truthyString (Some customer)) eqn:Ht.
    + destruct (castObjectId customer) as [_id|] eqn:Hcast.
      * left. split; [reflexivity|]. intros c Hc _. inversion Hc; subst c.
        now exists _id.
      * right. now exists customer.
    + left. split; [reflexivity|]. intros c Hc Htc. congruence.
  - left. split; [reflexivity|]. discriminate.
Qed.

(** When the query does not throw, a page is a window of the sorted
    matches, filtered by category. *)
Lemma getOrders_window q db :
  queryError q = None ->
  exists keep : list Order.t -> list Order.t,
    wanted q db = keep (findSorted q db)
    /\ (forall p,
          getOrders (withPage q p) db
          = inr (keep (firstn (limitOf q)
                         (skipn ((Pos.to_nat p - 1) * limitOf q)
                            (findSorted q db)))))
    /\ (forall ls, keep (concat ls) = concat (map keep ls))
    /\ (forall l o, In o (keep l) -> In o l)
    /\ (forall l, length (keep l) <= length l).
Proof.
  intros Hok.
  assert (Hid : exists keep : list Order.t -> list Order.t,
            (forall l, keep l = l)
            /\ (forall ls, keep (concat ls) = concat (map keep ls))
            /\ (forall l o, In o (keep l) -> In o l)
            /\ (forall l, length (keep l) <= length l)).
  { exists (fun l => l). split; [reflexivity|]. split; [|split]; auto.
    intros ls. now rewrite map_id. }
  assert (Hpage : forall p, queryError (withPage q p) = None)
    by (intros p; exact Hok).
  unfold wanted, getOrders, limitOf, pageOf.
  destruct (Query.category q) as [category|] eqn:Hcat.
  - destruct category as [|c rest].
    + destruct Hid as (keep & Hkeep & H1 & H2 & H3). exists keep.
      rewrite Hkeep. split; [reflexivity|]. split; [|auto].
      intros p. rewrite Hpage. simpl. rewrite Hcat. simpl.
      now rewrite Hkeep, Nat.mul_1_r.
    + exists (filter (hasCategory db (String c rest))).
      split; [reflexivity|]. split; [|split; [|split]].
      * intros p. rewrite Hpage. simpl. rewrite Hcat. simpl.
        now rewrite Nat.mul_1_r.
      * apply filter_concat.
      * intros l o Hin. now apply filter_In in Hin.
      * apply filter_length_le.
  - destruct Hid as (keep & Hkeep & H1 & H2 & H3). exists keep.
    rewrite Hkeep. split; [reflexivity|]. split; [|auto].
    intros p. rewrite Hpage. simpl. rewrite Hcat.
    now rewrite Hkeep, Nat.mul_1_r.
Qed.

(** X6. [GET /api/orders] throws (and the handler answers with a 500) only
    when a customer filter is given that does not cast to an ObjectId.
    Otherwise, whatever the page, it returns at most [limit] orders; each is
    a stored order that matches the status and the customer filter when
    they are given and, when a category is given, has a line item whose
    product is still in the catalogue under that category. *)
Theorem getOrders_sound q db :
  match getOrders q db with
  | inl error =>
      exists customer,
        Query.customer q = Some customer
        /\ castObjectId customer = None
        /\ error = CastError "ObjectId" customer "customer"
  | inr orders =>
      length orders <= limitOf q
      /\ forall o,
           In o orders ->
           In o (Orders db)
           /\ (truthyString (Query.status q) = true ->
               Query.status q = Some (Order.status o))
           /\ (forall customer,
                 Query.customer q = Some customer ->
                 truthyString (Some customer) = true ->
                 castObjectId customer = Some (Order.customer o))
           /\ (forall category,
                 Query.category q = Some category ->
                 truthyString (Some category) = true ->
                 exists line product,
                   In line (Order.products o)
                   /\ findOne Product._id (LineItem.product line)
                        (Products db)
                      = Some product
                   /\ Product.category product = category)
  end.
Proof.
  destruct (queryError_cases q)
    as [[Hok Hcasts] | (customer & Hcust & Ht & Hcast & Herr)].
  2:{ unfold getOrders. rewrite Herr. now exists customer. }
  set (page := firstn (limitOf q * 1)
                 (skipn ((pageOf q - 1) * limitOf q) (findSorted q db))).
  assert (Hlen : length page <= limitOf q).
  { unfold page. rewrite Nat.mul_1_r. apply firstn_le_length. }
  assert (Hpage : forall o, In o page ->
            In o (Orders db) /\ matchesQuery q o = true).
  { intros o Hin. unfold page in Hin. apply in_firstn in Hin.
    apply in_skipn in Hin. unfold findSorted in Hin.
    apply in_rev in Hin. now apply filter_In in Hin. }
  assert (Hrun : exists orders,
            getOrders q db = inr orders
            /\ length orders <= length page
            /\ (forall o, In o orders -> In o page)
            /\ (forall category,
                  Query.category q = Some category ->
                  truthyString (Some category) = true ->
                  orders = filter (hasCategory db category) page)).
  { unfold getOrders. rewrite Hok. fold page.
    destruct (Query.category q) as [c|].
    - destruct (truthyString (Some c)) eqn:Htc.
      + eexists. split; [reflexivity|]. split; [apply filter_length_le|].
        split.
        * intros o Hin. now apply filter_In in Hin.
        * intros category Heq _. now inversion Heq.
      + eexists. split; [reflexivity|]. split; [reflexivity|].
        split; [auto|]. intros category Heq Htc'. inversion Heq; subst.
        congruence.
    - eexists. split; [reflexivity|]. split; [reflexivity|].
      split; [auto|]. discriminate. }
  destruct Hrun as (orders & -> & Hle & Hsub & Hfiltered).
  split; [lia|].
  intros o Hin. destruct (Hpage o (Hsub o Hin)) as [Hstored Hmatch].
  unfold matchesQuery in Hmatch. apply andb_prop in Hmatch as [Hs Hc].
  split; [exact Hstored|]. split; [|split].
  - intros Ht. rewrite Ht in Hs.
    destruct (Query.status q) as [s|]; [|discriminate].
    simpl in Hs. apply String.eqb_eq in Hs. now subst.
  - intros customer Hcust Ht. unfold customerOf in Hc.
    rewrite Hcust, Ht in Hc.
    destruct (castObjectId customer) as [_id|]; [|discriminate].
    simpl in Hc. apply String.eqb_eq in Hc. now subst.
  - intros category Hcat Ht. rewrite (Hfiltered category Hcat Ht) in Hin.
    apply filter_In in Hin as [_ Hhas].
    unfold hasCategory in Hhas.
    apply existsb_exists in Hhas as (line & Hline & Hfound).
    destruct (findOne Product._id (LineItem.product line) (Products db))
      as [product|] eqn:Hf; [|discriminate].
    exists line, product. repeat split; try assumption.
    now apply String.eqb_eq.
Qed.

(** X7. Paging through [GET /api/orders] loses nothing and repeats nothing:
    when the customer filter, if there is one, casts to an ObjectId, pages
    1 to [n] are all answered and, put end to end, are exactly the orders
    the query asks for, newest first, as soon as [n] pages of [limit]
    orders cover the orders that match the status and customer filters.  (A
    single page may hold fewer than [limit] orders, since the category
    filter is applied to the page.) *)
Theorem getOrders_pages_cover q db n :
  queryError q = None ->
  length (findSorted q db) <= n * limitOf q ->
  exists pages,
    map (fun k => getOrders (withPage q (Pos.of_succ_nat k)) db) (seq 0 n)
    = map inr pages
    /\ concat pages = wanted q db.
Proof.
  intros Hok Hcover.
  destruct (getOrders_window q db Hok)
    as (keep & Hwanted & Hpage & Hconcat & _ & _).
  exists (map (fun k => keep (firstn (limitOf q)
                                (skipn (k * limitOf q) (findSorted q db))))
            (seq 0 n)).
  split.
  - rewrite map_map. apply map_ext. intros k.
    rewrite Hpage, SuccNat2Pos.id_succ. simpl. now rewrite Nat.sub_0_r.
  - rewrite Hwanted.
    transitivity (keep (firstn (n * limitOf q) (findSorted q db)));
      [|now rewrite (firstn_all2 (findSorted q db) Hcover)].
    now rewrite <- windows_concat, Hconcat, map_map.
Qed.

(** ** The status buttons *)

(** X8. For every stored order and every status button that its row offers,
    the click is accepted: the server replies 200 and stores the new
    status.  The buttons follow the life cycle: a delivered or cancelled
    order has no status button, a placed order can only become shipped or
    cancelled, and a shipped order delivered or cancelled. *)
Theorem status_buttons_follow_life_cycle db order target :
  findById Order._id (Order._id order) (Orders db) = inr (Some order) ->
  In target (offeredStatuses (Order.status order)) ->
  (exists db',
     clickStatus order target db
     = (reply 200 (OrderDoc (Order.setStatus target order)), db')
     /\ findById Order._id (Order._id order) (Orders db')
        = inr (Some (Order.setStatus target order)))
  /\ Order.status order <> "delivered"
  /\ Order.status order <> "cancelled"
  /\ (Order.status order = "placed" ->
      target = "shipped" \/ target = "cancelled")
  /\ (Order.status order = "shipped" ->
      target = "delivered" \/ target = "cancelled").
Proof.
  intros Hfind Hin.
  assert (Hvalid : includes validStatuses target = true).
  { unfold offeredStatuses in Hin.
    destruct (String.eqb (Order.status order) "placed"),
      (String.eqb (Order.status order) "shipped"),
      (negb (String.eqb (Order.status order) "cancelled")
       && negb (String.eqb (Order.status order) "delivered"));
      simpl in Hin; intuition (subst; reflexivity). }
  split.
  - unfold clickStatus. rewrite (updateOrderStatus_valid _ _ _ Hvalid).
    destruct (findByIdAndUpdate_some Order._id (Order._id order)
                (Order.setStatus target) _ _ Hfind)
      as (pre & post & Horders & Hpre & Hcast & ->).
    eexists. split; [reflexivity|]. simpl.
    now apply (findById_replaced Order._id _ pre order).
  - unfold offeredStatuses in Hin.
    repeat split.
    + intros Hs. rewrite Hs in Hin. simpl in Hin. exact Hin.
    + intros Hs. rewrite Hs in Hin. simpl in Hin. exact Hin.
    + intros Hs. rewrite Hs in Hin. simpl in Hin. intuition.
    + intros Hs. rewrite Hs in Hin. simpl in Hin. intuition.
Qed.

(** ** The cart *)

Lemma find_none_not_in id (cart : list CartItem.t) :
  find (fun p => String.eqb (CartItem.productId p) id) cart = None ->
  ~ In id (map CartItem.productId cart).
Proof.
  intros Hnone Hin. apply in_map_iff in Hin as (p & Hp & Hin).
  apply (find_none _ _ Hnone) in Hin. simpl in Hin.
  rewrite Hp, String.eqb_refl in Hin. discriminate.
Qed.

Lemma NoDup_map_filter {A B} (g : A -> B) (f : A -> bool) (l : list A) :
  NoDup (map g l) -> NoDup (map g (filter f l)).
Proof.
  induction l as [|x l IH]; simpl; intros Hnd; [constructor|].
  inversion Hnd as [|? ? Hx Hl]; subst.
  destruct (f x); simpl; [|now apply IH].
  constructor; [|now apply IH].
  intros Hin. apply Hx. apply in_map_iff in Hin as (y & Hy & Hin).
  apply filter_In in Hin as [Hin _]. apply in_map_iff. now exists y.
Qed.

Lemma map_setQuantity (f : CartItem.t -> bool) (q : CartItem.t -> float)
    (cart : list CartItem.t) :
  map CartItem.productId
    (map (fun p => if f p then CartItem.setQuantity (q p) p else p) cart)
  = map CartItem.productId cart.
Proof.
  rewrite map_map. apply map_ext. intros p. now destruct (f p).
Qed.

Lemma Forall_setQuantity (f : CartItem.t -> bool) (q : CartItem.t -> float)
    (cart : list CartItem.t) :
  Forall (fun p => CartItem.productId p = Product._id (CartItem.product p))
    cart ->
  Forall (fun p => CartItem.productId p = Product._id (CartItem.product p))
    (map (fun p => if f p then CartItem.setQuantity (q p) p else p) cart).
Proof.
  intros H. apply Forall_map. eapply Forall_impl; [|exact H].
  intros p Hp. now destruct (f p).
Qed.

Lemma Forall_filter {A} (P : A -> Prop) (f : A -> bool) (l : list A) :
  Forall P l -> Forall P (filter f l).
Proof.
  intros H. apply Forall_forall. intros x Hin.
  apply filter_In in Hin as [Hin _]. revert x Hin. now apply Forall_forall.
Qed.

Lemma act_wellFormed a cart :
  cartWellFormed cart -> cartWellFormed (act a cart).
Proof.
  intros [Hnd Hown]. destruct a as [product|item|item|item]; simpl.
  - unfold addProduct.
    destruct (find _ cart) eqn:Hfind.
    + split; [now rewrite map_setQuantity|now apply Forall_setQuantity].
    + split.
      * rewrite map_app. simpl. apply NoDup_snoc; [assumption|].
        now apply find_none_not_in.
      * apply Forall_app. split; [assumption|]. now constructor.
  - unfold updateQuantity. destruct (PrimFloat.eqb _ 0).
    + split; [now apply NoDup_map_filter|now apply Forall_filter].
    + split.
      * now rewrite (map_setQuantity _ (fun _ => _)).
      * now apply (Forall_setQuantity _ (fun _ => _)).
  - unfold updateQuantity. destruct (PrimFloat.eqb _ 0).
    + split; [now apply NoDup_map_filter|now apply Forall_filter].
    + split.
      * now rewrite (map_setQuantity _ (fun _ => _)).
      * now apply (Forall_setQuantity _ (fun _ => _)).
  - unfold removeProduct.
    split; [now apply NoDup_map_filter|now apply Forall_filter].
Qed.

(** X9. However products are picked, adjusted with the plus and minus
    buttons and removed, the cart never holds the same product twice, and
    every entry is filed under the identifier of its own product; picking a
    product always leaves it in the cart. *)
Theorem cart_stays_well_formed actions cart :
  cartWellFormed cart ->
  cartWellFormed (actAll actions cart)
  /\ forall product,
       In (Product._id product)
         (map CartItem.productId (addProduct product (actAll actions cart))).
Proof.
  intros Hwf.
  assert (Hall : cartWellFormed (actAll actions cart)).
  { unfold actAll. revert cart Hwf.
    induction actions as [|a actions IH]; intros cart Hwf; simpl;
      [assumption|].
    apply IH. now apply act_wellFormed. }
  split; [exact Hall|].
  intros product. unfold addProduct.
  destruct (find _ (actAll actions cart)) as [p|] eqn:Hfind.
  - rewrite map_setQuantity. apply find_some in Hfind as [Hin Heq].
    simpl in Heq. apply String.eqb_eq in Heq. rewrite <- Heq.
    now apply in_map.
  - rewrite map_app. apply in_or_app. right. now left.
Qed.

(** X10. The new-order page posts a request exactly when a customer is
    selected and the cart is not empty, and a request it posts is never
    refused by the server's first test: the reply to it is never
    ['Customer and products are required']. *)
Theorem posted_order_passes_first_test selectedCustomer cart notes :
  (handleCreateOrder selectedCustomer cart notes = None
   <-> selectedCustomer = "" \/ cart = [])
  /\ forall body,
       handleCreateOrder selectedCustomer cart notes = Some body ->
       Body.customer body = Some selectedCustomer
       /\ Body.products body = Some (map toItem cart)
       /\ forall env db,
            json (fst (createOrder env body db))
            <> Error "Customer and products are required".
Proof.
  unfold handleCreateOrder. split.
  - destruct selectedCustomer as [|c rest], cart as [|p cart]; simpl;
      split; auto; try discriminate.
    intros [H | H]; discriminate.
  - intros body Hsend.
    destruct selectedCustomer as [|c rest]; [discriminate|].
    destruct cart as [|p cart]; [discriminate|].
    simpl in Hsend. inversion Hsend; subst body. clear Hsend.
    split; [reflexivity|]. split; [reflexivity|]. intros env db.
    set (body := Body.mk _ _ _).
    destruct (createOrder_checked env body db eq_refl eq_refl)
      as (customer & products & _ & _ & ->).
    destruct (resolveItems db products 0 []) as [r | [total lines]] eqn:Hres.
    + simpl. clear - Hres. revert Hres. generalize 0%float.
      generalize (@nil LineItem.t).
      induction products as [|item rest' IH]; intros l0 t0 Hres;
        [discriminate|].
      destruct (item_cases db item)
        as [Ha | [[Hp (pid & e & Hpid & He)] | [[Hp (pid & Hpid & Hnone)]
           | [Hp [line Hs]]]]].
      * rewrite resolveItems_absent in Hres by assumption.
        inversion Hres. discriminate.
      * rewrite (resolveItems_thrown _ _ _ _ _ pid e) in Hres by assumption.
        inversion Hres. discriminate.
      * rewrite (resolveItems_not_found _ _ _ _ _ pid) in Hres by assumption.
        inversion Hres. simpl. intros Heq. inversion Heq.
      * rewrite (resolveItems_step _ _ _ _ _ line) in Hres by assumption.
        eauto.
    + destruct (save _ _ db) as [e | [saved db']]; simpl; discriminate.
Qed.

Lemma posted_body selectedCustomer cart notes body :
  handleCreateOrder selectedCustomer cart notes = Some body ->
  Body.customer body = Some selectedCustomer
  /\ Body.products body = Some (map toItem cart).
Proof.
  unfold handleCreateOrder. destruct (negb _ || _); [discriminate|].
  intros H. inversion H. split; reflexivity.
Qed.

Lemma jsonNumber_truthy x :
  truthyNumber (jsonNumber x) = true -> jsonNumber x = Some x.
Proof.
  unfold jsonNumber. destruct (PrimFloat.is_finite x); [|discriminate].
  destruct (PrimFloat.is_zero x); [discriminate|reflexivity].
Qed.

Lemma toItem_snapshot db item line :
  present (toItem item) = true ->
  snapshot db (toItem item) = Some line ->
  exists product,
    findById Product._id (CartItem.productId item) (Products db)
    = inr (Some product)
    /\ line
       = LineItem.mk (Product._id product) (CartItem.quantity item)
           (Product.price product).
Proof.
  unfold present, snapshot. simpl. intros Hp Hs.
  apply andb_prop in Hp as [_ Hq]. rewrite (jsonNumber_truthy _ Hq) in Hs.
  destruct (findById Product._id (CartItem.productId item) (Products db))
    as [e|[product|]]; try discriminate.
  exists product. split; [reflexivity|]. now inversion Hs.
Qed.

(** Over a cart whose entries all get through the loop, the loop adds up
    what the cart page adds up, as long as the catalogue still has the
    prices the cart shows. *)
Lemma resolveItems_cart db cart :
  Forall
    (fun item =>
       forall product,
         findById Product._id (CartItem.productId item) (Products db)
         = inr (Some product) ->
         Product.price product = Product.price (CartItem.product item))
    cart ->
  forall totalAmount orderProducts total lines,
    resolveItems db (map toItem cart) totalAmount orderProducts
    = inr (total, lines) ->
    total
    = fold_left
        (fun total item =>
           (total
            + Product.price (CartItem.product item)
              * CartItem.quantity item)%float)
        cart totalAmount.
Proof.
  induction 1 as [|item cart Hprice _ IH]; intros t0 l0 total lines Hres.
  - simpl in Hres. now inversion Hres.
  - simpl map in Hres.
    destruct (item_cases db (toItem item))
      as [Ha | [[Hp (pid & e & Hpid & He)] | [[Hp (pid & Hpid & Hnone)]
         | [Hp [line Hs]]]]].
    + rewrite resolveItems_absent in Hres by assumption. discriminate.
    + rewrite (resolveItems_thrown _ _ _ _ _ pid e) in Hres by assumption.
      discriminate.
    + rewrite (resolveItems_not_found _ _ _ _ _ pid) in Hres by assumption.
      discriminate.
    + rewrite (resolveItems_step _ _ _ _ _ line) in Hres by assumption.
      apply IH in Hres. rewrite Hres. simpl. f_equal.
      destruct (toItem_snapshot db item line Hp Hs) as (product & Hf & ->).
      unfold addLine, itemTotal. simpl. now rewrite (Hprice product Hf).
Qed.

(** X11. The total the new-order page shows is the total the server
    stores: when the page posts its cart and the order is created, the
    stored [totalAmount] is exactly [calculateTotal] of the cart, provided
    the catalogue still has, for each product of the cart, the price the
    cart shows.  The stored order is the selected customer's and has the
    quantities of the cart. *)
Theorem shown_total_is_stored_total
    selectedCustomer cart notes body env db response db' :
  handleCreateOrder selectedCustomer cart notes = Some body ->
  Forall
    (fun item =>
       forall product,
         findById Product._id (CartItem.productId item) (Products db)
         = inr (Some product) ->
         Product.price product = Product.price (CartItem.product item))
    cart ->
  createOrder env body db = (response, db') ->
  code response = 201 ->
  exists saved,
    response = reply 201 (OrderDoc saved)
    /\ Orders db' = (Orders db ++ [saved])%list
    /\ Order.totalAmount saved = calculateTotal cart
    /\ castObjectId selectedCustomer = Some (Order.customer saved)
    /\ map LineItem.quantity (Order.products saved)
       = map CartItem.quantity cart.
Proof.
  intros Hsend Hprices Hrun Hcode.
  destruct (posted_body selectedCustomer cart notes body Hsend)
    as [Hcust Hprod].
  destruct (createOrder_201 _ _ _ _ _ Hrun Hcode)
    as (customer & products & total & lines & _id & Hc & Hp & Hres & Hcast
        & _ & -> & ->).
  rewrite Hcust in Hc. rewrite Hprod in Hp.
  inversion Hc; subst customer. inversion Hp; subst products.
  eexists. split; [reflexivity|]. split; [reflexivity|].
  destruct (preSave_fields (savedAt env) db
              (Order.setCustomer _id
                 (draft env selectedCustomer lines total (Body.notes body))))
    as (_ & -> & -> & -> & _). simpl.
  split; [exact (resolveItems_cart db cart Hprices _ _ _ _ Hres)|].
  split; [exact Hcast|].
  apply resolveItems_inr in Hres as (new & -> & _ & HF). simpl.
  clear - HF. remember (map toItem cart) as items eqn:Hitems.
  revert cart Hitems.
  induction HF as [|item line items new [Hp Hs] _ IH]; intros cart Hitems.
  - destruct cart; [reflexivity|discriminate].
  - destruct cart as [|entry cart]; [discriminate|].
    simpl in Hitems. inversion Hitems; subst. simpl.
    rewrite (IH cart eq_refl). f_equal.
    now destruct (toItem_snapshot db entry line Hp Hs) as (product & _ & ->).
Qed.

(** ** Deleting by identifier *)

Section ModelDeleteFacts.
Context {Doc : Type} (idOf : Doc -> ObjectId).

Lemma findOneAndDelete_none _id docs :
  findOne idOf _id docs = None ->
  findOneAndDelete idOf _id docs = (None, docs).
Proof.
  unfold findOne. induction docs as [|d rest IH]; simpl; [reflexivity|].
  destruct (String.eqb (idOf d) _id); [discriminate|].
  intros H. now rewrite (IH H).
Qed.

(** The first document under [_id] is taken out; the others stay, in
    order. *)
Lemma findOneAndDelete_some _id docs d :
  findOne idOf _id docs = Some d ->
  exists pre post,
    docs = (pre ++ d :: post)%list
    /\ Forall (fun x => String.eqb (idOf x) _id = false) pre
    /\ idOf d = _id
    /\ findOneAndDelete idOf _id docs = (Some d, (pre ++ post)%list).
Proof.
  unfold findOne. induction docs as [|x rest IH]; simpl; [discriminate|].
  destruct (String.eqb (idOf x) _id) eqn:Hx.
  - intros H. inversion H; subst x. exists [], rest.
    repeat split; [constructor|now apply String.eqb_eq].
  - intros H. destruct (IH H) as (pre & post & -> & Hpre & Hid & ->).
    exists (x :: pre), post. repeat split; [|assumption].
    constructor; assumption.
Qed.

Lemma findOne_not_in _id docs :
  ~ In _id (map idOf docs) -> findOne idOf _id docs = None.
Proof.
  unfold findOne. induction docs as [|d rest IH]; simpl; [reflexivity|].
  intros Hnot. destruct (String.eqb (idOf d) _id) eqn:Hd.
  - apply String.eqb_eq in Hd. exfalso. apply Hnot. now left.
  - apply IH. intros Hin. apply Hnot. now right.
Qed.

(** With distinct identifiers, a deleted document cannot be found any
    more. *)
Lemma findOneAndDelete_gone _id docs :
  NoDup (map idOf docs) ->
  findOne idOf _id (snd (findOneAndDelete idOf _id docs)) = None.
Proof.
  intros Hnd. destruct (findOne idOf _id docs) as [d|] eqn:Hfind.
  - destruct (findOneAndDelete_some _id docs d Hfind)
      as (pre & post & -> & Hpre & Hid & ->). simpl.
    apply findOne_not_in. rewrite map_app in *. simpl in Hnd.
    apply NoDup_remove_2 in Hnd. now rewrite Hid in Hnd.
  - now rewrite (findOneAndDelete_none _id docs Hfind).
Qed.

Lemma findOneAndDelete_other _id _id' docs :
  _id' <> _id ->
  findOne idOf _id' (snd (findOneAndDelete idOf _id docs))
  = findOne idOf _id' docs.
Proof.
  intros Hneq. unfold findOne.
  induction docs as [|d rest IH]; simpl; [reflexivity|].
  destruct (String.eqb (idOf d) _id) eqn:Hd.
  - simpl. apply String.eqb_eq in Hd.
    destruct (String.eqb (idOf d) _id') eqn:Hd'; [|reflexivity].
    apply String.eqb_eq in Hd'. congruence.
  - destruct (findOneAndDelete idOf _id rest) as [found rest'] eqn:Hdel.
    simpl in *. now rewrite IH.
Qed.
End ModelDeleteFacts.

(** X12. With distinct product identifiers, [DELETE /api/products/:id] of a
    product that is stored under the identifier is answered with a 200,
    makes the product unresolvable and touches nothing else: afterwards
    [GET /api/products/:id] replies 404 for it, under whatever spelling of
    its identifier, every other product is answered as before, the stored
    orders are unchanged (they keep their reference and their price
    snapshot), and an order whose first line item names the deleted product
    is refused with ['Product not found: <id>'] and not stored. *)
Theorem deleted_product_is_gone id product db :
  NoDup (map Product._id (Products db)) ->
  findById Product._id id (Products db) = inr (Some product) ->
  fst (deleteProduct id db)
  = respond 200 (Notice "Product deleted successfully")
  /\ Orders (snd (deleteProduct id db)) = Orders db
  /\ (forall id',
        castObjectId id' = castObjectId id ->
        getProduct id' (snd (deleteProduct id db))
        = respond 404 (Failure "Product not found"))
  /\ (forall id',
        castObjectId id' <> castObjectId id ->
        getProduct id' (snd (deleteProduct id db)) = getProduct id' db)
  /\ forall id' env body item rest,
       castObjectId id' = castObjectId id ->
       truthyString (Body.customer body) = true ->
       Body.products body = Some (item :: rest) ->
       present item = true ->
       Item.productId item = Some id' ->
       createOrder env body (snd (deleteProduct id db))
       = (reply 400 (Error ("Product not found: " ++ id')),
          snd (deleteProduct id db)).
Proof.
  intros Hnd Hfind.
  destruct (findById_found _ _ _ _ Hfind) as (_id & Hcast & Hone).
  destruct (findOneAndDelete_some Product._id _id _ _ Hone)
    as (pre & post & Hproducts & Hpre & Hid & Hdel).
  assert (Hrun : deleteProduct id db
                 = (respond 200 (Notice "Product deleted successfully"),
                    mkDb (snd (findOneAndDelete Product._id _id (Products db)))
                      (Orders db))).
  { unfold deleteProduct, findByIdAndDelete. rewrite Hcast, Hdel.
    reflexivity. }
  rewrite Hrun. simpl.
  assert (Hgone : forall id',
            castObjectId id' = castObjectId id ->
            findById Product._id id'
              (snd (findOneAndDelete Product._id _id (Products db)))
            = inr None).
  { intros id' Hsame. unfold findById. rewrite Hsame, Hcast.
    now rewrite findOneAndDelete_gone. }
  split; [reflexivity|]. split; [reflexivity|]. split; [|split].
  - intros id' Hsame. unfold getProduct. simpl. now rewrite Hgone.
  - intros id' Hother. unfold getProduct, findById. simpl.
    destruct (castObjectId id') as [_id'|]; [|reflexivity].
    rewrite findOneAndDelete_other; [reflexivity|].
    intros ->. apply Hother. now rewrite Hcast.
  - intros id' env body item rest Hsame Hc Hprod Hpresent Hitem.
    assert (Hp : emptyArray (Body.products body) = false)
      by now rewrite Hprod.
    match goal with
    | |- createOrder env body ?after = _ =>
        destruct (createOrder_checked env body after Hc Hp)
          as (customer & products & _ & Hprod' & ->)
    end.
    rewrite Hprod in Hprod'. inversion Hprod'; subst products.
    rewrite (resolveItems_not_found _ _ _ _ _ id'); try assumption;
      [reflexivity|].
    simpl. now apply Hgone.
Qed.

(** ** The customer routes *)

Lemma NoDup_insert {A} (l l' : list A) a :
  NoDup (l ++ l') -> ~ In a (l ++ l') -> NoDup (l ++ a :: l').
Proof.
  induction l as [|x l IH]; simpl; intros Hnd Hnot.
  - now constructor.
  - inversion Hnd as [|? ? Hx Hl]; subst. constructor.
    + intros Hin. apply in_app_or in Hin as [Hin | [-> | Hin]].
      * apply Hx. apply in_or_app. now left.
      * apply Hnot. now left.
      * apply Hx. apply in_or_app. now right.
    + apply IH; [assumption|]. intros Hin. apply Hnot. now right.
Qed.

Lemma existsb_eqb_false {A} (f : A -> string) (key : string) (l : list A) :
  existsb (fun x => String.eqb (f x) key) l = false ->
  ~ In key (map f l).
Proof.
  intros Hex Hin. apply in_map_iff in Hin as (x & Hx & Hin).
  assert (Ht : existsb (fun x => String.eqb (f x) key) l = true).
  { apply existsb_exists. exists x. split; [assumption|].
    rewrite Hx. apply String.eqb_refl. }
  congruence.
Qed.

Lemma createCustomer_cases newId body customers :
  (exists customer,
     createCustomer newId body customers
     = (respond 201 (Document customer), (customers ++ [customer])%list)
     /\ Customer._id customer = newId
     /\ required (CustomerBody.email body) = Some (Customer.email customer)
     /\ ~ In newId (map Customer._id customers)
     /\ ~ In (Customer.email customer) (map Customer.email customers))
  \/ (succeeded (fst (createCustomer newId body customers)) = false
      /\ snd (createCustomer newId body customers) = customers).
Proof.
  unfold createCustomer.
  destruct (required (CustomerBody.name body)) as [name|]; [|now right].
  destruct (required (CustomerBody.email body)) as [email|]; [|now right].
  destruct (required (CustomerBody.phone body)) as [phone|]; [|now right].
  destruct (existsb (fun c => String.eqb (Customer._id c) newId) customers)
    eqn:Hid; [now right|].
  destruct (existsb (fun c => String.eqb (Customer.email c) email) customers)
    eqn:Hemail; [now right|].
  left. eexists. simpl. split; [reflexivity|]. simpl.
  repeat split; now apply existsb_eqb_false.
Qed.

Lemma updateCustomer_cases id body customers :
  (exists old pre post,
     customers = (pre ++ old :: post)%list
     /\ castObjectId id = Some (Customer._id old)
     /\ Forall
          (fun x => String.eqb (Customer._id x) (Customer._id old) = false)
          pre
     /\ updateCustomer id body customers
        = (respond 200 (Document (applyCustomerBody body old)),
           (pre ++ applyCustomerBody body old :: post)%list)
     /\ forall c,
          In c customers -> Customer._id c <> Customer._id old ->
          Customer.email c <> Customer.email (applyCustomerBody body old))
  \/ (succeeded (fst (updateCustomer id body customers)) = false
      /\ snd (updateCustomer id body customers) = customers).
Proof.
  unfold updateCustomer, findByIdAndUpdate.
  destruct (castObjectId id) as [_id|]; [|now right].
  destruct (emptiedPaths body); [|now right].
  destruct (findOne Customer._id _id customers) as [old|] eqn:Hfind.
  2:{ rewrite (findOneAndUpdate_none _ _ _ _ Hfind). now right. }
  destruct (findOneAndUpdate_some Customer._id _id (applyCustomerBody body)
              _ _ Hfind) as (pre & post & Hcs & Hpre & Hid & ->).
  destruct (existsb _ customers) eqn:Hother; [now right|].
  left. exists old, pre, post. subst _id.
  repeat split; try assumption.
  intros c Hin Hneq Heq.
  assert (Ht : existsb
                 (fun c =>
                    negb (String.eqb (Customer._id c)
                            (Customer._id (applyCustomerBody body old)))
                    && String.eqb (Customer.email c)
                         (Customer.email (applyCustomerBody body old)))
                 customers = true).
  { apply existsb_exists. exists c. split; [assumption|].
    rewrite Heq, String.eqb_refl, andb_true_r.
    apply negb_true_iff. now apply String.eqb_neq. }
  congruence.
Qed.

Lemma deleteCustomer_cases id customers :
  (exists old pre post,
     customers = (pre ++ old :: post)%list
     /\ castObjectId id = Some (Customer._id old)
     /\ deleteCustomer id customers
        = (respond 200 (Notice "Customer deleted successfully"),
           (pre ++ post)%list))
  \/ (succeeded (fst (deleteCustomer id customers)) = false
      /\ snd (deleteCustomer id customers) = customers).
Proof.
  unfold deleteCustomer, findByIdAndDelete.
  destruct (castObjectId id) as [_id|]; [|now right].
  destruct (findOne Customer._id _id customers) as [old|] eqn:Hfind.
  - left. destruct (findOneAndDelete_some Customer._id _id _ _ Hfind)
      as (pre & post & Hcs & _ & Hid & ->).
    exists old, pre, post. subst _id. repeat split; assumption.
  - right. rewrite (findOneAndDelete_none Customer._id _id _ Hfind). auto.
Qed.

Lemma serveCustomer_distinct r customers :
  customersDistinct customers ->
  customersDistinct (snd (serveCustomer r customers)).
Proof.
  intros [Hids Hemails]. destruct r as [newId body|id body|id]; simpl.
  - destruct (createCustomer_cases newId body customers)
      as [(c & -> & Hid & _ & Hfresh & Hfree) | [_ ->]]; [|now split].
    simpl. split; rewrite map_app; simpl; apply NoDup_snoc;
      try assumption. now rewrite Hid.
  - destruct (updateCustomer_cases id body customers)
      as [(old & pre & post & Hcs & _ & _ & -> & Hothers) | [_ ->]];
      [|now split].
    simpl. subst customers. unfold customersDistinct.
    rewrite !map_app in *. simpl in *. split.
    + exact Hids.
    + apply NoDup_insert; [now apply NoDup_remove_1 in Hemails|].
      intros Hin. rewrite <- map_app in Hin.
      apply in_map_iff in Hin as (c & Heq & Hin).
      apply (Hothers c).
      * apply in_or_app. apply in_app_or in Hin as [Hin | Hin];
          [now left|right; now right].
      * intros Hcid. apply NoDup_remove_2 in Hids. apply Hids.
        rewrite <- map_app. apply in_map_iff. exists c.
        split; [congruence|assumption].
      * exact Heq.
  - destruct (deleteCustomer_cases id customers)
      as [(old & pre & post & Hcs & _ & ->) | [_ ->]]; [|now split].
    simpl. subst customers. unfold customersDistinct.
    rewrite !map_app in *. simpl in *.
    split; eapply NoDup_remove_1; eassumption.
Qed.

(** X13. Over any sequence of customer creations, updates and deletions,
    no two stored customers share an email address or an identifier: a
    creation or an update that would give a second customer the same email
    is refused. *)
Theorem customer_emails_stay_distinct rs customers :
  customersDistinct customers ->
  customersDistinct (serveCustomers rs customers).
Proof.
  unfold serveCustomers. revert customers.
  induction rs as [|r rs IH]; intros customers H; simpl; [assumption|].
  apply IH. now apply serveCustomer_distinct.
Qed.

(** X14. A customer request that is not answered with a 200 or a 201
    changes nothing: after a 400, 404 or 500 the collection is as it was.
    In particular a [POST /api/customers] whose email is already stored is
    answered with the 400 ['Customer with this email already exists']. *)
Theorem refused_customer_request_changes_nothing r customers :
  (succeeded (fst (serveCustomer r customers)) = false ->
   snd (serveCustomer r customers) = customers)
  /\ forall newId body name email phone,
       r = PostCustomer newId body ->
       required (CustomerBody.name body) = Some name ->
       required (CustomerBody.email body) = Some email ->
       required (CustomerBody.phone body) = Some phone ->
       In email (map Customer.email customers) ->
       serveCustomer r customers
       = (respond 400 (Failure "Customer with this email already exists"),
          customers).
Proof.
  split.
  - destruct r as [newId body|id body|id]; simpl.
    + destruct (createCustomer_cases newId body customers)
        as [(c & -> & _) | [_ ->]]; [discriminate|reflexivity].
    + destruct (updateCustomer_cases id body customers)
        as [(old & pre & post & _ & _ & _ & -> & _) | [_ ->]];
        [discriminate|reflexivity].
    + destruct (deleteCustomer_cases id customers)
        as [(old & pre & post & _ & _ & ->) | [_ ->]];
        [discriminate|reflexivity].
  - intros newId body name email phone -> Hname Hemail Hphone Hin.
    simpl. unfold createCustomer. rewrite Hname, Hemail, Hphone.
    assert (Ht : existsb (fun c => String.eqb (Customer.email c) email)
                   customers = true).
    { apply in_map_iff in Hin as (c & Hc & Hin).
      apply existsb_exists. exists c. split; [assumption|].
      rewrite Hc. apply String.eqb_refl. }
    rewrite Ht, orb_true_r. reflexivity.
Qed.

(** X15. What is written is what is read: the customer created by a 201,
    whose fresh [_id] is an ObjectId, or changed by a 200 is the document
    that [GET /api/customers/:id] then returns under its identifier, and,
    with distinct identifiers, a customer whose deletion was answered with
    a 200 is answered with a 404, under whatever spelling of the
    identifier. *)
Theorem customer_round_trip customers :
  customersDistinct customers ->
  (forall newId body customer,
      castObjectId newId = Some newId ->
      fst (createCustomer newId body customers)
      = respond 201 (Document customer) ->
      getCustomer newId (snd (createCustomer newId body customers))
      = respond 200 (Document customer))
  /\ (forall id body customer,
        fst (updateCustomer id body customers)
        = respond 200 (Document customer) ->
        getCustomer id (snd (updateCustomer id body customers))
        = respond 200 (Document customer))
  /\ (forall id id',
        fst (deleteCustomer id customers)
        = respond 200 (Notice "Customer deleted successfully") ->
        castObjectId id' = castObjectId id ->
        getCustomer id' (snd (deleteCustomer id customers))
        = respond 404 (Failure "Customer not found")).
Proof.
  intros [Hids _]. split; [|split].
  - intros newId body customer Hcast Hreply.
    destruct (createCustomer_cases newId body customers)
      as [(c & Heq & Hid & _ & Hfresh & _) | [Hfail _]].
    + rewrite Heq in *. simpl in *. inversion Hreply; subst c.
      unfold getCustomer.
      rewrite (findById_replaced Customer._id newId customers customer);
        [reflexivity| |now rewrite Hid|reflexivity].
      apply Forall_forall. intros x Hin.
      apply String.eqb_neq. intros Hx. apply Hfresh.
      apply in_map_iff. exists x. split; [|assumption].
      now rewrite Hx.
    + rewrite Hreply in Hfail. discriminate.
  - intros id body customer Hreply.
    destruct (updateCustomer_cases id body customers)
      as [(old & pre & post & _ & Hcast & Hpre & Heq & _) | [Hfail _]].
    + rewrite Heq in *. simpl in *. inversion Hreply; subst customer.
      unfold getCustomer.
      now rewrite (findById_replaced Customer._id id pre old).
    + rewrite Hreply in Hfail. discriminate.
  - intros id id' Hreply Hsame. unfold getCustomer, findById.
    rewrite Hsame.
    destruct (deleteCustomer_cases id customers)
      as [(old & pre & post & Hcs & Hcast & Heq) | [Hfail _]].
    + rewrite Heq, Hcast. simpl.
      rewrite findOne_not_in; [reflexivity|].
      subst customers. rewrite map_app in *. simpl in Hids.
      now apply NoDup_remove_2 in Hids.
    + rewrite Hreply in Hfail. discriminate.
Qed.

(** ** The token check *)

Lemma split_no_space s : hasSpace s = false -> split " " s = [s].
Proof.
  induction s as [|c s IH]; simpl; [reflexivity|].
  intros H. apply orb_false_iff in H as [Hc Hs].
  rewrite Hc, (IH Hs). reflexivity.
Qed.

Lemma split_first s rest :
  hasSpace s = false ->
  split " " (s ++ String " " rest) = s :: split " " rest.
Proof.
  induction s as [|c s IH]; simpl; [reflexivity|].
  intros H. apply orb_false_iff in H as [Hc Hs].
  rewrite Hc, (IH Hs). reflexivity.
Qed.

Section TokenFacts.
Context {User : Type} (verify : string -> option User).

Lemma tokenOf_second scheme token tail :
  hasSpace scheme = false ->
  hasSpace token = false ->
  tail = "" \/ (exists more, tail = String " " more) ->
  tokenOf (Some (scheme ++ String " " (token ++ tail))) = Some token.
Proof.
  intros Hscheme Htoken Htail.
  assert (Hsplit : nth_error
                     (split " " (scheme ++ String " " (token ++ tail))) 1
                   = Some token).
  { rewrite split_first by assumption. simpl.
    destruct Htail as [-> | [more ->]].
    - assert (Happ : token ++ "" = token).
      { clear. induction token as [|c t IH]; simpl; [reflexivity|].
        now rewrite IH. }
      rewrite Happ, split_no_space by assumption. reflexivity.
    - now rewrite split_first. }
  unfold tokenOf.
  destruct (scheme ++ String " " (token ++ tail)) eqn:Hh; [|exact Hsplit].
  destruct scheme; discriminate.
Qed.

(** X16. The token check reads the second space-separated word of the
    [Authorization] header and nothing else: whatever the first word is
    ("Bearer" or not) and whatever follows the second, the request is handed
    on exactly when that word is a token that verifies, is answered 403 when
    it does not verify and 401 when it is empty.  A request without the
    header, or with a header of one word, is answered 401. *)
Theorem token_is_second_word scheme token tail :
  hasSpace scheme = false ->
  hasSpace token = false ->
  tail = "" \/ (exists more, tail = String " " more) ->
  authenticateToken verify (Some (scheme ++ String " " (token ++ tail)))
  = (if String.eqb token "" then Answered 401 "Access token required"
     else
       match verify token with
       | Some user => HandedOn user
       | None => Answered 403 "Invalid token"
       end)
  /\ authenticateToken verify None = Answered 401 "Access token required"
  /\ authenticateToken verify (Some scheme)
     = Answered 401 "Access token required".
Proof.
  intros Hscheme Htoken Htail. split; [|split].
  - unfold authenticateToken.
    rewrite (tokenOf_second scheme token tail) by assumption.
    destruct token as [|c t]; simpl; [reflexivity|].
    now destruct (verify (String c t)).
  - reflexivity.
  - unfold authenticateToken, tokenOf.
    destruct scheme as [|c s]; [reflexivity|].
    rewrite split_no_space by assumption. reflexivity.
Qed.
End TokenFacts.

(** ** The product list and the category list *)

Lemma distinct_In v values : In v (distinct values) <-> In v values.
Proof.
  induction values as [|w rest IH]; simpl; [tauto|].
  rewrite filter_In, IH, negb_true_iff, String.eqb_neq.
  destruct (string_dec w v) as [-> | Hneq]; [tauto|].
  split; [tauto|]. intros [H | H]; [contradiction|]. right. split; congruence.
Qed.

Lemma distinct_NoDup values : NoDup (distinct values).
Proof.
  induction values as [|w rest IH]; simpl; constructor.
  - intros Hin. apply filter_In in Hin as [_ Hneq].
    rewrite String.eqb_refl in Hneq. discriminate.
  - now apply NoDup_filter.
Qed.

(** X17. [GET /api/products/categories] lists each category once, and
    only categories that have something to show: for every category it
    lists, [GET /api/products?category=...] returns at least one product.
    Conversely every product that [GET /api/products] returns, whatever the
    filters, is active and its category is in the category list. *)
Theorem categories_match_product_list
    (regex : string -> string -> bool) db :
  NoDup (getCategories db)
  /\ (forall category,
        In category (getCategories db) ->
        exists p,
          In p (getProducts regex (Some category) None db)
          /\ Product.isActive p = true)
  /\ (forall category search p,
        In p (getProducts regex category search db) ->
        In p (Products db)
        /\ Product.isActive p = true
        /\ In (Product.category p) (getCategories db)
        /\ (truthyString category = true ->
            category = Some (Product.category p))).
Proof.
  split; [apply distinct_NoDup|]. split.
  - intros category Hin. unfold getCategories in Hin.
    apply (proj1 (distinct_In _ _)) in Hin.
    apply in_map_iff in Hin as (p & Hcat & Hin).
    apply filter_In in Hin as [Hin Hactive].
    exists p. split; [|assumption].
    unfold getProducts. apply (proj1 (in_rev _ _)). apply filter_In.
    split; [assumption|]. rewrite Hactive, andb_true_r. simpl.
    destruct category; [reflexivity|]. rewrite Hcat. apply String.eqb_refl.
  - intros category search p Hin. unfold getProducts in Hin.
    apply in_rev in Hin. apply filter_In in Hin as [Hin Hkeep].
    apply andb_prop in Hkeep as [Hkeep _].
    apply andb_prop in Hkeep as [Hactive Hcat].
    split; [assumption|]. split; [assumption|]. split.
    + unfold getCategories. apply (proj2 (distinct_In _ _)). apply in_map.
      apply filter_In. now split.
    + intros Ht. rewrite Ht in Hcat.
      destruct category as [c|]; [|discriminate].
      simpl in Hcat. apply String.eqb_eq in Hcat. now subst.
Qed.

End Server.

(** * Worked examples

    The model at work, the counterexamples and the instances of the
    theorems, over the bson library that takes 24 hexadecimal digits
    only. *)

(** ** The model at work *)

Example toString_examples :
  toString 0 = "0" /\ toString 7 = "7" /\ toString 10 = "10"
  /\ toString 9999 = "9999" /\ toString 1700000000000 = "1700000000000".
Proof. repeat split. Qed.

Example padStart_examples :
  padStart 4 "0" "1" = "0001" /\ padStart 4 "0" "12345" = "12345"
  /\ padStart 6 "ab" "x" = "ababax" /\ padStart 4 "" "x" = "x".
Proof. repeat split. Qed.

Example invalidStatusMessage_text :
  invalidStatusMessage
  = "Invalid status. Must be one of: placed, shipped, delivered, cancelled".
Proof. reflexivity. Qed.

(** The scenario of the specification: 2 * 10.00 + 3 * 5.50 = 36.50. *)
Example createOrder_scenario :
  createOrder HexOnly env0 body0 db0
  = (reply 201 (OrderDoc order0), mkDb [P1; P2] [order0]).
Proof. vm_compute. reflexivity. Qed.

Example updateOrderStatus_scenario :
  updateOrderStatus HexOnly idO1 (Some "shipped") (mkDb [P1; P2] [order0])
  = (reply 200 (OrderDoc (Order.setStatus "shipped" order0)),
     mkDb [P1; P2] [Order.setStatus "shipped" order0]).
Proof. reflexivity. Qed.

(** An identifier casts in either case; a string that is not 24
    hexadecimal digits does not, but for the strings of 12 characters that
    the older releases take. *)
Example castObjectId_examples :
  castObjectId HexOnly idP1 = Some idP1
  /\ castObjectId HexOnly idP1Upper = Some idP1
  /\ castObjectId HexOnly notAnId = None
  /\ castObjectId HexOnly "65a00000000000000000000g" = None
  /\ castObjectId HexOnly "65a0000000000000000000001" = None
  /\ castObjectId HexOnly "hello world!" = None
  /\ castObjectId HexOrBytes "hello world!" = Some "68656c6c6f20776f726c6421"
  /\ castObjectId HexOrBytes idP1Upper = Some idP1
  /\ castObjectId HexOrBytes notAnId = None.
Proof. repeat split. Qed.

Example findById_examples :
  findById HexOnly Product._id idP1Upper (Products db0) = inr (Some P1)
  /\ findById HexOnly Product._id idNone (Products db0) = inr None
  /\ findById HexOnly Product._id notAnId (Products db0)
     = inl (CastError "ObjectId" notAnId "_id").
Proof. repeat split. Qed.

(** The requests of the examples are answered alike over the other
    library: their identifiers have 24 characters, or 3. *)
Example examples_over_either_library : forall bson,
  createOrder bson env0 body0 db0 = createOrder HexOnly env0 body0 db0
  /\ createOrder bson env0 bodyNotAnId db0
     = createOrder HexOnly env0 bodyNotAnId db0
  /\ createOrder bson env0 bodyNotAnIdSecond db0
     = createOrder HexOnly env0 bodyNotAnIdSecond db0
  /\ createOrder bson env0 bodyNegative db0
     = createOrder HexOnly env0 bodyNegative db0
  /\ createOrder bson env0 bodyFraction db0
     = createOrder HexOnly env0 bodyFraction db0
  /\ createOrder bson env0 bodyOneItem dbTaken
     = createOrder HexOnly env0 bodyOneItem dbTaken
  /\ updateOrderStatus bson notAnId (Some "shipped") dbOrders
     = updateOrderStatus HexOnly notAnId (Some "shipped") dbOrders
  /\ updateOrderStatus bson idO9 (Some "shipped") dbOrders
     = updateOrderStatus HexOnly idO9 (Some "shipped") dbOrders.
Proof. intros []; repeat split. Qed.

(** ** Counterexamples and instances *)

(** C1 on the scenario of the specification. *)
Lemma created_order_total_status_snapshots_witness :
  createOrder HexOnly env0 body0 db0
  = (reply 201 (OrderDoc order0), mkDb [P1; P2] [order0])
  /\ Order.totalAmount order0 = sumOfLines (Order.products order0)
  /\ Order.totalAmount order0 = 36.5%float
  /\ Order.status order0 = "placed".
Proof.
  split; [vm_compute; reflexivity|].
  destruct (created_order_total_status_snapshots HexOnly env0 body0 db0
              (reply 201 (OrderDoc order0)) (mkDb [P1; P2] [order0])
              eq_refl eq_refl)
    as (saved & products & Hr & _ & Ht & Hs & _).
  inversion Hr; subst saved.
  split; [exact Ht|]. split; [reflexivity | exact Hs].
Defined.

(** C2, as stated, fails: the request has a customer, its only line item
    has an identifier and a quantity of 1, and the identifier resolves to no
    product; yet the reply is not a not-found error naming that identifier.
    [Product.findById] throws on an identifier that does not cast to an
    ObjectId, and the handler's [catch] answers with a 500 that carries the
    cast error. *)
Lemma unresolved_item_cast_error :
  truthyString (Body.customer bodyNotAnId) = true
  /\ present (itemOf notAnId 1) = true
  /\ unresolved HexOnly db0 (itemOf notAnId 1)
  /\ createOrder HexOnly env0 bodyNotAnId db0
     = (reply 500 (ErrorOf (CastError "ObjectId" notAnId "_id")), db0)
  /\ fst (createOrder HexOnly env0 bodyNotAnId db0)
     <> reply 400 (Error ("Product not found: " ++ notAnId))
  /\ forall message,
       json (fst (createOrder HexOnly env0 bodyNotAnId db0)) <> Error message.
Proof.
  split; [reflexivity|]. split; [reflexivity|]. split; [|split; [|split]].
  - exists notAnId. split; [reflexivity|]. intros product. discriminate.
  - reflexivity.
  - discriminate.
  - intros message. discriminate.
Qed.

(** C2, amended, on an identifier under which nothing is stored and on one
    that does not cast, each after an item that resolves. *)
Lemma unresolved_item_aborts_witness :
  (snd (createOrder HexOnly env0 bodyUnknownSecond db0) = db0
   /\ fst (createOrder HexOnly env0 bodyUnknownSecond db0)
      = reply 400 (Error ("Product not found: " ++ idNone)))
  /\ (snd (createOrder HexOnly env0 bodyNotAnIdSecond db0) = db0
      /\ fst (createOrder HexOnly env0 bodyNotAnIdSecond db0)
         = reply 500 (ErrorOf (CastError "ObjectId" notAnId "_id"))).
Proof.
  assert (Hpre : Forall (passes HexOnly db0) [itemOf idP1 2]).
  { constructor; [|constructor].
    split; [reflexivity|]. eexists. reflexivity. }
  split.
  - assert (Hnone : forall product,
              findById HexOnly Product._id idNone (Products db0)
              <> inr (Some product)) by (intros product; discriminate).
    destruct (unresolved_item_aborts HexOnly env0 bodyUnknownSecond db0
                [itemOf idP1 2] (itemOf idNone 1) [] idNone
                eq_refl eq_refl Hnone)
      as (Hdb & _ & _ & Hreply).
    split; [exact Hdb|].
    now apply (proj1 (Hreply eq_refl eq_refl Hpre)).
  - assert (Hnone : forall product,
              findById HexOnly Product._id notAnId (Products db0)
              <> inr (Some product)) by (intros product; discriminate).
    destruct (unresolved_item_aborts HexOnly env0 bodyNotAnIdSecond db0
                [itemOf idP1 2] (itemOf notAnId 1) [] notAnId
                eq_refl eq_refl Hnone)
      as (Hdb & _ & _ & Hreply).
    split; [exact Hdb|].
    now apply (proj2 (Hreply eq_refl eq_refl Hpre)).
Defined.

(** C3 on two stored orders, one delivered and one cancelled. *)
Lemma any_recognised_status_is_stored_witness :
  (exists db',
     updateOrderStatus HexOnly idO1 (Some "placed") dbOrders
     = (reply 200 (OrderDoc (Order.setStatus "placed" orderDelivered)), db')
     /\ findById HexOnly Order._id idO1 (Orders db')
        = inr (Some (Order.setStatus "placed" orderDelivered))
     /\ Order.status (Order.setStatus "placed" orderDelivered) = "placed")
  /\ (exists db',
        updateOrderStatus HexOnly idO2 (Some "shipped") dbOrders
        = (reply 200 (OrderDoc (Order.setStatus "shipped" orderCancelled)),
           db')
        /\ findById HexOnly Order._id idO2 (Orders db')
           = inr (Some (Order.setStatus "shipped" orderCancelled))
        /\ Order.status (Order.setStatus "shipped" orderCancelled)
           = "shipped").
Proof.
  split.
  - apply (any_recognised_status_is_stored HexOnly idO1 "placed" dbOrders
             orderDelivered); [simpl; auto | reflexivity].
  - apply (any_recognised_status_is_stored HexOnly idO2 "shipped" dbOrders
             orderCancelled); [simpl; auto | reflexivity].
Defined.

(** C4, as stated, fails: the first save hits the unique index, a second
    save of the same document one millisecond later would go through, and
    yet the handler replies with a 500 carrying the store's error (not a
    conflict error) and stores nothing.  There is no retry. *)
Lemma duplicate_number_is_not_retried :
  save HexOnly (savedAt env0) draft0 dbTaken
  = inl (DuplicateKey "orderNumber_1" (Some "ORD-1700000000001-0002"))
  /\ (exists saved after,
        save HexOnly (savedAt envLater) draft0 dbTaken = inr (saved, after))
  /\ createOrder HexOnly env0 bodyOneItem dbTaken
     = (reply 500
          (ErrorOf
             (DuplicateKey "orderNumber_1" (Some "ORD-1700000000001-0002"))),
        dbTaken).
Proof.
  split; [reflexivity|]. split; [|reflexivity].
  eexists. eexists. reflexivity.
Qed.

(** C4, amended, on a store that holds the number to come. *)
Lemma duplicate_number_fails_at_once_witness :
  createOrder HexOnly env0 bodyOneItem dbTaken
  = (reply 500
       (ErrorOf
          (DuplicateKey "orderNumber_1" (Some "ORD-1700000000001-0002"))),
     dbTaken).
Proof.
  assert (Hne : [itemOf idP1 2] <> []) by discriminate.
  destruct (duplicate_number_fails_at_once HexOnly env0 bodyOneItem dbTaken
              idC1 [itemOf idP1 2] 20
              [LineItem.mk idP1 2 10]
              (DuplicateKey "orderNumber_1" (Some "ORD-1700000000001-0002"))
              eq_refl eq_refl eq_refl Hne eq_refl eq_refl)
    as [Hreply _].
  exact Hreply.
Defined.

(** C5, as stated, fails: over 9999 stored orders the hook renders the
    sequence number 10000 in five digits, so the order number does not end
    in exactly four. *)
Lemma order_number_five_digits :
  N.of_nat (length (Orders dbFull)) = 9999%N
  /\ Order.orderNumber (preSave 1700000000000 dbFull draft0)
     = Some "ORD-1700000000000-10000"
  /\ ~ (exists sequence,
          String.length sequence = 4
          /\ Order.orderNumber (preSave 1700000000000 dbFull draft0)
             = Some ("ORD-" ++ toString 1700000000000 ++ "-" ++ sequence)).
Proof.
  assert (Hnumber : Order.orderNumber (preSave 1700000000000 dbFull draft0)
                    = Some "ORD-1700000000000-10000")
    by (vm_compute; reflexivity).
  split; [vm_compute; reflexivity|]. split; [exact Hnumber|].
  intros (sequence & Hlen & Heq). rewrite Hnumber in Heq.
  vm_compute in Heq. inversion Heq; subst sequence. discriminate Hlen.
Qed.

(** C5, amended, on the first order of a store. *)
Lemma order_number_format_witness :
  Order.orderNumber (preSave 1700000000001 db0 draft0)
  = Some "ORD-1700000000001-0001"
  /\ String.length (padStart 4 "0" (toString 1)) = 4.
Proof.
  destruct (order_number_format 1700000000001 db0 draft0 eq_refl)
    as (Hnumber & _ & _ & _ & Hsmall & _).
  split; [exact Hnumber|].
  apply Hsmall. vm_compute. discriminate.
Defined.

(** C6, as stated, fails: a request without a customer and a request
    without products get one and the same message, and it is neither of the
    two the claim gives. *)
Lemma missing_customer_or_products_one_message :
  createOrder HexOnly env0 bodyNoCustomer db0
  = (reply 400 (Error "Customer and products are required"), db0)
  /\ createOrder HexOnly env0 bodyNoProducts db0
     = (reply 400 (Error "Customer and products are required"), db0)
  /\ json (fst (createOrder HexOnly env0 bodyNoCustomer db0))
     <> Error "customer required"
  /\ json (fst (createOrder HexOnly env0 bodyNoProducts db0))
     <> Error "products required".
Proof.
  repeat split; discriminate.
Qed.

(** C6, amended, on a request whose customer is the empty string. *)
Lemma customer_and_products_required_witness :
  createOrder HexOnly env0 bodyEmptyCustomer db0
  = (reply 400 (Error "Customer and products are required"), db0).
Proof.
  apply (customer_and_products_required HexOnly env0 bodyEmptyCustomer db0).
  left. reflexivity.
Defined.

(** C7, as stated, fails: a line item with quantity -1 is accepted and the
    order is stored, with a negative total, and so is a quantity of 1.5. *)
Lemma negative_quantity_is_accepted :
  createOrder HexOnly env0 bodyNegative db0
  = (reply 201 (OrderDoc orderNegative), mkDb [P1; P2] [orderNegative])
  /\ Order.totalAmount orderNegative = (-10)%float
  /\ createOrder HexOnly env0 bodyFraction db0
     = (reply 201 (OrderDoc orderFraction), mkDb [P1; P2] [orderFraction])
  /\ Order.totalAmount orderFraction = 15%float.
Proof.
  repeat split.
Qed.

(** C7, amended, on a zero quantity after an item that resolves, and after
    an identifier that does not cast. *)
Lemma falsy_quantity_aborts_witness :
  (snd (createOrder HexOnly env0 bodyZeroSecond db0) = db0
   /\ fst (createOrder HexOnly env0 bodyZeroSecond db0)
      = reply 400 (Error "Each product must have productId and quantity"))
  /\ (createOrder HexOnly env0 bodyZeroAfterNotAnId db0
      = (reply 500 (ErrorOf (CastError "ObjectId" notAnId "_id")), db0)
      /\ Exists (illFormed HexOnly) [itemOf notAnId 1]).
Proof.
  split.
  - destruct (falsy_quantity_aborts HexOnly env0 bodyZeroSecond db0
                [itemOf idP1 2] (itemOf idP2 0) [] eq_refl eq_refl)
      as (Hdb & _ & _ & Hreply).
    split; [exact Hdb|].
    apply Hreply; [reflexivity|].
    constructor; [|constructor].
    split; [reflexivity|]. eexists. reflexivity.
  - destruct (falsy_quantity_aborts HexOnly env0 bodyZeroAfterNotAnId db0
                [itemOf notAnId 1] (itemOf idP1 0) [] eq_refl eq_refl)
      as (_ & _ & Hill & _).
    split; [reflexivity|]. apply Hill. reflexivity.
Defined.

(** C8, as stated, fails: a request with no status, or with an empty one,
    is refused with ['Status is required'], which does not enumerate the
    valid values; and when the status is recognised and no order has the
    given identifier because it does not cast to an ObjectId at all, the
    reply is not a not-found error but the 500 that carries the cast
    error. *)
Lemma missing_status_message_lists_nothing :
  updateOrderStatus HexOnly idO1 None dbOrders
  = (reply 400 (Error "Status is required"), dbOrders)
  /\ updateOrderStatus HexOnly idO1 (Some "") dbOrders
     = (reply 400 (Error "Status is required"), dbOrders)
  /\ includes validStatuses "" = false
  /\ json (fst (updateOrderStatus HexOnly idO1 (Some "") dbOrders))
     <> Error invalidStatusMessage
  /\ updateOrderStatus HexOnly notAnId (Some "shipped") dbOrders
     = (reply 500 (ErrorOf (CastError "ObjectId" notAnId "_id")), dbOrders)
  /\ fst (updateOrderStatus HexOnly notAnId (Some "shipped") dbOrders)
     <> reply 404 (Error "Order not found").
Proof.
  repeat split; discriminate.
Qed.

(** C8, amended: one request for each refusal. *)
Lemma status_update_refusals_witness :
  updateOrderStatus HexOnly idO1 (Some "") dbOrders
  = (reply 400 (Error "Status is required"), dbOrders)
  /\ updateOrderStatus HexOnly idO1 (Some "refunded") dbOrders
     = (reply 400
          (Error
             "Invalid status. Must be one of: placed, shipped, delivered, cancelled"),
        dbOrders)
  /\ updateOrderStatus HexOnly idO9 (Some "shipped") dbOrders
     = (reply 404 (Error "Order not found"), dbOrders)
  /\ updateOrderStatus HexOnly notAnId (Some "shipped") dbOrders
     = (reply 500 (ErrorOf (CastError "ObjectId" notAnId "_id")), dbOrders).
Proof.
  split; [|split; [|split]].
  - apply (status_update_refusals HexOnly idO1 (Some "") dbOrders). reflexivity.
  - apply (status_update_refusals HexOnly idO1 (Some "refunded") dbOrders)
      with (s := "refunded"); reflexivity.
  - apply (status_update_refusals HexOnly idO9 (Some "shipped") dbOrders)
      with (s := "shipped") (_id := idO9); reflexivity.
  - apply (status_update_refusals HexOnly notAnId (Some "shipped") dbOrders)
      with (s := "shipped"); reflexivity.
Defined.

(** C9 on a status update followed by a price change. *)
Lemma status_update_changes_only_status_witness :
  exists updated,
    fst (updateOrderStatus HexOnly idO1 (Some "shipped") dbOrders)
    = reply 200 (OrderDoc updated)
    /\ Order.status updated = "shipped"
    /\ Order.products updated = Order.products orderDelivered
    /\ Order.totalAmount updated = 36.5%float
    /\ Products
         (snd (updateProduct HexOnly idP1 priceChange
                 (snd (updateOrderStatus HexOnly idO1 (Some "shipped")
                         dbOrders))))
       = [applyPatch priceChange P1; P2]
    /\ Orders
         (snd (updateProduct HexOnly idP1 priceChange
                 (snd (updateOrderStatus HexOnly idO1 (Some "shipped")
                         dbOrders))))
       = [updated; orderCancelled].
Proof.
  destruct (status_update_changes_only_status HexOnly idO1 (Some "shipped")
              dbOrders
              (fst (updateOrderStatus HexOnly idO1 (Some "shipped") dbOrders))
              (snd (updateOrderStatus HexOnly idO1 (Some "shipped") dbOrders))
              eq_refl eq_refl)
    as (s & order & updated & pre & post & Hs & Hdb & Hid & Hreply & Hdb'
        & _ & Hstatus & _ & _ & _ & Hlines & Htotal & _ & _ & Hlater).
  inversion Hreply. subst updated. eexists.
  do 5 (split; [reflexivity|]).
  rewrite Hlater. reflexivity.
Defined.

(** C10 on two stores that differ in [isActive] only. *)
Lemma createOrder_ignores_isActive_witness :
  Product.isActive P2off = false
  /\ createOrder HexOnly env0 body0 dbOff
     = (reply 201 (OrderDoc order0), mkDb [P1; P2off] [order0])
  /\ fst (createOrder HexOnly env0 body0 db0) = reply 201 (OrderDoc order0)
  /\ Order.totalAmount order0 = sumOfLines (Order.products order0).
Proof.
  assert (Hsame : sameButActiveDb db0 dbOff).
  { split; [|reflexivity]. repeat constructor. }
  destruct (createOrder_ignores_isActive HexOnly env0 body0 db0 dbOff Hsame)
    as (Hfst & _ & Hcreated).
  split; [reflexivity|]. split; [reflexivity|].
  assert (Hoff : fst (createOrder HexOnly env0 body0 dbOff)
                 = reply 201 (OrderDoc order0)) by reflexivity.
  split; [now rewrite <- Hfst|].
  destruct (Hcreated order0 Hoff) as (products & _ & _ & _ & Htotal).
  exact Htotal.
Defined.

(** X1 on a run of requests. *)
Lemma totals_stay_sums_witness :
  Forall totalIsSum (Orders (serveAll HexOnly requests0 db0))
  /\ length (Orders (serveAll HexOnly requests0 db0)) = 2.
Proof.
  split; [|reflexivity].
  apply (totals_stay_sums HexOnly requests0 db0). constructor.
Defined.

(** X2 on a run of requests. *)
Lemma statuses_stay_recognised_witness :
  Forall statusRecognised (Orders (serveAll HexOnly requests0 db0))
  /\ map Order.status (Orders (serveAll HexOnly requests0 db0))
     = ["shipped"; "cancelled"].
Proof.
  split; [|reflexivity].
  apply (statuses_stay_recognised HexOnly requests0 db0). constructor.
Defined.

(** X3 on a run of requests. *)
Lemma orders_keep_lines_witness :
  Forall hasLines (Orders (serveAll HexOnly requests0 db0))
  /\ map (fun o => length (Order.products o))
       (Orders (serveAll HexOnly requests0 db0)) = [2; 1].
Proof.
  split; [|reflexivity].
  apply (orders_keep_lines HexOnly requests0 db0). constructor.
Defined.

(** X4 on a run of requests. *)
Lemma order_numbers_stay_distinct_witness :
  NoDup (map Order.orderNumber (Orders (serveAll HexOnly requests0 db0)))
  /\ map Order.orderNumber (Orders (serveAll HexOnly requests0 db0))
     = [Some "ORD-1700000000001-0001"; Some "ORD-1700000000501-0002"].
Proof.
  split; [|reflexivity].
  apply (order_numbers_stay_distinct HexOnly requests0 db0). constructor.
Defined.

(** X6 on the second page of the orders of one customer. *)
Lemma getOrders_sound_witness :
  getOrders HexOnly (withPage queryC1 2) dbListing = inr [orderDelivered]
  /\ In orderDelivered (Orders dbListing)
  /\ castObjectId HexOnly idC1 = Some (Order.customer orderDelivered).
Proof.
  pose proof (getOrders_sound HexOnly (withPage queryC1 2) dbListing) as Hsound.
  assert (Hrun : getOrders HexOnly (withPage queryC1 2) dbListing
                 = inr [orderDelivered]) by reflexivity.
  rewrite Hrun in Hsound. destruct Hsound as [_ Hsound].
  destruct (Hsound orderDelivered (or_introl eq_refl))
    as (Hstored & _ & Hcustomer & _).
  split; [exact Hrun|]. split; [exact Hstored|].
  apply Hcustomer; reflexivity.
Defined.

(** X7 on the pages of a listing. *)
Lemma getOrders_pages_cover_witness :
  getOrders HexOnly (withPage queryC1 1%positive) dbListing = inr []
  /\ getOrders HexOnly (withPage queryC1 2%positive) dbListing
     = inr [orderDelivered]
  /\ exists pages,
       map (fun k => getOrders HexOnly (withPage queryC1 (Pos.of_succ_nat k))
                       dbListing) (seq 0 2)
       = map inr pages
       /\ concat pages = [orderDelivered].
Proof.
  split; [reflexivity|]. split; [reflexivity|].
  destruct (getOrders_pages_cover HexOnly queryC1 dbListing 2 eq_refl)
    as (pages & Hpages & Hall).
  - simpl. repeat constructor.
  - exists pages. split; [exact Hpages|]. rewrite Hall. reflexivity.
Defined.

(** X8 on a placed order. *)
Lemma status_buttons_follow_life_cycle_witness :
  offeredStatuses "placed" = ["shipped"; "cancelled"]
  /\ offeredStatuses "delivered" = []
  /\ exists db',
       clickStatus HexOnly order0 "shipped" (mkDb [P1; P2] [order0])
       = (reply 200 (OrderDoc (Order.setStatus "shipped" order0)), db').
Proof.
  split; [reflexivity|]. split; [reflexivity|].
  destruct (status_buttons_follow_life_cycle HexOnly
              (mkDb [P1; P2] [order0]) order0
              "shipped" eq_refl) as [(db' & Hclick & _) _].
  - simpl. auto.
  - exists db'. exact Hclick.
Defined.

(** X9 on a run of cart actions. *)
Lemma cart_stays_well_formed_witness :
  cartWellFormed cart0
  /\ cart0 = [CartItem.mk idP1 P1 2; CartItem.mk idP2 P2 3].
Proof.
  split; [|reflexivity].
  apply (cart_stays_well_formed
           [Pick P1; Pick P2; Pick P1; Plus (CartItem.mk idP2 P2 1);
            Plus (CartItem.mk idP2 P2 2)] []).
  split; constructor.
Defined.

(** X11 on a cart sent to the server. *)
Lemma shown_total_is_stored_total_witness :
  handleCreateOrder idC1 cart0 "" = Some body0
  /\ calculateTotal cart0 = 36.5%float
  /\ exists saved,
       createOrder HexOnly env0 body0 db0
       = (reply 201 (OrderDoc saved), mkDb [P1; P2] [saved])
       /\ Order.totalAmount saved = calculateTotal cart0.
Proof.
  split; [reflexivity|]. split; [reflexivity|].
  assert (Hprices :
    Forall
      (fun item =>
         forall product,
           findById HexOnly Product._id (CartItem.productId item) (Products db0)
           = inr (Some product) ->
           Product.price product = Product.price (CartItem.product item))
      cart0).
  { repeat constructor; intros product Hf; inversion Hf; reflexivity. }
  destruct (shown_total_is_stored_total HexOnly idC1 cart0 "" body0 env0 db0
              (fst (createOrder HexOnly env0 body0 db0))
              (snd (createOrder HexOnly env0 body0 db0))
              eq_refl Hprices eq_refl eq_refl)
    as (saved & Hreply & Horders & Htotal & _).
  exists saved. split; [|exact Htotal].
  inversion Hreply. reflexivity.
Defined.

(** X12 on a deletion under the upper-case spelling of the identifier. *)
Lemma deleted_product_is_gone_witness :
  fst (deleteProduct HexOnly idP1Upper dbOrders)
  = respond 200 (Notice "Product deleted successfully")
  /\ getProduct HexOnly idP1 (snd (deleteProduct HexOnly idP1Upper dbOrders))
     = respond 404 (Failure "Product not found")
  /\ Orders (snd (deleteProduct HexOnly idP1Upper dbOrders))
     = [orderDelivered; orderCancelled]
  /\ getProduct HexOnly idP2 (snd (deleteProduct HexOnly idP1Upper dbOrders))
     = respond 200 (Document P2).
Proof.
  assert (Hnd : NoDup (map Product._id (Products dbOrders))).
  { simpl. constructor; [|constructor; [|constructor]].
    - intros [H | []]. discriminate.
    - intros []. }
  destruct (deleted_product_is_gone HexOnly idP1Upper P1 dbOrders Hnd eq_refl)
    as (Hreply & Horders & Hgone & Hother & _).
  split; [exact Hreply|]. split; [now apply Hgone|].
  split; [exact Horders|].
  rewrite Hother; [reflexivity|discriminate].
Defined.

(** X13 on a run of customer requests. *)
Lemma customer_emails_stay_distinct_witness :
  customersDistinct (serveCustomers HexOnly customerRequests0 [])
  /\ map Customer.email (serveCustomers HexOnly customerRequests0 [])
     = ["john@example.com"; "john.doe@email.com"].
Proof.
  split; [|reflexivity].
  apply (customer_emails_stay_distinct HexOnly customerRequests0 []).
  split; constructor.
Defined.

(** X14 on a refused customer request. *)
Lemma refused_customer_request_changes_nothing_witness :
  serveCustomer HexOnly (PostCustomer idO9 john)
    (serveCustomers HexOnly [PostCustomer idC1 john] [])
  = (respond 400 (Failure "Customer with this email already exists"),
     serveCustomers HexOnly [PostCustomer idC1 john] []).
Proof.
  destruct (refused_customer_request_changes_nothing HexOnly
              (PostCustomer idO9 john)
              (serveCustomers HexOnly [PostCustomer idC1 john] []))
    as [_ Hdup].
  apply (Hdup idO9 john "John Doe" "john.doe@email.com" "+1-555-0101");
    try reflexivity.
  simpl. now left.
Defined.

(** X15 on a stored customer, a deletion under the upper-case spelling and
    an identifier that does not cast. *)
Lemma customer_round_trip_witness :
  getCustomer HexOnly idC2
    (snd (createCustomer idC2 jane
            (serveCustomers HexOnly [PostCustomer idC1 john] [])))
  = respond 200
      (Document
         (Customer.mk idC2 "Jane Smith" "jane.smith@email.com" "+1-555-0102"
            Address.none))
  /\ getCustomer HexOnly idC1
       (snd (deleteCustomer HexOnly "65C000000000000000000001"
               (serveCustomers HexOnly [PostCustomer idC1 john] [])))
     = respond 404 (Failure "Customer not found")
  /\ getCustomer HexOnly notAnId
       (serveCustomers HexOnly [PostCustomer idC1 john] [])
     = respond 500 (Thrown (CastError "ObjectId" notAnId "_id")).
Proof.
  assert (Hd : customersDistinct
                 (serveCustomers HexOnly [PostCustomer idC1 john] [])).
  { simpl. split; (constructor; [intros []|constructor]). }
  destruct (customer_round_trip HexOnly _ Hd) as (Hcreate & _ & Hdelete).
  split; [|split; [|reflexivity]].
  - apply Hcreate; reflexivity.
  - apply Hdelete; reflexivity.
Defined.

(** X16 on four [Authorization] headers. *)
Lemma token_is_second_word_witness :
  authenticateToken verify0 (Some "Bearer good.jwt.token") = HandedOn "admin"
  /\ authenticateToken verify0 (Some "Basic good.jwt.token and more")
     = HandedOn "admin"
  /\ authenticateToken verify0 (Some "Bearer  good.jwt.token")
     = Answered 401 "Access token required"
  /\ authenticateToken verify0 (Some "good.jwt.token")
     = Answered 401 "Access token required".
Proof.
  destruct (token_is_second_word verify0 "Bearer" "good.jwt.token" ""
              eq_refl eq_refl (or_introl eq_refl)) as (H1 & _ & _).
  destruct (token_is_second_word verify0 "Basic" "good.jwt.token" " and more"
              eq_refl eq_refl (or_intror (ex_intro _ "and more" eq_refl)))
    as (H2 & _ & _).
  destruct (token_is_second_word verify0 "Bearer" "" " good.jwt.token"
              eq_refl eq_refl
              (or_intror (ex_intro _ "good.jwt.token" eq_refl)))
    as (H3 & _ & _).
  destruct (token_is_second_word verify0 "good.jwt.token" "" ""
              eq_refl eq_refl (or_introl eq_refl)) as (_ & _ & H4).
  split; [exact H1|]. split; [exact H2|]. split; [exact H3 | exact H4].
Defined.

(** X18 on one number, generated over two stores. *)
Lemma generated_number_determines_time_and_count_witness :
  Order.orderNumber (preSave 1700000000001 db0 draft0)
  = Order.orderNumber (preSave 1700000000001 dbOff draft0)
  /\ length (Orders db0) = length (Orders dbOff).
Proof.
  split; [reflexivity|].
  apply (generated_number_determines_time_and_count
           1700000000001 db0 draft0 1700000000001 dbOff draft0);
    reflexivity.
Defined.
